(** * Study planner backend: schema, storage layer and request handlers

    A shallow embedding of [shared/schema.ts], [server/storage.ts] and
    [server/routes.ts] (concatenated in [src/registerRoutes.ts]).

    The development has two layers.
    - The storage layer at its declared types: the methods of
      [DatabaseStorage] and the handlers over them, with ids as integers
      and update sets as [Partial<Insert...>] records, on a store that
      holds every value of those types.
    - The server as deployed ([Module Wire]): the same methods and
      handlers from what Express hands over (path and query parameters as
      strings, [req.body] as parsed JSON) down to what PostgreSQL accepts
      (int4, text without U+0000, sequences that end, constraints).

    Modelling conventions.
    - A Postgres table is the list of its rows together with the counter of
      the [serial] sequence that feeds its [id] column.  Rows are typed
      records: [text] columns are [string], [integer] columns are [Z], a
      column without [notNull] is an [option].
    - A string is its UTF-8 bytes; the byte 0 is the character U+0000.
    - An [async] storage method is a function from the database to an
      outcome and a database: the outcome is either the returned value or
      the exception thrown.
    - Statements run one after the other: interleaving of concurrent
      requests is not modelled.
    - A number of a JSON body is an integer, or a fraction given by the
      integer just below it and the text JavaScript prints for it.
    - The drizzle query builder and the zod schemas derived by
      [createInsertSchema] are external collaborators: their models below
      follow the table declarations of the source.  What the JavaScript
      runtime, the driver and the database compute from a string
      ([parseInt], the collation, the text sent for a value of another
      type) is a parameter of the deployed server. *)

From Stdlib Require Import ZArith List String Bool Lia Sorted Permutation.
From Stdlib Require Import DecimalString.
Import ListNotations.
Local Open Scope string_scope.
Local Open Scope Z_scope.
Local Open Scope list_scope.
Local Set Warnings "-register-all".

(** ** JSON request bodies

    A value as [JSON.parse] returns it.  A number is [JNum n] when it is
    the integer [n]; any other number is [JFrac f t], where [f] is the
    integer just below it and [t] the text JavaScript prints for it (an
    overflowing literal is read as an infinity, which is not an integer
    either and lies beyond every bound).  The fields of [JObj] are the own
    properties of the parsed object, one per key. *)

Inductive Json : Type :=
| JNull
| JBool (b : bool)
| JNum (n : Z)
| JFrac (floor : Z) (printed : string)
| JStr (s : string)
| JArr (items : list Json)
| JObj (fields : list (string * Json)).

(** Own property [key] of a parsed object ([None] is [undefined]). *)
Fixpoint property (key : string) (fields : list (string * Json)) : option Json :=
  match fields with
  | [] => None
  | (k, v) :: rest => if String.eqb k key then Some v else property key rest
  end.

(** ** zod: types, issues and the combinators used by the insert schemas *)

Inductive ZodParsedType : Type :=
| ZString | ZNumber | ZInteger | ZFloat | ZBoolean | ZNull | ZUndefined
| ZArray | ZObject.

Inductive ZodIssueCode : Type :=
| InvalidType (expected received : ZodParsedType)
| TooSmall (minimum : Z)
| TooBig (maximum : Z).

Record ZodIssue : Type := mkIssue {
  issue_code : ZodIssueCode;
  issue_path : list string
}.

Inductive SafeParse (A : Type) : Type :=
| ParseSuccess (data : A)
| ParseFailure (issues : list ZodIssue).
Arguments ParseSuccess {A} data.
Arguments ParseFailure {A} issues.

Definition getParsedType (v : option Json) : ZodParsedType :=
  match v with
  | None => ZUndefined
  | Some JNull => ZNull
  | Some (JBool _) => ZBoolean
  | Some (JNum _) => ZNumber
  | Some (JFrac _ _) => ZNumber
  | Some (JStr _) => ZString
  | Some (JArr _) => ZArray
  | Some (JObj _) => ZObject
  end.

Definition ZodType (A : Type) : Type :=
  list string -> option Json -> list ZodIssue + A.

Definition invalid_type {A} (expected : ZodParsedType) (path : list string)
    (v : option Json) : list ZodIssue + A :=
  inl [mkIssue (InvalidType expected (getParsedType v)) path].

Definition zString : ZodType string := fun path v =>
  match v with
  | Some (JStr s) => inr s
  | _ => invalid_type ZString path v
  end.

(** The range of a Postgres [integer] (int4). *)
Definition INT32_MIN : Z := -2147483648.
Definition INT32_MAX : Z := 2147483647.

Definition int4 (n : Z) : bool := (INT32_MIN <=? n) && (n <=? INT32_MAX).

(** The schema of an [integer] column:
    [z.number().min(INT32_MIN).max(INT32_MAX).int()].  The three checks
    run in this order and each failing one adds its issue. *)
Definition zInteger : ZodType Z := fun path v =>
  match v with
  | Some (JNum n) =>
      if n <? INT32_MIN then inl [mkIssue (TooSmall INT32_MIN) path]
      else if INT32_MAX <? n then inl [mkIssue (TooBig INT32_MAX) path]
      else inr n
  | Some (JFrac f _) =>
      inl ((if f <? INT32_MIN then [mkIssue (TooSmall INT32_MIN) path] else [])
           ++ (if INT32_MAX <=? f then [mkIssue (TooBig INT32_MAX) path]
               else [])
           ++ [mkIssue (InvalidType ZInteger ZFloat) path])
  | _ => invalid_type ZNumber path v
  end.

Definition zBoolean : ZodType bool := fun path v =>
  match v with
  | Some (JBool b) => inr b
  | _ => invalid_type ZBoolean path v
  end.

Definition nullable {A} (t : ZodType A) : ZodType (option A) := fun path v =>
  match v with
  | Some JNull => inr None
  | _ => match t path v with inr a => inr (Some a) | inl e => inl e end
  end.

Definition optional {A} (t : ZodType A) : ZodType (option A) := fun path v =>
  match v with
  | None => inr None
  | _ => match t path v with inr a => inr (Some a) | inl e => inl e end
  end.

Definition shape {A} (t : ZodType A) (key : string)
    (fields : list (string * Json)) : list ZodIssue + A :=
  t [key] (property key fields).

Definition issues_of {A} (r : list ZodIssue + A) : list ZodIssue :=
  match r with inl e => e | inr _ => [] end.

Definition not_an_object {A} (body : Json) : SafeParse A :=
  ParseFailure [mkIssue (InvalidType ZObject (getParsedType (Some body))) []].

(** ** Schema: row types ([$inferSelect]), insert types and update sets *)

Module User.
Record t : Type := mk { id : Z; username : string; password : string }.
End User.

Module InsertUser.
Record t : Type := mk { username : string; password : string }.
End InsertUser.

Module Subject.
Record t : Type := mk {
  id : Z;
  name : string;
  color : string;
  icon : string;
  currentTopic : option string;
  progress : Z;
  totalHours : Z
}.
End Subject.

Module InsertSubject.
Record t : Type := mk {
  name : string;
  color : option string;
  icon : option string;
  currentTopic : option (option string);
  progress : option Z;
  totalHours : option Z
}.
End InsertSubject.

Module PartialInsertSubject.
Record t : Type := mk {
  name : option string;
  color : option string;
  icon : option string;
  currentTopic : option (option string);
  progress : option Z;
  totalHours : option Z
}.
(** The body [{}]. *)
Definition empty : t := mk None None None None None None.
End PartialInsertSubject.

Module StudySession.
Record t : Type := mk {
  id : Z;
  subjectId : Z;
  title : string;
  description : option string;
  startTime : string;
  endTime : string;
  date : string;
  status : string;
  actualDuration : option Z
}.
End StudySession.

Module InsertStudySession.
Record t : Type := mk {
  subjectId : Z;
  title : string;
  description : option (option string);
  startTime : string;
  endTime : string;
  date : string;
  status : option string;
  actualDuration : option (option Z)
}.
End InsertStudySession.

Module PartialInsertStudySession.
Record t : Type := mk {
  subjectId : option Z;
  title : option string;
  description : option (option string);
  startTime : option string;
  endTime : option string;
  date : option string;
  status : option string;
  actualDuration : option (option Z)
}.
(** The body [{}]. *)
Definition empty : t := mk None None None None None None None None.
End PartialInsertStudySession.

Module Note.
Record t : Type := mk {
  id : Z;
  subjectId : Z;
  title : string;
  content : string;
  createdAt : string
}.
End Note.

Module InsertNote.
Record t : Type := mk {
  subjectId : Z;
  title : string;
  content : string;
  createdAt : string
}.
End InsertNote.

Module PartialInsertNote.
Record t : Type := mk {
  subjectId : option Z;
  title : option string;
  content : option string;
  createdAt : option string
}.
(** The body [{}]. *)
Definition empty : t := mk None None None None.
End PartialInsertNote.

Module Goal.
Record t : Type := mk {
  id : Z;
  title : string;
  description : option string;
  targetDate : string;
  progress : Z;
  isCompleted : bool
}.
End Goal.

Module InsertGoal.
Record t : Type := mk {
  title : string;
  description : option (option string);
  targetDate : string;
  progress : option Z;
  isCompleted : option bool
}.
End InsertGoal.

Module PartialInsertGoal.
Record t : Type := mk {
  title : option string;
  description : option (option string);
  targetDate : option string;
  progress : option Z;
  isCompleted : option bool
}.
(** The body [{}]. *)
Definition empty : t := mk None None None None None.
End PartialInsertGoal.

Module StudyStats.
Record t : Type := mk {
  id : Z;
  date : string;
  totalMinutes : Z;
  sessionsCompleted : Z;
  streak : Z
}.
End StudyStats.

Module InsertStudyStats.
Record t : Type := mk {
  date : string;
  totalMinutes : option Z;
  sessionsCompleted : option Z;
  streak : option Z
}.
End InsertStudyStats.

(** ** Insert schemas ([createInsertSchema(table).omit({ id: true })])

    A [notNull] column without default is required, a column with a
    default is optional, a column without [notNull] is nullable and
    optional.  Unknown keys are stripped; every field is checked and the
    issues of all fields are reported together. *)

Definition insertUserSchema (body : Json) : SafeParse InsertUser.t :=
  match body with
  | JObj o =>
      let username := shape zString "username" o in
      let password := shape zString "password" o in
      match username, password with
      | inr u, inr p => ParseSuccess (InsertUser.mk u p)
      | _, _ => ParseFailure (issues_of username ++ issues_of password)
      end
  | _ => not_an_object body
  end.

Definition insertSubjectSchema (body : Json) : SafeParse InsertSubject.t :=
  match body with
  | JObj o =>
      let name := shape zString "name" o in
      let color := shape (optional zString) "color" o in
      let icon := shape (optional zString) "icon" o in
      let currentTopic := shape (optional (nullable zString)) "currentTopic" o in
      let progress := shape (optional zInteger) "progress" o in
      let totalHours := shape (optional zInteger) "totalHours" o in
      match name, color, icon, currentTopic, progress, totalHours with
      | inr n, inr c, inr i, inr t, inr p, inr h =>
          ParseSuccess (InsertSubject.mk n c i t p h)
      | _, _, _, _, _, _ =>
          ParseFailure (issues_of name ++ issues_of color ++ issues_of icon
                        ++ issues_of currentTopic ++ issues_of progress
                        ++ issues_of totalHours)
      end
  | _ => not_an_object body
  end.

Definition insertStudySessionSchema (body : Json)
    : SafeParse InsertStudySession.t :=
  match body with
  | JObj o =>
      let subjectId := shape zInteger "subjectId" o in
      let title := shape zString "title" o in
      let description := shape (optional (nullable zString)) "description" o in
      let startTime := shape zString "startTime" o in
      let endTime := shape zString "endTime" o in
      let date := shape zString "date" o in
      let status := shape (optional zString) "status" o in
      let actualDuration :=
        shape (optional (nullable zInteger)) "actualDuration" o in
      match subjectId, title, description, startTime, endTime, date, status,
            actualDuration with
      | inr s, inr t, inr d, inr b, inr e, inr day, inr st, inr a =>
          ParseSuccess (InsertStudySession.mk s t d b e day st a)
      | _, _, _, _, _, _, _, _ =>
          ParseFailure (issues_of subjectId ++ issues_of title
                        ++ issues_of description ++ issues_of startTime
                        ++ issues_of endTime ++ issues_of date
                        ++ issues_of status ++ issues_of actualDuration)
      end
  | _ => not_an_object body
  end.

Definition insertNoteSchema (body : Json) : SafeParse InsertNote.t :=
  match body with
  | JObj o =>
      let subjectId := shape zInteger "subjectId" o in
      let title := shape zString "title" o in
      let content := shape zString "content" o in
      let createdAt := shape zString "createdAt" o in
      match subjectId, title, content, createdAt with
      | inr s, inr t, inr c, inr a => ParseSuccess (InsertNote.mk s t c a)
      | _, _, _, _ =>
          ParseFailure (issues_of subjectId ++ issues_of title
                        ++ issues_of content ++ issues_of createdAt)
      end
  | _ => not_an_object body
  end.

Definition insertGoalSchema (body : Json) : SafeParse InsertGoal.t :=
  match body with
  | JObj o =>
      let title := shape zString "title" o in
      let description := shape (optional (nullable zString)) "description" o in
      let targetDate := shape zString "targetDate" o in
      let progress := shape (optional zInteger) "progress" o in
      let isCompleted := shape (optional zBoolean) "isCompleted" o in
      match title, description, targetDate, progress, isCompleted with
      | inr t, inr d, inr g, inr p, inr c =>
          ParseSuccess (InsertGoal.mk t d g p c)
      | _, _, _, _, _ =>
          ParseFailure (issues_of title ++ issues_of description
                        ++ issues_of targetDate ++ issues_of progress
                        ++ issues_of isCompleted)
      end
  | _ => not_an_object body
  end.

Definition insertStudyStatsSchema (body : Json)
    : SafeParse InsertStudyStats.t :=
  match body with
  | JObj o =>
      let date := shape zString "date" o in
      let totalMinutes := shape (optional zInteger) "totalMinutes" o in
      let sessionsCompleted := shape (optional zInteger) "sessionsCompleted" o in
      let streak := shape (optional zInteger) "streak" o in
      match date, totalMinutes, sessionsCompleted, streak with
      | inr d, inr m, inr c, inr s => ParseSuccess (InsertStudyStats.mk d m c s)
      | _, _, _, _ =>
          ParseFailure (issues_of date ++ issues_of totalMinutes
                        ++ issues_of sessionsCompleted ++ issues_of streak)
      end
  | _ => not_an_object body
  end.

(** ** The relational store *)

Record Table (R : Type) : Type := mkTable {
  rows : list R;
  serial : Z  (* next value of the id sequence *)
}.
Arguments mkTable {R} rows serial.
Arguments rows {R} t.
Arguments serial {R} t.

Record DB : Type := mkDB {
  users_rows : Table User.t;
  subjects_rows : Table Subject.t;
  studySessions_rows : Table StudySession.t;
  notes_rows : Table Note.t;
  goals_rows : Table Goal.t;
  studyStats_rows : Table StudyStats.t
}.

Definition empty_table {R} : Table R := mkTable [] 1.

Definition empty_db : DB :=
  mkDB empty_table empty_table empty_table empty_table empty_table empty_table.

(** A table declaration: where its rows live in the database, its primary
    key, its uniqueness constraints and the row an insert stores (serial
    id, column defaults for omitted values). *)
Record PgTable (R I : Type) : Type := mkPgTable {
  tbl_get : DB -> Table R;
  tbl_put : Table R -> DB -> DB;
  pk : R -> Z;
  conflicts : R -> R -> bool;
  stored : Z -> I -> R
}.
Arguments tbl_get {R I} p db.
Arguments tbl_put {R I} p t db.
Arguments pk {R I} p r.
Arguments conflicts {R I} p r1 r2.
Arguments stored {R I} p id values.

Definition default {A} (v : option A) (d : A) : A :=
  match v with Some a => a | None => d end.

(** A nullable column: omitted takes the column default, [null] is stored
    as such. *)
Definition default_null {A} (v : option (option A)) (d : option A) : option A :=
  match v with Some a => a | None => d end.

Definition users : PgTable User.t InsertUser.t := {|
  tbl_get := users_rows;
  tbl_put := fun t db =>
    mkDB t (subjects_rows db) (studySessions_rows db) (notes_rows db)
         (goals_rows db) (studyStats_rows db);
  pk := User.id;
  conflicts := fun a b =>
    (User.id a =? User.id b) || String.eqb (User.username a) (User.username b);
  stored := fun id v =>
    User.mk id (InsertUser.username v) (InsertUser.password v)
|}.

Definition subjects : PgTable Subject.t InsertSubject.t := {|
  tbl_get := subjects_rows;
  tbl_put := fun t db =>
    mkDB (users_rows db) t (studySessions_rows db) (notes_rows db)
         (goals_rows db) (studyStats_rows db);
  pk := Subject.id;
  conflicts := fun a b => Subject.id a =? Subject.id b;
  stored := fun id v =>
    Subject.mk id
      (InsertSubject.name v)
      (default (InsertSubject.color v) "#4F46E5")
      (default (InsertSubject.icon v) "fas fa-book")
      (default_null (InsertSubject.currentTopic v) None)
      (default (InsertSubject.progress v) 0)
      (default (InsertSubject.totalHours v) 0)
|}.

Definition studySessions : PgTable StudySession.t InsertStudySession.t := {|
  tbl_get := studySessions_rows;
  tbl_put := fun t db =>
    mkDB (users_rows db) (subjects_rows db) t (notes_rows db)
         (goals_rows db) (studyStats_rows db);
  pk := StudySession.id;
  conflicts := fun a b => StudySession.id a =? StudySession.id b;
  stored := fun id v =>
    StudySession.mk id
      (InsertStudySession.subjectId v)
      (InsertStudySession.title v)
      (default_null (InsertStudySession.description v) None)
      (InsertStudySession.startTime v)
      (InsertStudySession.endTime v)
      (InsertStudySession.date v)
      (default (InsertStudySession.status v) "upcoming")
      (default_null (InsertStudySession.actualDuration v) (Some 0))
|}.

Definition notes : PgTable Note.t InsertNote.t := {|
  tbl_get := notes_rows;
  tbl_put := fun t db =>
    mkDB (users_rows db) (subjects_rows db) (studySessions_rows db) t
         (goals_rows db) (studyStats_rows db);
  pk := Note.id;
  conflicts := fun a b => Note.id a =? Note.id b;
  stored := fun id v =>
    Note.mk id (InsertNote.subjectId v) (InsertNote.title v)
      (InsertNote.content v) (InsertNote.createdAt v)
|}.

Definition goals : PgTable Goal.t InsertGoal.t := {|
  tbl_get := goals_rows;
  tbl_put := fun t db =>
    mkDB (users_rows db) (subjects_rows db) (studySessions_rows db)
         (notes_rows db) t (studyStats_rows db);
  pk := Goal.id;
  conflicts := fun a b => Goal.id a =? Goal.id b;
  stored := fun id v =>
    Goal.mk id
      (InsertGoal.title v)
      (default_null (InsertGoal.description v) None)
      (InsertGoal.targetDate v)
      (default (InsertGoal.progress v) 0)
      (default (InsertGoal.isCompleted v) false)
|}.

Definition studyStats : PgTable StudyStats.t InsertStudyStats.t := {|
  tbl_get := studyStats_rows;
  tbl_put := fun t db =>
    mkDB (users_rows db) (subjects_rows db) (studySessions_rows db)
         (notes_rows db) (goals_rows db) t;
  pk := StudyStats.id;
  conflicts := fun a b => StudyStats.id a =? StudyStats.id b;
  stored := fun id v =>
    StudyStats.mk id
      (InsertStudyStats.date v)
      (default (InsertStudyStats.totalMinutes v) 0)
      (default (InsertStudyStats.sessionsCompleted v) 0)
      (default (InsertStudyStats.streak v) 0)
|}.

(** ** Update sets ([.set(values)])

    The number of own keys with a defined value, and the assignment of
    those values to a row; keys left [undefined] are not assigned. *)

Class UpdateSet (P R : Type) : Type := {
  entries : P -> nat;
  assign : P -> R -> R
}.

Definition defined {A} (v : option A) : nat :=
  match v with Some _ => 1%nat | None => 0%nat end.

#[export] Instance PartialInsertSubject_set
    : UpdateSet PartialInsertSubject.t Subject.t := {|
  entries := fun u =>
    (defined (PartialInsertSubject.name u)
     + defined (PartialInsertSubject.color u)
     + defined (PartialInsertSubject.icon u)
     + defined (PartialInsertSubject.currentTopic u)
     + defined (PartialInsertSubject.progress u)
     + defined (PartialInsertSubject.totalHours u))%nat;
  assign := fun u r =>
    Subject.mk (Subject.id r)
      (default (PartialInsertSubject.name u) (Subject.name r))
      (default (PartialInsertSubject.color u) (Subject.color r))
      (default (PartialInsertSubject.icon u) (Subject.icon r))
      (default_null (PartialInsertSubject.currentTopic u)
                    (Subject.currentTopic r))
      (default (PartialInsertSubject.progress u) (Subject.progress r))
      (default (PartialInsertSubject.totalHours u) (Subject.totalHours r))
|}.

#[export] Instance PartialInsertStudySession_set
    : UpdateSet PartialInsertStudySession.t StudySession.t := {|
  entries := fun u =>
    (defined (PartialInsertStudySession.subjectId u)
     + defined (PartialInsertStudySession.title u)
     + defined (PartialInsertStudySession.description u)
     + defined (PartialInsertStudySession.startTime u)
     + defined (PartialInsertStudySession.endTime u)
     + defined (PartialInsertStudySession.date u)
     + defined (PartialInsertStudySession.status u)
     + defined (PartialInsertStudySession.actualDuration u))%nat;
  assign := fun u r =>
    StudySession.mk (StudySession.id r)
      (default (PartialInsertStudySession.subjectId u)
               (StudySession.subjectId r))
      (default (PartialInsertStudySession.title u) (StudySession.title r))
      (default_null (PartialInsertStudySession.description u)
                    (StudySession.description r))
      (default (PartialInsertStudySession.startTime u)
               (StudySession.startTime r))
      (default (PartialInsertStudySession.endTime u) (StudySession.endTime r))
      (default (PartialInsertStudySession.date u) (StudySession.date r))
      (default (PartialInsertStudySession.status u) (StudySession.status r))
      (default_null (PartialInsertStudySession.actualDuration u)
                    (StudySession.actualDuration r))
|}.

#[export] Instance PartialInsertNote_set
    : UpdateSet PartialInsertNote.t Note.t := {|
  entries := fun u =>
    (defined (PartialInsertNote.subjectId u)
     + defined (PartialInsertNote.title u)
     + defined (PartialInsertNote.content u)
     + defined (PartialInsertNote.createdAt u))%nat;
  assign := fun u r =>
    Note.mk (Note.id r)
      (default (PartialInsertNote.subjectId u) (Note.subjectId r))
      (default (PartialInsertNote.title u) (Note.title r))
      (default (PartialInsertNote.content u) (Note.content r))
      (default (PartialInsertNote.createdAt u) (Note.createdAt r))
|}.

#[export] Instance PartialInsertGoal_set
    : UpdateSet PartialInsertGoal.t Goal.t := {|
  entries := fun u =>
    (defined (PartialInsertGoal.title u)
     + defined (PartialInsertGoal.description u)
     + defined (PartialInsertGoal.targetDate u)
     + defined (PartialInsertGoal.progress u)
     + defined (PartialInsertGoal.isCompleted u))%nat;
  assign := fun u r =>
    Goal.mk (Goal.id r)
      (default (PartialInsertGoal.title u) (Goal.title r))
      (default_null (PartialInsertGoal.description u) (Goal.description r))
      (default (PartialInsertGoal.targetDate u) (Goal.targetDate r))
      (default (PartialInsertGoal.progress u) (Goal.progress r))
      (default (PartialInsertGoal.isCompleted u) (Goal.isCompleted r))
|}.

(** [createOrUpdateStudyStats] passes the insert payload itself to
    [.set]: its [date] is always present. *)
#[export] Instance InsertStudyStats_set
    : UpdateSet InsertStudyStats.t StudyStats.t := {|
  entries := fun u =>
    (1 + defined (InsertStudyStats.totalMinutes u)
     + defined (InsertStudyStats.sessionsCompleted u)
     + defined (InsertStudyStats.streak u))%nat;
  assign := fun u r =>
    StudyStats.mk (StudyStats.id r)
      (InsertStudyStats.date u)
      (default (InsertStudyStats.totalMinutes u) (StudyStats.totalMinutes r))
      (default (InsertStudyStats.sessionsCompleted u)
               (StudyStats.sessionsCompleted r))
      (default (InsertStudyStats.streak u) (StudyStats.streak r))
|}.

(** ** Storage computations: state and exceptions *)

Inductive Thrown : Type :=
| TypeError           (* raised by the JavaScript runtime *)
| NoValuesToSet       (* the query builder rejects an empty update set *)
| DatabaseError       (* the database refuses the statement or a parameter *)
| UniqueViolation.    (* primary key or unique constraint *)

Definition Storage (A : Type) : Type := DB -> (Thrown + A) * DB.

Definition ret {A} (a : A) : Storage A := fun db => (inr a, db).

Definition throw {A} (e : Thrown) : Storage A := fun db => (inl e, db).

Definition bind {A B} (m : Storage A) (k : A -> Storage B) : Storage B :=
  fun db =>
    match m db with
    | (inr a, db') => k a db'
    | (inl e, db') => (inl e, db')
    end.

Notation "x <- m ;; k" := (bind m (fun x => k))
  (at level 61, m at next level, right associativity).

(** ** The query builder

    The statements at the declared types, on parameters and values the
    database accepts.  An update is given as rewriting the matching rows
    where they are.  What the database refuses, the primary key as a
    column of an update, and the order in which rows are listed after an
    update are in [Wire] below. *)

Class SqlEq (A : Type) : Type := { sql_eqb : A -> A -> bool }.
#[export] Instance SqlEq_integer : SqlEq Z := {| sql_eqb := Z.eqb |}.
#[export] Instance SqlEq_text : SqlEq string := {| sql_eqb := String.eqb |}.

(** [eq(column, value)] *)
Definition eq_ {R A} `{SqlEq A} (column : R -> A) (value : A) : R -> bool :=
  fun r => sql_eqb (column r) value.

(** [db.select().from(table)] *)
Definition select_from {R I} (table : PgTable R I) : Storage (list R) :=
  fun db => (inr (rows (tbl_get table db)), db).

(** [.where(condition)] on a select *)
Definition where_ {R} (condition : R -> bool) (q : Storage (list R))
    : Storage (list R) :=
  found <- q ;; ret (filter condition found).

(** [db.insert(table).values(v).returning()]: the sequence advances even
    when the row is rejected. *)
Definition insert_returning {R I} (table : PgTable R I) (values : I)
    : Storage (list R) :=
  fun db =>
    let t := tbl_get table db in
    let row := stored table (serial t) values in
    if existsb (conflicts table row) (rows t)
    then (inl UniqueViolation,
          tbl_put table (mkTable (rows t) (serial t + 1)) db)
    else (inr [row],
          tbl_put table (mkTable (rows t ++ [row]) (serial t + 1)) db).

(** [db.update(table).set(values).where(condition).returning()] *)
Definition update_returning {R I P} `{UpdateSet P R} (table : PgTable R I)
    (values : P) (condition : R -> bool) : Storage (list R) :=
  fun db =>
    if (entries values =? 0)%nat then (inl NoValuesToSet, db)
    else
      let t := tbl_get table db in
      (inr (map (assign values) (filter condition (rows t))),
       tbl_put table
         (mkTable (map (fun r => if condition r then assign values r else r)
                       (rows t))
                  (serial t))
         db).

Record QueryResult : Type := mkQueryResult { rowCount : option Z }.

(** [db.delete(table).where(condition)] *)
Definition delete_where {R I} (table : PgTable R I) (condition : R -> bool)
    : Storage QueryResult :=
  fun db =>
    let t := tbl_get table db in
    (inr (mkQueryResult
            (Some (Z.of_nat (List.length (filter condition (rows t)))))),
     tbl_put table
       (mkTable (filter (fun r => negb (condition r)) (rows t)) (serial t))
       db).

(** ** HTTP requests and responses *)

Inductive Body : Type :=
| NoBody
| JsonNull
| JsonMessage (message : string)
| JsonErrors (message : string) (errors : list ZodIssue)
| JsonSubject (subject : Subject.t)
| JsonSubjects (subjects : list Subject.t)
| JsonStudySession (session : StudySession.t)
| JsonStudySessions (sessions : list StudySession.t)
| JsonNote (note : Note.t)
| JsonNotes (notes : list Note.t)
| JsonGoal (goal : Goal.t)
| JsonGoals (goals : list Goal.t)
| JsonStats (stats : StudyStats.t)
| JsonStatsList (stats : list StudyStats.t).

Record Response : Type := mkResponse { status : Z; body : Body }.

(** [res.json(b)] *)
Definition json (b : Body) : Response := mkResponse 200 b.

(** [res.status(code).json(b)] *)
Definition status_json (code : Z) (b : Body) : Response := mkResponse code b.

(** [res.status(code).send()] *)
Definition status_send (code : Z) : Response := mkResponse code NoBody.

(** JSON of a value that may be [undefined]. *)
Definition json_of {A} (wrap : A -> Body) (v : option A) : Body :=
  match v with Some a => wrap a | None => NoBody end.

(** [if (s)] on a query parameter: absent and empty are both falsy. *)
Definition truthy (s : option string) : bool :=
  match s with
  | None => false
  | Some v => negb (String.eqb v "")
  end.

Inductive Request : Type :=
| GetSubjects
| GetSubject (id : Z)
| PostSubject (body : Json)
| PatchSubject (id : Z) (updates : PartialInsertSubject.t)
| DeleteSubject (id : Z)
| GetStudySessions (date : option string)
| PostStudySession (body : Json)
| PatchStudySession (id : Z) (updates : PartialInsertStudySession.t)
| DeleteStudySession (id : Z)
| GetNotes (subjectId : option Z)
| PostNote (body : Json)
| PatchNote (id : Z) (updates : PartialInsertNote.t)
| DeleteNote (id : Z)
| GetGoals
| PostGoal (body : Json)
| PatchGoal (id : Z) (updates : PartialInsertGoal.t)
| DeleteGoal (id : Z)
| GetStudyStats (date : option string)
| PostStudyStats (body : Json).

(** [try { ... } catch (error) { res.status(500).json({ message }) }] *)
Definition try_catch (m : Storage Response) (message : string)
    : DB -> Response * DB :=
  fun db =>
    match m db with
    | (inr res, db') => (res, db')
    | (inl _, db') => (status_json 500 (JsonMessage message), db')
    end.

Section Server.

(** The ordering of [text] values under the database collation. *)
Variable collate_le : string -> string -> bool.

(** [.orderBy(column)]: ascending.  The order among rows with equal keys
    is the one of the input. *)
Fixpoint insert_by {R} (column : R -> string) (x : R) (l : list R) : list R :=
  match l with
  | [] => [x]
  | y :: l' =>
      if collate_le (column x) (column y) then x :: y :: l'
      else y :: insert_by column x l'
  end.

Definition sort_by {R} (column : R -> string) (l : list R) : list R :=
  fold_right (insert_by column) [] l.

Definition orderBy {R} (column : R -> string) (q : Storage (list R))
    : Storage (list R) :=
  found <- q ;; ret (sort_by column found).

(** ** [DatabaseStorage] *)

Definition getUser (id : Z) : Storage (option User.t) :=
  found <- where_ (eq_ User.id id) (select_from users) ;;
  ret (hd_error found).

Definition getUserByUsername (username : string) : Storage (option User.t) :=
  found <- where_ (eq_ User.username username) (select_from users) ;;
  ret (hd_error found).

Definition createUser (insertUser : InsertUser.t) : Storage (option User.t) :=
  created <- insert_returning users insertUser ;;
  ret (hd_error created).

Definition getSubjects : Storage (list Subject.t) :=
  select_from subjects.

Definition getSubject (id : Z) : Storage (option Subject.t) :=
  found <- where_ (eq_ Subject.id id) (select_from subjects) ;;
  ret (hd_error found).

Definition createSubject (insertSubject : InsertSubject.t)
    : Storage (option Subject.t) :=
  created <- insert_returning subjects insertSubject ;;
  ret (hd_error created).

Definition updateSubject (id : Z) (updates : PartialInsertSubject.t)
    : Storage (option Subject.t) :=
  updated <- update_returning subjects updates (eq_ Subject.id id) ;;
  ret (hd_error updated).

Definition deleteSubject (id : Z) : Storage bool :=
  result <- delete_where subjects (eq_ Subject.id id) ;;
  ret (0 <? default (rowCount result) 0).

Definition getStudySessions : Storage (list StudySession.t) :=
  select_from studySessions.

Definition getStudySessionsByDate (date : string)
    : Storage (list StudySession.t) :=
  where_ (eq_ StudySession.date date) (select_from studySessions).

Definition getStudySession (id : Z) : Storage (option StudySession.t) :=
  found <- where_ (eq_ StudySession.id id) (select_from studySessions) ;;
  ret (hd_error found).

Definition createStudySession (insertSession : InsertStudySession.t)
    : Storage (option StudySession.t) :=
  created <- insert_returning studySessions insertSession ;;
  ret (hd_error created).

Definition updateStudySession (id : Z) (updates : PartialInsertStudySession.t)
    : Storage (option StudySession.t) :=
  updated <- update_returning studySessions updates (eq_ StudySession.id id) ;;
  ret (hd_error updated).

Definition deleteStudySession (id : Z) : Storage bool :=
  result <- delete_where studySessions (eq_ StudySession.id id) ;;
  ret (0 <? default (rowCount result) 0).

Definition getNotes : Storage (list Note.t) :=
  orderBy Note.createdAt (select_from notes).

Definition getNotesBySubject (subjectId : Z) : Storage (list Note.t) :=
  orderBy Note.createdAt
    (where_ (eq_ Note.subjectId subjectId) (select_from notes)).

Definition getNote (id : Z) : Storage (option Note.t) :=
  found <- where_ (eq_ Note.id id) (select_from notes) ;;
  ret (hd_error found).

Definition createNote (insertNote : InsertNote.t) : Storage (option Note.t) :=
  created <- insert_returning notes insertNote ;;
  ret (hd_error created).

Definition updateNote (id : Z) (updates : PartialInsertNote.t)
    : Storage (option Note.t) :=
  updated <- update_returning notes updates (eq_ Note.id id) ;;
  ret (hd_error updated).

Definition deleteNote (id : Z) : Storage bool :=
  result <- delete_where notes (eq_ Note.id id) ;;
  ret (0 <? default (rowCount result) 0).

Definition getGoals : Storage (list Goal.t) :=
  select_from goals.

Definition getGoal (id : Z) : Storage (option Goal.t) :=
  found <- where_ (eq_ Goal.id id) (select_from goals) ;;
  ret (hd_error found).

Definition createGoal (insertGoal : InsertGoal.t) : Storage (option Goal.t) :=
  created <- insert_returning goals insertGoal ;;
  ret (hd_error created).

Definition updateGoal (id : Z) (updates : PartialInsertGoal.t)
    : Storage (option Goal.t) :=
  updated <- update_returning goals updates (eq_ Goal.id id) ;;
  ret (hd_error updated).

Definition deleteGoal (id : Z) : Storage bool :=
  result <- delete_where goals (eq_ Goal.id id) ;;
  ret (0 <? default (rowCount result) 0).

Definition getStudyStats : Storage (list StudyStats.t) :=
  select_from studyStats.

Definition getStudyStatsByDate (date : string) : Storage (option StudyStats.t) :=
  found <- where_ (eq_ StudyStats.date date) (select_from studyStats) ;;
  ret (hd_error found).

Definition createOrUpdateStudyStats (insertStats : InsertStudyStats.t)
    : Storage (option StudyStats.t) :=
  existing <- getStudyStatsByDate (InsertStudyStats.date insertStats) ;;
  match existing with
  | Some _ =>
      updated <- update_returning studyStats insertStats
                   (eq_ StudyStats.date (InsertStudyStats.date insertStats)) ;;
      ret (hd_error updated)
  | None =>
      created <- insert_returning studyStats insertStats ;;
      ret (hd_error created)
  end.

(** ** Routes ([registerRoutes])

    The handlers over the storage layer, once [parseInt] has read the path
    or query parameter as an integer and the PATCH body is an update set
    of the declared type.  [Wire] has them on the strings and the JSON
    body of the request. *)

Definition GET_subjects : DB -> Response * DB :=
  try_catch
    (subjects <- getSubjects ;;
     ret (json (JsonSubjects subjects)))
    "Failed to fetch subjects".

Definition GET_subjects_id (id : Z) : DB -> Response * DB :=
  try_catch
    (subject <- getSubject id ;;
     match subject with
     | None => ret (status_json 404 (JsonMessage "Subject not found"))
     | Some s => ret (json (JsonSubject s))
     end)
    "Failed to fetch subject".

Definition POST_subjects (body : Json) : DB -> Response * DB :=
  try_catch
    (match insertSubjectSchema body with
     | ParseFailure issues =>
         ret (status_json 400 (JsonErrors "Invalid subject data" issues))
     | ParseSuccess data =>
         subject <- createSubject data ;;
         ret (status_json 201 (json_of JsonSubject subject))
     end)
    "Failed to create subject".

Definition PATCH_subjects_id (id : Z) (updates : PartialInsertSubject.t)
    : DB -> Response * DB :=
  try_catch
    (subject <- updateSubject id updates ;;
     match subject with
     | None => ret (status_json 404 (JsonMessage "Subject not found"))
     | Some s => ret (json (JsonSubject s))
     end)
    "Failed to update subject".

Definition DELETE_subjects_id (id : Z) : DB -> Response * DB :=
  try_catch
    (success <- deleteSubject id ;;
     if negb success
     then ret (status_json 404 (JsonMessage "Subject not found"))
     else ret (status_send 204))
    "Failed to delete subject".

Definition GET_study_sessions (date : option string) : DB -> Response * DB :=
  try_catch
    (if truthy date
     then sessions <- getStudySessionsByDate (default date "") ;;
          ret (json (JsonStudySessions sessions))
     else sessions <- getStudySessions ;;
          ret (json (JsonStudySessions sessions)))
    "Failed to fetch study sessions".

Definition POST_study_sessions (body : Json) : DB -> Response * DB :=
  try_catch
    (match insertStudySessionSchema body with
     | ParseFailure issues =>
         ret (status_json 400 (JsonErrors "Invalid session data" issues))
     | ParseSuccess data =>
         session <- createStudySession data ;;
         ret (status_json 201 (json_of JsonStudySession session))
     end)
    "Failed to create study session".

Definition PATCH_study_sessions_id (id : Z)
    (updates : PartialInsertStudySession.t) : DB -> Response * DB :=
  try_catch
    (session <- updateStudySession id updates ;;
     match session with
     | None => ret (status_json 404 (JsonMessage "Study session not found"))
     | Some s => ret (json (JsonStudySession s))
     end)
    "Failed to update study session".

Definition DELETE_study_sessions_id (id : Z) : DB -> Response * DB :=
  try_catch
    (success <- deleteStudySession id ;;
     if negb success
     then ret (status_json 404 (JsonMessage "Study session not found"))
     else ret (status_send 204))
    "Failed to delete study session".

Definition GET_notes (subjectId : option Z) : DB -> Response * DB :=
  try_catch
    (match subjectId with
     | Some s =>
         notes <- getNotesBySubject s ;;
         ret (json (JsonNotes notes))
     | None =>
         notes <- getNotes ;;
         ret (json (JsonNotes notes))
     end)
    "Failed to fetch notes".

Definition POST_notes (body : Json) : DB -> Response * DB :=
  try_catch
    (match insertNoteSchema body with
     | ParseFailure issues =>
         ret (status_json 400 (JsonErrors "Invalid note data" issues))
     | ParseSuccess data =>
         note <- createNote data ;;
         ret (status_json 201 (json_of JsonNote note))
     end)
    "Failed to create note".

Definition PATCH_notes_id (id : Z) (updates : PartialInsertNote.t)
    : DB -> Response * DB :=
  try_catch
    (note <- updateNote id updates ;;
     match note with
     | None => ret (status_json 404 (JsonMessage "Note not found"))
     | Some n => ret (json (JsonNote n))
     end)
    "Failed to update note".

Definition DELETE_notes_id (id : Z) : DB -> Response * DB :=
  try_catch
    (success <- deleteNote id ;;
     if negb success
     then ret (status_json 404 (JsonMessage "Note not found"))
     else ret (status_send 204))
    "Failed to delete note".

Definition GET_goals : DB -> Response * DB :=
  try_catch
    (goals <- getGoals ;;
     ret (json (JsonGoals goals)))
    "Failed to fetch goals".

Definition POST_goals (body : Json) : DB -> Response * DB :=
  try_catch
    (match insertGoalSchema body with
     | ParseFailure issues =>
         ret (status_json 400 (JsonErrors "Invalid goal data" issues))
     | ParseSuccess data =>
         goal <- createGoal data ;;
         ret (status_json 201 (json_of JsonGoal goal))
     end)
    "Failed to create goal".

Definition PATCH_goals_id (id : Z) (updates : PartialInsertGoal.t)
    : DB -> Response * DB :=
  try_catch
    (goal <- updateGoal id updates ;;
     match goal with
     | None => ret (status_json 404 (JsonMessage "Goal not found"))
     | Some g => ret (json (JsonGoal g))
     end)
    "Failed to update goal".

Definition DELETE_goals_id (id : Z) : DB -> Response * DB :=
  try_catch
    (success <- deleteGoal id ;;
     if negb success
     then ret (status_json 404 (JsonMessage "Goal not found"))
     else ret (status_send 204))
    "Failed to delete goal".

Definition GET_study_stats (date : option string) : DB -> Response * DB :=
  try_catch
    (if truthy date
     then stats <- getStudyStatsByDate (default date "") ;;
          ret (json (match stats with Some s => JsonStats s | None => JsonNull end))
     else stats <- getStudyStats ;;
          ret (json (JsonStatsList stats)))
    "Failed to fetch study stats".

Definition POST_study_stats (body : Json) : DB -> Response * DB :=
  try_catch
    (match insertStudyStatsSchema body with
     | ParseFailure issues =>
         ret (status_json 400 (JsonErrors "Invalid stats data" issues))
     | ParseSuccess data =>
         stats <- createOrUpdateStudyStats data ;;
         ret (json (json_of JsonStats stats))
     end)
    "Failed to update study stats".

Definition handle (req : Request) : DB -> Response * DB :=
  match req with
  | GetSubjects => GET_subjects
  | GetSubject id => GET_subjects_id id
  | PostSubject body => POST_subjects body
  | PatchSubject id updates => PATCH_subjects_id id updates
  | DeleteSubject id => DELETE_subjects_id id
  | GetStudySessions date => GET_study_sessions date
  | PostStudySession body => POST_study_sessions body
  | PatchStudySession id updates => PATCH_study_sessions_id id updates
  | DeleteStudySession id => DELETE_study_sessions_id id
  | GetNotes subjectId => GET_notes subjectId
  | PostNote body => POST_notes body
  | PatchNote id updates => PATCH_notes_id id updates
  | DeleteNote id => DELETE_notes_id id
  | GetGoals => GET_goals
  | PostGoal body => POST_goals body
  | PatchGoal id updates => PATCH_goals_id id updates
  | DeleteGoal id => DELETE_goals_id id
  | GetStudyStats date => GET_study_stats date
  | PostStudyStats body => POST_study_stats body
  end.

(** Requests served one after the other. *)
Fixpoint serve (reqs : list Request) (db : DB) : list Response * DB :=
  match reqs with
  | [] => ([], db)
  | req :: rest =>
      let (res, db') := handle req db in
      let (more, db'') := serve rest db' in
      (res :: more, db'')
  end.

(** ** Invariants of the store *)

(** Every stored id was drawn from the table's sequence. *)
Definition serial_ok {R I} (table : PgTable R I) (db : DB) : Prop :=
  Forall (fun r => pk table r < serial (tbl_get table db))
         (rows (tbl_get table db)).

(** At most one statistics row per date. *)
Definition one_row_per_date (db : DB) : Prop :=
  NoDup (map StudyStats.date (rows (studyStats_rows db))).

Definition db_ok (db : DB) : Prop :=
  serial_ok subjects db /\ serial_ok studySessions db /\ serial_ok notes db
  /\ serial_ok goals db /\ serial_ok studyStats db /\ one_row_per_date db.

End Server.

(** The statement shared by the by-id methods of every entity; each
    method of [DatabaseStorage] above is one of these at its table. *)
Definition get_by_id {R I} (table : PgTable R I) (id : Z) : Storage (option R) :=
  found <- where_ (eq_ (pk table) id) (select_from table) ;;
  ret (hd_error found).

Definition create {R I} (table : PgTable R I) (values : I) : Storage (option R) :=
  created <- insert_returning table values ;;
  ret (hd_error created).

Definition update_by_id {R I P} `{UpdateSet P R} (table : PgTable R I) (id : Z)
    (updates : P) : Storage (option R) :=
  updated <- update_returning table updates (eq_ (pk table) id) ;;
  ret (hd_error updated).

Definition delete_by_id {R I} (table : PgTable R I) (id : Z) : Storage bool :=
  result <- delete_where table (eq_ (pk table) id) ;;
  ret (0 <? default (rowCount result) 0).

(** Reading and writing a table go to the same place of the database. *)
Record table_laws {R I} (table : PgTable R I) : Prop := {
  get_put : forall t db, tbl_get table (tbl_put table t db) = t;
  put_get : forall db,
    tbl_put table
      (mkTable (rows (tbl_get table db)) (serial (tbl_get table db))) db = db
}.

(** Ids stored in a table. *)
Definition stored_ids {R I} (table : PgTable R I) (db : DB) : list Z :=
  map (pk table) (rows (tbl_get table db)).

(** Rows a statement removed from a table. *)
Definition removed {R I} (table : PgTable R I) (db db' : DB) : nat :=
  (List.length (rows (tbl_get table db))
   - List.length (rows (tbl_get table db')))%nat.

(** A creation route answered 201 with [row], appended [row] to the table
    and drew its id from the sequence. *)
Definition creates {R I} (table : PgTable R I) (wrap : R -> Body)
    (route : DB -> Response * DB) (db : DB) (row : R) : Prop :=
  fst (route db) = status_json 201 (wrap row)
  /\ rows (tbl_get table (snd (route db))) = rows (tbl_get table db) ++ [row]
  /\ pk table row = serial (tbl_get table db)
  /\ ~ In (pk table row) (stored_ids table db).

(** Deleting a stored id succeeds (204) and deleting it again reports
    absence (404). *)
Definition delete_then_not_found {R I} (table : PgTable R I)
    (delete : Z -> Storage bool) (DELETE : Z -> DB -> Response * DB)
    (message : string) (db : DB) (id : Z) : Prop :=
  In id (stored_ids table db) ->
  fst (delete id db) = inr true
  /\ delete id (snd (delete id db)) = (inr false, snd (delete id db))
  /\ fst (DELETE id db) = status_send 204
  /\ DELETE id (snd (DELETE id db))
     = (status_json 404 (JsonMessage message), snd (DELETE id db)).

(** The result of delete is [true] exactly when the table lost a row; on
    [false] the database is as before. *)
Definition delete_reports_removal {R I} (table : PgTable R I)
    (delete : Z -> Storage bool) (db : DB) (id : Z) : Prop :=
  exists b, fst (delete id db) = inr b
    /\ (b = true <-> (0 < removed table db (snd (delete id db)))%nat)
    /\ (b = false -> snd (delete id db) = db).

(** The stored row of a creation payload: the validated input, and the
    declared column default for each omitted field. *)
Definition subject_as_stored (data : InsertSubject.t) (row : Subject.t) : Prop :=
  Subject.name row = InsertSubject.name data
  /\ Subject.color row = default (InsertSubject.color data) "#4F46E5"
  /\ Subject.icon row = default (InsertSubject.icon data) "fas fa-book"
  /\ Subject.currentTopic row
     = default_null (InsertSubject.currentTopic data) None
  /\ Subject.progress row = default (InsertSubject.progress data) 0
  /\ Subject.totalHours row = default (InsertSubject.totalHours data) 0.

Definition session_as_stored (data : InsertStudySession.t)
    (row : StudySession.t) : Prop :=
  StudySession.subjectId row = InsertStudySession.subjectId data
  /\ StudySession.title row = InsertStudySession.title data
  /\ StudySession.description row
     = default_null (InsertStudySession.description data) None
  /\ StudySession.startTime row = InsertStudySession.startTime data
  /\ StudySession.endTime row = InsertStudySession.endTime data
  /\ StudySession.date row = InsertStudySession.date data
  /\ StudySession.status row
     = default (InsertStudySession.status data) "upcoming"
  /\ StudySession.actualDuration row
     = default_null (InsertStudySession.actualDuration data) (Some 0).

Definition note_as_stored (data : InsertNote.t) (row : Note.t) : Prop :=
  Note.subjectId row = InsertNote.subjectId data
  /\ Note.title row = InsertNote.title data
  /\ Note.content row = InsertNote.content data
  /\ Note.createdAt row = InsertNote.createdAt data.

Definition goal_as_stored (data : InsertGoal.t) (row : Goal.t) : Prop :=
  Goal.title row = InsertGoal.title data
  /\ Goal.description row = default_null (InsertGoal.description data) None
  /\ Goal.targetDate row = InsertGoal.targetDate data
  /\ Goal.progress row = default (InsertGoal.progress data) 0
  /\ Goal.isCompleted row = default (InsertGoal.isCompleted data) false.

(** A valid body on a creation route: the route answers 201 with the row
    the storage method returned, which is the row appended to the table,
    carries a fresh id and holds the validated input with defaults. *)
Definition creates_as_stored {R I} (table : PgTable R I)
    (schema : Json -> SafeParse I) (method : I -> Storage (option R))
    (wrap : R -> Body) (POST : Json -> DB -> Response * DB)
    (as_stored : I -> R -> Prop) (db : DB) (body : Json) : Prop :=
  serial_ok table db ->
  forall data, schema body = ParseSuccess data ->
  exists row,
    fst (method data db) = inr (Some row)
    /\ creates table wrap (POST body) db row
    /\ as_stored data row.

(** Sample data: the store after POST /api/subjects with
    [{name: "Math"}] on an empty database. *)
Definition math_body : Json := JObj [("name", JStr "Math")].

Definition math_db : DB := snd (POST_subjects math_body empty_db).

Definition revision_body : Json :=
  JObj [("subjectId", JNum 1); ("title", JStr "Revision");
        ("startTime", JStr "09:00"); ("endTime", JStr "10:00");
        ("date", JStr "2024-05-01")].

Definition revision : StudySession.t :=
  StudySession.mk 1 1 "Revision" None "09:00" "10:00" "2024-05-01"
    "upcoming" (Some 0).

(** The store after POST /api/study-sessions with [revision_body] on an
    empty database. *)
Definition revision_db : DB := snd (POST_study_sessions revision_body empty_db).

Definition stats_body (date : string) (totalMinutes : Z) : Json :=
  JObj [("date", JStr date); ("totalMinutes", JNum totalMinutes)].

Definition note_body (subjectId : Z) (createdAt : string) : Json :=
  JObj [("subjectId", JNum subjectId); ("title", JStr "Note");
        ("content", JStr "Text"); ("createdAt", JStr createdAt)].

(** The store after two notes were posted, the later one first. *)
Definition notes_db : DB :=
  snd (POST_notes (note_body 1 "2024-01-05")
         (snd (POST_notes (note_body 1 "2024-02-07") empty_db))).

(** [db'] is [db] with one table rewritten, the ids of that table still
    below its sequence. *)
Definition rewrites {R I} (table : PgTable R I) (db db' : DB) : Prop :=
  exists t, db' = tbl_put table t db
            /\ (serial_ok table db ->
                Forall (fun r => pk table r < serial t) (rows t)).

(** Row [a] may come before row [b] when listing by [column]. *)
Definition ascending {R} (le : string -> string -> bool) (column : R -> string)
    (a b : R) : Prop :=
  le (column a) (column b) = true.

(** The byte-wise ordering of strings, one possible collation. *)
Definition bytewise_le : string -> string -> bool := String.leb.

(** ** Vocabulary of the further properties *)

(** The GET routes. *)
Definition is_read (req : Request) : bool :=
  match req with
  | GetSubjects | GetSubject _ | GetStudySessions _ | GetNotes _ | GetGoals
  | GetStudyStats _ => true
  | _ => false
  end.

(** The collection a route is mounted on ([/api/<collection>...]). *)
Definition collection (req : Request) : string :=
  match req with
  | GetSubjects | GetSubject _ | PostSubject _ | PatchSubject _ _
  | DeleteSubject _ => "subjects"
  | GetStudySessions _ | PostStudySession _ | PatchStudySession _ _
  | DeleteStudySession _ => "study-sessions"
  | GetNotes _ | PostNote _ | PatchNote _ _ | DeleteNote _ => "notes"
  | GetGoals | PostGoal _ | PatchGoal _ _ | DeleteGoal _ => "goals"
  | GetStudyStats _ | PostStudyStats _ => "study-stats"
  end.

(** No two rows of a table share an id. *)
Definition ids_unique {R I} (table : PgTable R I) (db : DB) : Prop :=
  NoDup (stored_ids table db).


(** No sequence of [db'] is behind the one of [db]. *)
Definition serials_le (db db' : DB) : Prop :=
  serial (users_rows db) <= serial (users_rows db')
  /\ serial (subjects_rows db) <= serial (subjects_rows db')
  /\ serial (studySessions_rows db) <= serial (studySessions_rows db')
  /\ serial (notes_rows db) <= serial (notes_rows db')
  /\ serial (goals_rows db) <= serial (goals_rows db')
  /\ serial (studyStats_rows db) <= serial (studyStats_rows db').

(** [db'] is [db] with one table rewritten: its ids stay below its
    sequence and pairwise distinct, and its sequence did not go back. *)
Definition steps {R I} (table : PgTable R I) (db db' : DB) : Prop :=
  exists t,
    db' = tbl_put table t db
    /\ (serial_ok table db -> Forall (fun r => pk table r < serial t) (rows t))
    /\ (serial_ok table db -> ids_unique table db ->
        NoDup (map (pk table) (rows t)))
    /\ serial (tbl_get table db) <= serial t.

(** The table a request may rewrite. *)
Definition steps_of (req : Request) (db db' : DB) : Prop :=
  match req with
  | GetSubjects | GetSubject _ | PostSubject _ | PatchSubject _ _
  | DeleteSubject _ => steps subjects db db'
  | GetStudySessions _ | PostStudySession _ | PatchStudySession _ _
  | DeleteStudySession _ => steps studySessions db db'
  | GetNotes _ | PostNote _ | PatchNote _ _ | DeleteNote _ => steps notes db db'
  | GetGoals | PostGoal _ | PatchGoal _ _ | DeleteGoal _ => steps goals db db'
  | GetStudyStats _ | PostStudyStats _ => steps studyStats db db'
  end.

(** An object without its property [key]. *)
Definition without (key : string) (fields : list (string * Json))
    : list (string * Json) :=
  filter (fun kv => negb (String.eqb (fst kv) key)) fields.

(** The keys each insert schema reads. *)
Definition insertSubjectKeys : list string :=
  ["name"; "color"; "icon"; "currentTopic"; "progress"; "totalHours"].

Definition insertStudySessionKeys : list string :=
  ["subjectId"; "title"; "description"; "startTime"; "endTime"; "date";
   "status"; "actualDuration"].

Definition insertNoteKeys : list string :=
  ["subjectId"; "title"; "content"; "createdAt"].

Definition insertGoalKeys : list string :=
  ["title"; "description"; "targetDate"; "progress"; "isCompleted"].

Definition insertStudyStatsKeys : list string :=
  ["date"; "totalMinutes"; "sessionsCompleted"; "streak"].


(** Deleting an id leaves the rows with other ids fetched as before. *)
Definition delete_keeps_others {R} (get : Z -> Storage (option R))
    (delete : Z -> Storage bool) (db : DB) (id : Z) : Prop :=
  forall id', id' <> id ->
    fst (get id' (snd (delete id db))) = fst (get id' db).


(** * The server as deployed

    The definitions above give the storage layer at the types its
    interface declares ([id: number], [updates: Partial<Insert...>]), on a
    database that stores every value of those types.  The module below
    follows a request from what Express hands to the handler (path and
    query parameters as strings, the PATCH body as parsed JSON) down to
    what PostgreSQL accepts:
    - an [integer] parameter or value is an int4, a [text] one has no
      character U+0000; a statement with another parameter is refused when
      it is bound, before any row is read or written;
    - [.set()] receives [req.body] itself: the key [id] is a column like
      the others, keys that name no column reach no SQL, and a value of
      another JavaScript type is sent as the text the driver makes of it;
    - a [serial] sequence ends at [INT32_MAX];
    - an updated row is listed after the rows that were not updated.

    What the JavaScript runtime, the driver and the database compute from
    a string is not defined here: it is a parameter, the [Platform]. *)

Record Platform : Type := mkPlatform {
  (** [parseInt(s)]; [None] is [NaN] *)
  parseInt : string -> option Z;
  (** ordering of [text] under the database collation *)
  collation : string -> string -> bool;
  (** the text the driver sends for a value that is neither a string nor
      [null] *)
  prepareValue : Json -> string;
  (** the database reads an [integer] from a text *)
  int4in : string -> option Z;
  (** the database reads a [boolean] from a text *)
  boolin : string -> option bool
}.

(** A [text] the database stores: no character U+0000. *)
Fixpoint pg_text (s : string) : bool :=
  match s with
  | EmptyString => true
  | String c rest => negb (Ascii.eqb c Ascii.zero) && pg_text rest
  end.

(** A value of a column as an update statement binds it. *)
Inductive Assigned (A : Type) : Type :=
| Keep            (* the key is absent: the column is not in SET *)
| Put (a : A)
| Refuse          (* not a value of the column type: refused at bind *)
| Violate.        (* null for a notNull column: refused when a row is written *)
Arguments Keep {A}.
Arguments Put {A} a.
Arguments Refuse {A}.
Arguments Violate {A}.

Inductive Kind : Type := Kept | Bound | Refused | Violated.

Definition kind {A} (a : Assigned A) : Kind :=
  match a with
  | Keep => Kept
  | Put _ => Bound
  | Refuse => Refused
  | Violate => Violated
  end.

Definition put {A} (a : Assigned A) : option A :=
  match a with Put x => Some x | _ => None end.

Definition is_kept (k : Kind) : bool :=
  match k with Kept => true | _ => false end.

Definition is_refused (k : Kind) : bool :=
  match k with Refused => true | _ => false end.

Definition is_violated (k : Kind) : bool :=
  match k with Violated => true | _ => false end.

(** The SET clause of an update: how each column of the table is bound,
    the new primary key if [id] is set, and the values of the other
    columns. *)
Record SetClause (P : Type) : Type := mkSet {
  columns : list Kind;
  rekey : option Z;
  payload : P
}.
Arguments mkSet {P} columns rekey payload.
Arguments columns {P} s.
Arguments rekey {P} s.
Arguments payload {P} s.

(** Rows whose primary key an update can rewrite. *)
Class PrimaryKey (R : Type) : Type := { with_id : Z -> R -> R }.

#[export] Instance Subject_key : PrimaryKey Subject.t := {|
  with_id := fun k r =>
    Subject.mk k (Subject.name r) (Subject.color r) (Subject.icon r)
      (Subject.currentTopic r) (Subject.progress r) (Subject.totalHours r)
|}.

#[export] Instance StudySession_key : PrimaryKey StudySession.t := {|
  with_id := fun k r =>
    StudySession.mk k (StudySession.subjectId r) (StudySession.title r)
      (StudySession.description r) (StudySession.startTime r)
      (StudySession.endTime r) (StudySession.date r) (StudySession.status r)
      (StudySession.actualDuration r)
|}.

#[export] Instance Note_key : PrimaryKey Note.t := {|
  with_id := fun k r =>
    Note.mk k (Note.subjectId r) (Note.title r) (Note.content r)
      (Note.createdAt r)
|}.

#[export] Instance Goal_key : PrimaryKey Goal.t := {|
  with_id := fun k r =>
    Goal.mk k (Goal.title r) (Goal.description r) (Goal.targetDate r)
      (Goal.progress r) (Goal.isCompleted r)
|}.

#[export] Instance StudyStats_key : PrimaryKey StudyStats.t := {|
  with_id := fun k r =>
    StudyStats.mk k (StudyStats.date r) (StudyStats.totalMinutes r)
      (StudyStats.sessionsCompleted r) (StudyStats.streak r)
|}.

Definition new_key {R} `{PrimaryKey R} (k : option Z) (r : R) : R :=
  match k with Some id => with_id id r | None => r end.

(** Insert values the database accepts for their columns. *)
Class Accepted (V : Type) : Type := { accepted : V -> bool }.

Definition given {A} (p : A -> bool) (v : option A) : bool :=
  match v with Some a => p a | None => true end.

#[export] Instance InsertUser_accepted : Accepted InsertUser.t := {|
  accepted := fun v =>
    pg_text (InsertUser.username v) && pg_text (InsertUser.password v)
|}.

#[export] Instance InsertSubject_accepted : Accepted InsertSubject.t := {|
  accepted := fun v =>
    pg_text (InsertSubject.name v)
    && given pg_text (InsertSubject.color v)
    && given pg_text (InsertSubject.icon v)
    && given (given pg_text) (InsertSubject.currentTopic v)
    && given int4 (InsertSubject.progress v)
    && given int4 (InsertSubject.totalHours v)
|}.

#[export] Instance InsertStudySession_accepted
    : Accepted InsertStudySession.t := {|
  accepted := fun v =>
    int4 (InsertStudySession.subjectId v)
    && pg_text (InsertStudySession.title v)
    && given (given pg_text) (InsertStudySession.description v)
    && pg_text (InsertStudySession.startTime v)
    && pg_text (InsertStudySession.endTime v)
    && pg_text (InsertStudySession.date v)
    && given pg_text (InsertStudySession.status v)
    && given (given int4) (InsertStudySession.actualDuration v)
|}.

#[export] Instance InsertNote_accepted : Accepted InsertNote.t := {|
  accepted := fun v =>
    int4 (InsertNote.subjectId v)
    && pg_text (InsertNote.title v)
    && pg_text (InsertNote.content v)
    && pg_text (InsertNote.createdAt v)
|}.

#[export] Instance InsertGoal_accepted : Accepted InsertGoal.t := {|
  accepted := fun v =>
    pg_text (InsertGoal.title v)
    && given (given pg_text) (InsertGoal.description v)
    && pg_text (InsertGoal.targetDate v)
    && given int4 (InsertGoal.progress v)
|}.

#[export] Instance InsertStudyStats_accepted : Accepted InsertStudyStats.t := {|
  accepted := fun v =>
    pg_text (InsertStudyStats.date v)
    && given int4 (InsertStudyStats.totalMinutes v)
    && given int4 (InsertStudyStats.sessionsCompleted v)
    && given int4 (InsertStudyStats.streak v)
|}.

Module Wire.

(** A query parameter as Express parses it: a string, or an array or
    object (always truthy), given by its [String()] and by the text the
    driver sends for it. *)
Inductive QueryValue : Type :=
| QString (s : string)
| QNested (toString prepared : string).

(** [if (v)] on a query parameter that is present *)
Definition truthy (v : QueryValue) : bool :=
  match v with
  | QString s => negb (String.eqb s "")
  | QNested _ _ => true
  end.

Definition to_string (v : QueryValue) : string :=
  match v with QString s => s | QNested s _ => s end.

(** ** Parameters *)

(** A JavaScript value bound to a column of type [A]. *)
Class Param (J A : Type) : Type := { encode : J -> option A }.

(** A number ([None] is [NaN]) for an [integer] column. *)
#[global] Instance Param_integer : Param (option Z) Z := {|
  encode := fun n =>
    match n with
    | Some z => if int4 z then Some z else None
    | None => None
    end
|}.

#[global] Instance Param_text : Param QueryValue string := {|
  encode := fun v =>
    let s := match v with QString s => s | QNested _ p => p end in
    if pg_text s then Some s else None
|}.

(** [eq(column, value)]: [None] when the database refuses the parameter. *)
Definition eq_ {R J A} `{SqlEq A} `{Param J A} (column : R -> A) (value : J)
    : option (R -> bool) :=
  match encode value with
  | Some a => Some (fun r => sql_eqb (column r) a)
  | None => None
  end.

(** ** The query builder *)

(** [.where(condition)] on a select *)
Definition where_ {R} (condition : option (R -> bool)) (q : Storage (list R))
    : Storage (list R) :=
  match condition with
  | None => throw DatabaseError
  | Some p => found <- q ;; ret (filter p found)
  end.

(** [db.insert(table).values(v).returning()]: a refused value or an
    exhausted sequence leaves the database as it is; a row that breaks a
    uniqueness constraint is rejected after the sequence advanced. *)
Definition insert_returning {R I} `{Accepted I} (table : PgTable R I)
    (values : I) : Storage (list R) :=
  fun db =>
    let t := tbl_get table db in
    if negb (accepted values) then (inl DatabaseError, db)
    else if negb (int4 (serial t)) then (inl DatabaseError, db)
    else
      let row := stored table (serial t) values in
      if existsb (conflicts table row) (rows t)
      then (inl UniqueViolation,
            tbl_put table (mkTable (rows t) (serial t + 1)) db)
      else (inr [row],
            tbl_put table (mkTable (rows t ++ [row]) (serial t + 1)) db).

(** [db.update(table).set(values).where(condition).returning()], once
    [.set()] has accepted the values.  The rows that match are rewritten
    and listed last; without a matching row nothing is checked. *)
Definition update_returning {R I P} `{UpdateSet P R} `{PrimaryKey R}
    (table : PgTable R I) (values : SetClause P)
    (condition : option (R -> bool)) : Storage (list R) :=
  fun db =>
    if forallb is_kept (columns values) then (inl DatabaseError, db)
    else if existsb is_refused (columns values) then (inl DatabaseError, db)
    else
      match condition with
      | None => (inl DatabaseError, db)
      | Some p =>
          let t := tbl_get table db in
          let rest := filter (fun r => negb (p r)) (rows t) in
          match filter p (rows t) with
          | [] => (inr [], db)
          | first :: others =>
              let clash :=
                match rekey values with
                | Some k =>
                    existsb (fun r => pk table r =? k) rest
                    || negb (Nat.eqb (List.length others) 0)
                | None => false
                end in
              if existsb is_violated (columns values)
              then (inl DatabaseError, db)
              else if clash then (inl UniqueViolation, db)
              else
                let updated :=
                  map (fun r => new_key (rekey values)
                                  (assign (payload values) r))
                      (first :: others) in
                (inr updated,
                 tbl_put table (mkTable (rest ++ updated) (serial t)) db)
          end
      end.

(** [db.delete(table).where(condition)] *)
Definition delete_where {R I} (table : PgTable R I)
    (condition : option (R -> bool)) : Storage QueryResult :=
  match condition with
  | None => throw DatabaseError
  | Some p =>
      fun db =>
        let t := tbl_get table db in
        (inr (mkQueryResult
                (Some (Z.of_nat (List.length (filter p (rows t)))))),
         tbl_put table
           (mkTable (filter (fun r => negb (p r)) (rows t)) (serial t))
           db)
  end.

(** [.set(updates)] with the request body: the query builder throws when
    the value has no own key ([Object.entries] throws on [null]); keys
    that are not columns, such as the indices of an array or of a string,
    set nothing. *)
Definition set_ {P} (columns_of : list (string * Json) -> SetClause P)
    (updates : Json) : Storage (SetClause P) :=
  match updates with
  | JNull => throw TypeError
  | JObj ((_ :: _) as o) => ret (columns_of o)
  | JArr (_ :: _) => ret (columns_of [])
  | JStr (String _ _) => ret (columns_of [])
  | _ => throw NoValuesToSet
  end.

Section Server.

Variable pf : Platform.

(** ** Values of a request body bound to a column *)

Definition integer (v : option Json) : Assigned Z :=
  match v with
  | None => Keep
  | Some JNull => Violate
  | Some (JNum n) => if int4 n then Put n else Refuse
  | Some (JStr s) =>
      match int4in pf s with
      | Some n => if int4 n then Put n else Refuse
      | None => Refuse
      end
  | Some _ => Refuse
  end.

Definition text (v : option Json) : Assigned string :=
  match v with
  | None => Keep
  | Some JNull => Violate
  | Some (JStr s) => if pg_text s then Put s else Refuse
  | Some other =>
      if pg_text (prepareValue pf other) then Put (prepareValue pf other)
      else Refuse
  end.

Definition boolean (v : option Json) : Assigned bool :=
  match v with
  | None => Keep
  | Some JNull => Violate
  | Some (JBool b) => Put b
  | Some (JNum n) =>
      if n =? 0 then Put false else if n =? 1 then Put true else Refuse
  | Some (JStr s) =>
      match boolin pf s with Some b => Put b | None => Refuse end
  | Some _ => Refuse
  end.

(** A column without [notNull] takes [null]. *)
Definition nullable {A} (column : option Json -> Assigned A)
    (v : option Json) : Assigned (option A) :=
  match v with
  | Some JNull => Put None
  | _ =>
      match column v with
      | Keep => Keep
      | Put a => Put (Some a)
      | Refuse => Refuse
      | Violate => Violate
      end
  end.

(** ** SET clauses of the four tables with a PATCH route *)

Definition subjects_set (o : list (string * Json))
    : SetClause PartialInsertSubject.t :=
  let id := integer (property "id" o) in
  let name := text (property "name" o) in
  let color := text (property "color" o) in
  let icon := text (property "icon" o) in
  let currentTopic := nullable text (property "currentTopic" o) in
  let progress := integer (property "progress" o) in
  let totalHours := integer (property "totalHours" o) in
  mkSet [kind id; kind name; kind color; kind icon; kind currentTopic;
         kind progress; kind totalHours]
        (put id)
        (PartialInsertSubject.mk (put name) (put color) (put icon)
           (put currentTopic) (put progress) (put totalHours)).

Definition studySessions_set (o : list (string * Json))
    : SetClause PartialInsertStudySession.t :=
  let id := integer (property "id" o) in
  let subjectId := integer (property "subjectId" o) in
  let title := text (property "title" o) in
  let description := nullable text (property "description" o) in
  let startTime := text (property "startTime" o) in
  let endTime := text (property "endTime" o) in
  let date := text (property "date" o) in
  let status := text (property "status" o) in
  let actualDuration := nullable integer (property "actualDuration" o) in
  mkSet [kind id; kind subjectId; kind title; kind description;
         kind startTime; kind endTime; kind date; kind status;
         kind actualDuration]
        (put id)
        (PartialInsertStudySession.mk (put subjectId) (put title)
           (put description) (put startTime) (put endTime) (put date)
           (put status) (put actualDuration)).

Definition notes_set (o : list (string * Json))
    : SetClause PartialInsertNote.t :=
  let id := integer (property "id" o) in
  let subjectId := integer (property "subjectId" o) in
  let title := text (property "title" o) in
  let content := text (property "content" o) in
  let createdAt := text (property "createdAt" o) in
  mkSet [kind id; kind subjectId; kind title; kind content; kind createdAt]
        (put id)
        (PartialInsertNote.mk (put subjectId) (put title) (put content)
           (put createdAt)).

Definition goals_set (o : list (string * Json))
    : SetClause PartialInsertGoal.t :=
  let id := integer (property "id" o) in
  let title := text (property "title" o) in
  let description := nullable text (property "description" o) in
  let targetDate := text (property "targetDate" o) in
  let progress := integer (property "progress" o) in
  let isCompleted := boolean (property "isCompleted" o) in
  mkSet [kind id; kind title; kind description; kind targetDate;
         kind progress; kind isCompleted]
        (put id)
        (PartialInsertGoal.mk (put title) (put description) (put targetDate)
           (put progress) (put isCompleted)).

(** [.set(insertStats)] in [createOrUpdateStudyStats]: the validated
    payload, whose [date] is always set. *)
Definition studyStats_set (v : InsertStudyStats.t)
    : SetClause InsertStudyStats.t :=
  mkSet [if accepted v then Bound else Refused] None v.

(** ** [DatabaseStorage] *)

Definition getUser (id : option Z) : Storage (option User.t) :=
  found <- where_ (eq_ User.id id) (select_from users) ;;
  ret (hd_error found).

Definition getUserByUsername (username : QueryValue)
    : Storage (option User.t) :=
  found <- where_ (eq_ User.username username) (select_from users) ;;
  ret (hd_error found).

Definition createUser (insertUser : InsertUser.t) : Storage (option User.t) :=
  created <- insert_returning users insertUser ;;
  ret (hd_error created).

Definition getSubjects : Storage (list Subject.t) :=
  select_from subjects.

Definition getSubject (id : option Z) : Storage (option Subject.t) :=
  found <- where_ (eq_ Subject.id id) (select_from subjects) ;;
  ret (hd_error found).

Definition createSubject (insertSubject : InsertSubject.t)
    : Storage (option Subject.t) :=
  created <- insert_returning subjects insertSubject ;;
  ret (hd_error created).

Definition updateSubject (id : option Z) (updates : Json)
    : Storage (option Subject.t) :=
  values <- set_ subjects_set updates ;;
  updated <- update_returning subjects values (eq_ Subject.id id) ;;
  ret (hd_error updated).

Definition deleteSubject (id : option Z) : Storage bool :=
  result <- delete_where subjects (eq_ Subject.id id) ;;
  ret (0 <? default (rowCount result) 0).

Definition getStudySessions : Storage (list StudySession.t) :=
  select_from studySessions.

Definition getStudySessionsByDate (date : QueryValue)
    : Storage (list StudySession.t) :=
  where_ (eq_ StudySession.date date) (select_from studySessions).

Definition getStudySession (id : option Z) : Storage (option StudySession.t) :=
  found <- where_ (eq_ StudySession.id id) (select_from studySessions) ;;
  ret (hd_error found).

Definition createStudySession (insertSession : InsertStudySession.t)
    : Storage (option StudySession.t) :=
  created <- insert_returning studySessions insertSession ;;
  ret (hd_error created).

Definition updateStudySession (id : option Z) (updates : Json)
    : Storage (option StudySession.t) :=
  values <- set_ studySessions_set updates ;;
  updated <- update_returning studySessions values
               (eq_ StudySession.id id) ;;
  ret (hd_error updated).

Definition deleteStudySession (id : option Z) : Storage bool :=
  result <- delete_where studySessions (eq_ StudySession.id id) ;;
  ret (0 <? default (rowCount result) 0).

Definition getNotes : Storage (list Note.t) :=
  orderBy (collation pf) Note.createdAt (select_from notes).

Definition getNotesBySubject (subjectId : option Z) : Storage (list Note.t) :=
  orderBy (collation pf) Note.createdAt
    (where_ (eq_ Note.subjectId subjectId) (select_from notes)).

Definition getNote (id : option Z) : Storage (option Note.t) :=
  found <- where_ (eq_ Note.id id) (select_from notes) ;;
  ret (hd_error found).

Definition createNote (insertNote : InsertNote.t) : Storage (option Note.t) :=
  created <- insert_returning notes insertNote ;;
  ret (hd_error created).

Definition updateNote (id : option Z) (updates : Json)
    : Storage (option Note.t) :=
  values <- set_ notes_set updates ;;
  updated <- update_returning notes values (eq_ Note.id id) ;;
  ret (hd_error updated).

Definition deleteNote (id : option Z) : Storage bool :=
  result <- delete_where notes (eq_ Note.id id) ;;
  ret (0 <? default (rowCount result) 0).

Definition getGoals : Storage (list Goal.t) :=
  select_from goals.

Definition getGoal (id : option Z) : Storage (option Goal.t) :=
  found <- where_ (eq_ Goal.id id) (select_from goals) ;;
  ret (hd_error found).

Definition createGoal (insertGoal : InsertGoal.t) : Storage (option Goal.t) :=
  created <- insert_returning goals insertGoal ;;
  ret (hd_error created).

Definition updateGoal (id : option Z) (updates : Json)
    : Storage (option Goal.t) :=
  values <- set_ goals_set updates ;;
  updated <- update_returning goals values (eq_ Goal.id id) ;;
  ret (hd_error updated).

Definition deleteGoal (id : option Z) : Storage bool :=
  result <- delete_where goals (eq_ Goal.id id) ;;
  ret (0 <? default (rowCount result) 0).

Definition getStudyStats : Storage (list StudyStats.t) :=
  select_from studyStats.

Definition getStudyStatsByDate (date : QueryValue)
    : Storage (option StudyStats.t) :=
  found <- where_ (eq_ StudyStats.date date) (select_from studyStats) ;;
  ret (hd_error found).

Definition createOrUpdateStudyStats (insertStats : InsertStudyStats.t)
    : Storage (option StudyStats.t) :=
  let date := QString (InsertStudyStats.date insertStats) in
  existing <- getStudyStatsByDate date ;;
  match existing with
  | Some _ =>
      updated <- update_returning studyStats (studyStats_set insertStats)
                   (eq_ StudyStats.date date) ;;
      ret (hd_error updated)
  | None =>
      created <- insert_returning studyStats insertStats ;;
      ret (hd_error created)
  end.

(** ** Routes ([registerRoutes]) *)

Definition GET_subjects : DB -> Response * DB :=
  try_catch
    (subjects <- getSubjects ;;
     ret (json (JsonSubjects subjects)))
    "Failed to fetch subjects".

Definition GET_subjects_id (id : string) : DB -> Response * DB :=
  try_catch
    (subject <- getSubject (parseInt pf id) ;;
     match subject with
     | None => ret (status_json 404 (JsonMessage "Subject not found"))
     | Some s => ret (json (JsonSubject s))
     end)
    "Failed to fetch subject".

Definition POST_subjects (body : Json) : DB -> Response * DB :=
  try_catch
    (match insertSubjectSchema body with
     | ParseFailure issues =>
         ret (status_json 400 (JsonErrors "Invalid subject data" issues))
     | ParseSuccess data =>
         subject <- createSubject data ;;
         ret (status_json 201 (json_of JsonSubject subject))
     end)
    "Failed to create subject".

Definition PATCH_subjects_id (id : string) (body : Json)
    : DB -> Response * DB :=
  try_catch
    (subject <- updateSubject (parseInt pf id) body ;;
     match subject with
     | None => ret (status_json 404 (JsonMessage "Subject not found"))
     | Some s => ret (json (JsonSubject s))
     end)
    "Failed to update subject".

Definition DELETE_subjects_id (id : string) : DB -> Response * DB :=
  try_catch
    (success <- deleteSubject (parseInt pf id) ;;
     if negb success
     then ret (status_json 404 (JsonMessage "Subject not found"))
     else ret (status_send 204))
    "Failed to delete subject".

Definition GET_study_sessions (date : option QueryValue)
    : DB -> Response * DB :=
  try_catch
    (match date with
     | Some d =>
         if truthy d
         then sessions <- getStudySessionsByDate d ;;
              ret (json (JsonStudySessions sessions))
         else sessions <- getStudySessions ;;
              ret (json (JsonStudySessions sessions))
     | None =>
         sessions <- getStudySessions ;;
         ret (json (JsonStudySessions sessions))
     end)
    "Failed to fetch study sessions".

Definition POST_study_sessions (body : Json) : DB -> Response * DB :=
  try_catch
    (match insertStudySessionSchema body with
     | ParseFailure issues =>
         ret (status_json 400 (JsonErrors "Invalid session data" issues))
     | ParseSuccess data =>
         session <- createStudySession data ;;
         ret (status_json 201 (json_of JsonStudySession session))
     end)
    "Failed to create study session".

Definition PATCH_study_sessions_id (id : string) (body : Json)
    : DB -> Response * DB :=
  try_catch
    (session <- updateStudySession (parseInt pf id) body ;;
     match session with
     | None => ret (status_json 404 (JsonMessage "Study session not found"))
     | Some s => ret (json (JsonStudySession s))
     end)
    "Failed to update study session".

Definition DELETE_study_sessions_id (id : string) : DB -> Response * DB :=
  try_catch
    (success <- deleteStudySession (parseInt pf id) ;;
     if negb success
     then ret (status_json 404 (JsonMessage "Study session not found"))
     else ret (status_send 204))
    "Failed to delete study session".

Definition GET_notes (subjectId : option QueryValue) : DB -> Response * DB :=
  try_catch
    (match subjectId with
     | Some s =>
         if truthy s
         then notes <- getNotesBySubject (parseInt pf (to_string s)) ;;
              ret (json (JsonNotes notes))
         else notes <- getNotes ;;
              ret (json (JsonNotes notes))
     | None =>
         notes <- getNotes ;;
         ret (json (JsonNotes notes))
     end)
    "Failed to fetch notes".

Definition POST_notes (body : Json) : DB -> Response * DB :=
  try_catch
    (match insertNoteSchema body with
     | ParseFailure issues =>
         ret (status_json 400 (JsonErrors "Invalid note data" issues))
     | ParseSuccess data =>
         note <- createNote data ;;
         ret (status_json 201 (json_of JsonNote note))
     end)
    "Failed to create note".

Definition PATCH_notes_id (id : string) (body : Json)
    : DB -> Response * DB :=
  try_catch
    (note <- updateNote (parseInt pf id) body ;;
     match note with
     | None => ret (status_json 404 (JsonMessage "Note not found"))
     | Some n => ret (json (JsonNote n))
     end)
    "Failed to update note".

Definition DELETE_notes_id (id : string) : DB -> Response * DB :=
  try_catch
    (success <- deleteNote (parseInt pf id) ;;
     if negb success
     then ret (status_json 404 (JsonMessage "Note not found"))
     else ret (status_send 204))
    "Failed to delete note".

Definition GET_goals : DB -> Response * DB :=
  try_catch
    (goals <- getGoals ;;
     ret (json (JsonGoals goals)))
    "Failed to fetch goals".

Definition POST_goals (body : Json) : DB -> Response * DB :=
  try_catch
    (match insertGoalSchema body with
     | ParseFailure issues =>
         ret (status_json 400 (JsonErrors "Invalid goal data" issues))
     | ParseSuccess data =>
         goal <- createGoal data ;;
         ret (status_json 201 (json_of JsonGoal goal))
     end)
    "Failed to create goal".

Definition PATCH_goals_id (id : string) (body : Json)
    : DB -> Response * DB :=
  try_catch
    (goal <- updateGoal (parseInt pf id) body ;;
     match goal with
     | None => ret (status_json 404 (JsonMessage "Goal not found"))
     | Some g => ret (json (JsonGoal g))
     end)
    "Failed to update goal".

Definition DELETE_goals_id (id : string) : DB -> Response * DB :=
  try_catch
    (success <- deleteGoal (parseInt pf id) ;;
     if negb success
     then ret (status_json 404 (JsonMessage "Goal not found"))
     else ret (status_send 204))
    "Failed to delete goal".

Definition GET_study_stats (date : option QueryValue) : DB -> Response * DB :=
  try_catch
    (match date with
     | Some d =>
         if truthy d
         then stats <- getStudyStatsByDate d ;;
              ret (json (match stats with
                         | Some s => JsonStats s
                         | None => JsonNull
                         end))
         else stats <- getStudyStats ;;
              ret (json (JsonStatsList stats))
     | None =>
         stats <- getStudyStats ;;
         ret (json (JsonStatsList stats))
     end)
    "Failed to fetch study stats".

Definition POST_study_stats (body : Json) : DB -> Response * DB :=
  try_catch
    (match insertStudyStatsSchema body with
     | ParseFailure issues =>
         ret (status_json 400 (JsonErrors "Invalid stats data" issues))
     | ParseSuccess data =>
         stats <- createOrUpdateStudyStats data ;;
         ret (json (json_of JsonStats stats))
     end)
    "Failed to update study stats".

(** A request as the handlers read it: [req.params.id], [req.query] and
    [req.body]. *)
Inductive Request : Type :=
| GetSubjects
| GetSubject (id : string)
| PostSubject (body : Json)
| PatchSubject (id : string) (body : Json)
| DeleteSubject (id : string)
| GetStudySessions (date : option QueryValue)
| PostStudySession (body : Json)
| PatchStudySession (id : string) (body : Json)
| DeleteStudySession (id : string)
| GetNotes (subjectId : option QueryValue)
| PostNote (body : Json)
| PatchNote (id : string) (body : Json)
| DeleteNote (id : string)
| GetGoals
| PostGoal (body : Json)
| PatchGoal (id : string) (body : Json)
| DeleteGoal (id : string)
| GetStudyStats (date : option QueryValue)
| PostStudyStats (body : Json).

Definition handle (req : Request) : DB -> Response * DB :=
  match req with
  | GetSubjects => GET_subjects
  | GetSubject id => GET_subjects_id id
  | PostSubject body => POST_subjects body
  | PatchSubject id body => PATCH_subjects_id id body
  | DeleteSubject id => DELETE_subjects_id id
  | GetStudySessions date => GET_study_sessions date
  | PostStudySession body => POST_study_sessions body
  | PatchStudySession id body => PATCH_study_sessions_id id body
  | DeleteStudySession id => DELETE_study_sessions_id id
  | GetNotes subjectId => GET_notes subjectId
  | PostNote body => POST_notes body
  | PatchNote id body => PATCH_notes_id id body
  | DeleteNote id => DELETE_notes_id id
  | GetGoals => GET_goals
  | PostGoal body => POST_goals body
  | PatchGoal id body => PATCH_goals_id id body
  | DeleteGoal id => DELETE_goals_id id
  | GetStudyStats date => GET_study_stats date
  | PostStudyStats body => POST_study_stats body
  end.

(** Requests served one after the other. *)
Fixpoint serve (reqs : list Request) (db : DB) : list Response * DB :=
  match reqs with
  | [] => ([], db)
  | req :: rest =>
      let (res, db') := handle req db in
      let (more, db'') := serve rest db' in
      (res :: more, db'')
  end.

End Server.

(** The statement shared by the by-id methods of every entity; each
    method above is one of these at its table. *)
Definition get_by_id {R I} (table : PgTable R I) (id : option Z)
    : Storage (option R) :=
  found <- where_ (eq_ (pk table) id) (select_from table) ;;
  ret (hd_error found).

Definition create {R I} `{Accepted I} (table : PgTable R I) (values : I)
    : Storage (option R) :=
  created <- insert_returning table values ;;
  ret (hd_error created).

Definition update_by_id {R I P} `{UpdateSet P R} `{PrimaryKey R}
    (table : PgTable R I) (columns_of : list (string * Json) -> SetClause P)
    (id : option Z) (updates : Json) : Storage (option R) :=
  values <- set_ columns_of updates ;;
  updated <- update_returning table values (eq_ (pk table) id) ;;
  ret (hd_error updated).

Definition delete_by_id {R I} (table : PgTable R I) (id : option Z)
    : Storage bool :=
  result <- delete_where table (eq_ (pk table) id) ;;
  ret (0 <? default (rowCount result) 0).

End Wire.

(** A platform for the examples: decimal numerals, the byte-wise
    collation, [true] and [false].  It agrees with the runtime and the
    database on the inputs the examples use. *)
Definition numeral (s : string) : option Z :=
  option_map Z.of_int (NilZero.int_of_string s).

Definition example : Platform := {|
  parseInt := numeral;
  collation := bytewise_le;
  prepareValue := fun v =>
    match v with
    | JBool true => "true"
    | JBool false => "false"
    | JNum n => NilZero.string_of_int (Z.to_int n)
    | JFrac _ printed => printed
    | _ => "{}"
    end;
  int4in := numeral;
  boolin := fun s =>
    if String.eqb s "true" then Some true
    else if String.eqb s "false" then Some false
    else None
|}.

(** A number the handler got from [parseInt] that cannot be bound to an
    [integer] column. *)
Definition unbound (n : option Z) : Prop :=
  match n with Some id => int4 id = false | None => True end.

(** The own properties [.set()] reads from a PATCH body. *)
Definition fields_of (body : Json) : list (string * Json) :=
  match body with JObj o => o | _ => [] end.

(** A PATCH body from which the update statement is built and bound: it
    has an own key, it names a column, and every column it names is given
    a value of the column's type. *)
Definition binds {P} (columns_of : list (string * Json) -> SetClause P)
    (body : Json) : bool :=
  match body with
  | JObj ((_ :: _) as o) =>
      negb (forallb is_kept (columns (columns_of o)))
      && negb (existsb is_refused (columns (columns_of o)))
  | _ => false
  end.

(** An id in the int4 range that is not stored: get and delete report
    absence and the DELETE route answers 404; update reports absence and
    the PATCH route answers 404 when the body binds, and otherwise update
    throws and the route answers 500.  Nothing is written. *)
Definition absent_id_not_found {R I P} (table : PgTable R I)
    (columns_of : list (string * Json) -> SetClause P)
    (get : option Z -> Storage (option R))
    (update : option Z -> Json -> Storage (option R))
    (delete : option Z -> Storage bool)
    (PATCH : string -> Json -> DB -> Response * DB)
    (DELETE : string -> DB -> Response * DB)
    (message patch_failed : string)
    (pf : Platform) (db : DB) (i : string) (id : Z) : Prop :=
  parseInt pf i = Some id -> int4 id = true ->
  ~ In id (stored_ids table db) ->
  get (Some id) db = (inr None, db)
  /\ delete (Some id) db = (inr false, db)
  /\ DELETE i db = (status_json 404 (JsonMessage message), db)
  /\ forall body,
       if binds columns_of body
       then update (Some id) body db = (inr None, db)
            /\ PATCH i body db = (status_json 404 (JsonMessage message), db)
       else (exists e, update (Some id) body db = (inl e, db))
            /\ PATCH i body db
               = (status_json 500 (JsonMessage patch_failed), db).

(** A path parameter that [parseInt] reads as [NaN] or as a number
    outside the int4 range: get, update and delete throw, whatever the
    store holds, and the routes answer 500.  Nothing is written. *)
Definition unbound_id_throws {R}
    (get : option Z -> Storage (option R))
    (update : option Z -> Json -> Storage (option R))
    (delete : option Z -> Storage bool)
    (PATCH : string -> Json -> DB -> Response * DB)
    (DELETE : string -> DB -> Response * DB)
    (patch_failed delete_failed : string)
    (pf : Platform) (db : DB) (i : string) : Prop :=
  unbound (parseInt pf i) ->
  get (parseInt pf i) db = (inl DatabaseError, db)
  /\ delete (parseInt pf i) db = (inl DatabaseError, db)
  /\ DELETE i db = (status_json 500 (JsonMessage delete_failed), db)
  /\ forall body,
       (exists e, update (parseInt pf i) body db = (inl e, db))
       /\ PATCH i body db = (status_json 500 (JsonMessage patch_failed), db).

(** A body that passes validation, with values the database accepts, in
    a table whose next sequence value is an int4 that no stored row has
    as id: the route answers 201 with the row the storage method
    returned, which is the one row appended to the table, carries the
    next sequence value as id and holds the validated input with
    defaults; the sequence advanced by one. *)
Definition created_as_stored {R I} `{Accepted I} (table : PgTable R I)
    (schema : Json -> SafeParse I) (method : I -> Storage (option R))
    (wrap : R -> Body) (POST : Json -> DB -> Response * DB)
    (as_stored : I -> R -> Prop) (db : DB) (body : Json) : Prop :=
  forall data, schema body = ParseSuccess data ->
  accepted data = true ->
  int4 (serial (tbl_get table db)) = true ->
  ~ In (serial (tbl_get table db)) (stored_ids table db) ->
  exists row,
    method data db = (inr (Some row), snd (POST body db))
    /\ creates table wrap (POST body) db row
    /\ serial (tbl_get table (snd (POST body db)))
       = serial (tbl_get table db) + 1
    /\ as_stored data row.

(** A body that passes validation is still answered 500, with no row
    stored, when the database refuses one of its values, when the
    sequence is exhausted, or when the next sequence value is the id of a
    stored row. *)
Definition creation_fails {R I} `{Accepted I} (table : PgTable R I)
    (schema : Json -> SafeParse I) (POST : Json -> DB -> Response * DB)
    (failed : string) (db : DB) (body : Json) : Prop :=
  forall data, schema body = ParseSuccess data ->
  accepted data = false
  \/ int4 (serial (tbl_get table db)) = false
  \/ In (serial (tbl_get table db)) (stored_ids table db) ->
  fst (POST body db) = status_json 500 (JsonMessage failed)
  /\ rows (tbl_get table (snd (POST body db))) = rows (tbl_get table db).

(** A subject whose name is the character U+0000. *)
Definition nul : string := String Ascii.zero EmptyString.

Definition nul_body : Json := JObj [("name", JStr nul)].

(** The store after PATCH /api/subjects/1 with [{id: 2}] on [math_db]. *)
Definition moved_db : DB :=
  snd (Wire.PATCH_subjects_id example "1" (JObj [("id", JNum 2)]) math_db).

(** Statistics for the date that is the character U+0000. *)
Definition nul_stats (totalMinutes : Z) : Json := stats_body nul totalMinutes.

(** The row an update statement writes in place of [r]. *)
Definition patched {R P} `{UpdateSet P R} `{PrimaryKey R}
    (values : SetClause P) (r : R) : R :=
  new_key (rekey values) (assign (payload values) r).

(** A column whose key the body does not have keeps its value; [id] is
    one of the columns. *)
Definition subject_kept (o : list (string * Json)) (r r' : Subject.t)
    : Prop :=
  (property "id" o = None -> Subject.id r' = Subject.id r)
  /\ (property "name" o = None -> Subject.name r' = Subject.name r)
  /\ (property "color" o = None -> Subject.color r' = Subject.color r)
  /\ (property "icon" o = None -> Subject.icon r' = Subject.icon r)
  /\ (property "currentTopic" o = None
      -> Subject.currentTopic r' = Subject.currentTopic r)
  /\ (property "progress" o = None -> Subject.progress r' = Subject.progress r)
  /\ (property "totalHours" o = None
      -> Subject.totalHours r' = Subject.totalHours r).

Definition session_kept (o : list (string * Json)) (r r' : StudySession.t)
    : Prop :=
  (property "id" o = None -> StudySession.id r' = StudySession.id r)
  /\ (property "subjectId" o = None
      -> StudySession.subjectId r' = StudySession.subjectId r)
  /\ (property "title" o = None -> StudySession.title r' = StudySession.title r)
  /\ (property "description" o = None
      -> StudySession.description r' = StudySession.description r)
  /\ (property "startTime" o = None
      -> StudySession.startTime r' = StudySession.startTime r)
  /\ (property "endTime" o = None
      -> StudySession.endTime r' = StudySession.endTime r)
  /\ (property "date" o = None -> StudySession.date r' = StudySession.date r)
  /\ (property "status" o = None
      -> StudySession.status r' = StudySession.status r)
  /\ (property "actualDuration" o = None
      -> StudySession.actualDuration r' = StudySession.actualDuration r).

Definition note_kept (o : list (string * Json)) (r r' : Note.t) : Prop :=
  (property "id" o = None -> Note.id r' = Note.id r)
  /\ (property "subjectId" o = None -> Note.subjectId r' = Note.subjectId r)
  /\ (property "title" o = None -> Note.title r' = Note.title r)
  /\ (property "content" o = None -> Note.content r' = Note.content r)
  /\ (property "createdAt" o = None -> Note.createdAt r' = Note.createdAt r).

Definition goal_kept (o : list (string * Json)) (r r' : Goal.t) : Prop :=
  (property "id" o = None -> Goal.id r' = Goal.id r)
  /\ (property "title" o = None -> Goal.title r' = Goal.title r)
  /\ (property "description" o = None
      -> Goal.description r' = Goal.description r)
  /\ (property "targetDate" o = None -> Goal.targetDate r' = Goal.targetDate r)
  /\ (property "progress" o = None -> Goal.progress r' = Goal.progress r)
  /\ (property "isCompleted" o = None
      -> Goal.isCompleted r' = Goal.isCompleted r).

(** An update of the one row stored under an id in the int4 range,
    whatever the body.  Either the statement is carried out and returns
    the row it wrote, or it throws and the row is as before.  Either way
    the row is fetched afterwards under the id it then has, every column
    whose key the body does not have is unchanged, the old id finds
    nothing once the row has another id, and every other id is fetched as
    before. *)
Definition patch_keeps_the_rest {R I} (table : PgTable R I)
    (get : option Z -> Storage (option R))
    (update : option Z -> Json -> Storage (option R))
    (kept : list (string * Json) -> R -> R -> Prop)
    (db : DB) (id : Z) (body : Json) : Prop :=
  int4 id = true ->
  forall r, filter (eq_ (pk table) id) (rows (tbl_get table db)) = [r] ->
  exists r',
    (fst (update (Some id) body db) = inr (Some r')
     \/ (exists e, update (Some id) body db = (inl e, db)) /\ r' = r)
    /\ fst (get (Some (pk table r')) (snd (update (Some id) body db)))
       = inr (Some r')
    /\ kept (fields_of body) r r'
    /\ (pk table r' <> id ->
        fst (get (Some id) (snd (update (Some id) body db))) = inr None)
    /\ (forall id', id' <> id -> id' <> pk table r' ->
          fst (get (Some id') (snd (update (Some id) body db)))
          = fst (get (Some id') db)).

(** A route that validates its body: a body the schema rejects is
    answered 400 with the route's message and the issues the schema
    reported, and nothing is written; a body the schema accepts is never
    answered 400. *)
Definition validating {I} (schema : Json -> SafeParse I)
    (POST : Json -> DB -> Response * DB) (invalid : string)
    (db : DB) (body : Json) : Prop :=
  (forall issues, schema body = ParseFailure issues ->
     POST body db = (status_json 400 (JsonErrors invalid issues), db))
  /\ (forall data, schema body = ParseSuccess data ->
        status (fst (POST body db)) <> 400).

(** A zod type that reports its failures at the path it was given, and
    never fails without an issue. *)
Definition reports_at_path {A} (t : ZodType A) : Prop :=
  forall path v e, t path v = inl e ->
    e <> [] /\ Forall (fun i => issue_path i = path) e.

(** The answer [out] to a request on [db] that goes to [table].  Its
    status is one of [allowed].  Only [table] was rewritten, and its
    sequence did not go back.  With a status of 400 or more the rows of
    the table are the same; with 400 or 404 the whole store is.  Ids that
    were pairwise distinct still are, and [inv] still holds of the rows. *)
Definition answers {R I} (table : PgTable R I) (inv : list R -> Prop)
    (allowed : list Z) (db : DB) (out : Response * DB) : Prop :=
  In (status (fst out)) allowed
  /\ exists t,
       snd out = tbl_put table t db
       /\ serial (tbl_get table db) <= serial t
       /\ (400 <= status (fst out) -> rows t = rows (tbl_get table db))
       /\ (status (fst out) = 400 \/ status (fst out) = 404 -> snd out = db)
       /\ (NoDup (map (pk table) (rows (tbl_get table db))) ->
           inv (rows (tbl_get table db)) ->
           NoDup (map (pk table) (rows t)) /\ inv (rows t)).

Definition any_rows {R} (l : list R) : Prop := True.

Definition distinct_dates (l : list StudyStats.t) : Prop :=
  NoDup (map StudyStats.date l).

(** The statuses a route answers with. *)
Definition statuses (req : Wire.Request) : list Z :=
  match req with
  | Wire.GetSubjects | Wire.GetGoals => [200]
  | Wire.GetStudySessions _ | Wire.GetNotes _ | Wire.GetStudyStats _ =>
      [200; 500]
  | Wire.GetSubject _ => [200; 404; 500]
  | Wire.PostSubject _ | Wire.PostStudySession _ | Wire.PostNote _
  | Wire.PostGoal _ => [201; 400; 500]
  | Wire.PostStudyStats _ => [200; 400; 500]
  | Wire.PatchSubject _ _ | Wire.PatchStudySession _ _ | Wire.PatchNote _ _
  | Wire.PatchGoal _ _ => [200; 404; 500]
  | Wire.DeleteSubject _ | Wire.DeleteStudySession _ | Wire.DeleteNote _
  | Wire.DeleteGoal _ => [204; 404; 500]
  end.

(** The table a request goes to, and how it answers. *)
Definition answers_of (req : Wire.Request) (db : DB) (out : Response * DB)
    : Prop :=
  match req with
  | Wire.GetSubjects | Wire.GetSubject _ | Wire.PostSubject _
  | Wire.PatchSubject _ _ | Wire.DeleteSubject _ =>
      answers subjects any_rows (statuses req) db out
  | Wire.GetStudySessions _ | Wire.PostStudySession _
  | Wire.PatchStudySession _ _ | Wire.DeleteStudySession _ =>
      answers studySessions any_rows (statuses req) db out
  | Wire.GetNotes _ | Wire.PostNote _ | Wire.PatchNote _ _
  | Wire.DeleteNote _ =>
      answers notes any_rows (statuses req) db out
  | Wire.GetGoals | Wire.PostGoal _ | Wire.PatchGoal _ _
  | Wire.DeleteGoal _ =>
      answers goals any_rows (statuses req) db out
  | Wire.GetStudyStats _ | Wire.PostStudyStats _ =>
      answers studyStats distinct_dates (statuses req) db out
  end.

(** The six tables hold the same rows. *)
Definition same_rows (db db' : DB) : Prop :=
  rows (users_rows db') = rows (users_rows db)
  /\ rows (subjects_rows db') = rows (subjects_rows db)
  /\ rows (studySessions_rows db') = rows (studySessions_rows db)
  /\ rows (notes_rows db') = rows (notes_rows db)
  /\ rows (goals_rows db') = rows (goals_rows db)
  /\ rows (studyStats_rows db') = rows (studyStats_rows db).

(** What the primary keys and the upsert maintain: no two rows of a
    table share an id, no two statistics rows share a date. *)
Definition keys_ok (db : DB) : Prop :=
  ids_unique subjects db /\ ids_unique studySessions db
  /\ ids_unique notes db /\ ids_unique goals db /\ ids_unique studyStats db
  /\ one_row_per_date db.

(** A row created from accepted values, while the next sequence value is
    an int4 that no row has as id, is fetched under the id it was given;
    every other id is fetched as before. *)
Definition created_then_fetched {R I} `{Accepted I} (table : PgTable R I)
    (method : I -> Storage (option R)) (get : option Z -> Storage (option R))
    (db : DB) (v : I) : Prop :=
  accepted v = true ->
  int4 (serial (tbl_get table db)) = true ->
  ~ In (serial (tbl_get table db)) (stored_ids table db) ->
  exists row,
    fst (method v db) = inr (Some row)
    /\ fst (get (Some (pk table row)) (snd (method v db))) = inr (Some row)
    /\ forall id, id <> pk table row ->
         fst (get (Some id) (snd (method v db))) = fst (get (Some id) db).

(** A value of the column's own JSON type that the database accepts is
    the value the row has after the update. *)
Definition subject_supplied (o : list (string * Json)) (r' : Subject.t)
    : Prop :=
  (forall k, property "id" o = Some (JNum k) -> int4 k = true ->
     Subject.id r' = k)
  /\ (forall s, property "name" o = Some (JStr s) -> pg_text s = true ->
        Subject.name r' = s)
  /\ (forall s, property "color" o = Some (JStr s) -> pg_text s = true ->
        Subject.color r' = s)
  /\ (forall s, property "icon" o = Some (JStr s) -> pg_text s = true ->
        Subject.icon r' = s)
  /\ (forall s, property "currentTopic" o = Some (JStr s) ->
        pg_text s = true -> Subject.currentTopic r' = Some s)
  /\ (property "currentTopic" o = Some JNull -> Subject.currentTopic r' = None)
  /\ (forall n, property "progress" o = Some (JNum n) -> int4 n = true ->
        Subject.progress r' = n)
  /\ (forall n, property "totalHours" o = Some (JNum n) -> int4 n = true ->
        Subject.totalHours r' = n).

Definition session_supplied (o : list (string * Json)) (r' : StudySession.t)
    : Prop :=
  (forall k, property "id" o = Some (JNum k) -> int4 k = true ->
     StudySession.id r' = k)
  /\ (forall n, property "subjectId" o = Some (JNum n) -> int4 n = true ->
        StudySession.subjectId r' = n)
  /\ (forall s, property "title" o = Some (JStr s) -> pg_text s = true ->
        StudySession.title r' = s)
  /\ (forall s, property "description" o = Some (JStr s) ->
        pg_text s = true -> StudySession.description r' = Some s)
  /\ (property "description" o = Some JNull ->
      StudySession.description r' = None)
  /\ (forall s, property "startTime" o = Some (JStr s) -> pg_text s = true ->
        StudySession.startTime r' = s)
  /\ (forall s, property "endTime" o = Some (JStr s) -> pg_text s = true ->
        StudySession.endTime r' = s)
  /\ (forall s, property "date" o = Some (JStr s) -> pg_text s = true ->
        StudySession.date r' = s)
  /\ (forall s, property "status" o = Some (JStr s) -> pg_text s = true ->
        StudySession.status r' = s)
  /\ (forall n, property "actualDuration" o = Some (JNum n) ->
        int4 n = true -> StudySession.actualDuration r' = Some n)
  /\ (property "actualDuration" o = Some JNull ->
      StudySession.actualDuration r' = None).

Definition note_supplied (o : list (string * Json)) (r' : Note.t) : Prop :=
  (forall k, property "id" o = Some (JNum k) -> int4 k = true ->
     Note.id r' = k)
  /\ (forall n, property "subjectId" o = Some (JNum n) -> int4 n = true ->
        Note.subjectId r' = n)
  /\ (forall s, property "title" o = Some (JStr s) -> pg_text s = true ->
        Note.title r' = s)
  /\ (forall s, property "content" o = Some (JStr s) -> pg_text s = true ->
        Note.content r' = s)
  /\ (forall s, property "createdAt" o = Some (JStr s) -> pg_text s = true ->
        Note.createdAt r' = s).

Definition goal_supplied (o : list (string * Json)) (r' : Goal.t) : Prop :=
  (forall k, property "id" o = Some (JNum k) -> int4 k = true ->
     Goal.id r' = k)
  /\ (forall s, property "title" o = Some (JStr s) -> pg_text s = true ->
        Goal.title r' = s)
  /\ (forall s, property "description" o = Some (JStr s) ->
        pg_text s = true -> Goal.description r' = Some s)
  /\ (property "description" o = Some JNull -> Goal.description r' = None)
  /\ (forall s, property "targetDate" o = Some (JStr s) -> pg_text s = true ->
        Goal.targetDate r' = s)
  /\ (forall n, property "progress" o = Some (JNum n) -> int4 n = true ->
        Goal.progress r' = n)
  /\ (forall b, property "isCompleted" o = Some (JBool b) ->
        Goal.isCompleted r' = b).

(** The body gives the row its own id or an id that is not stored. *)
Definition key_free {R I P} (table : PgTable R I) (values : SetClause P)
    (db : DB) (id : Z) : Prop :=
  forall k, rekey values = Some k -> k = id \/ ~ In k (stored_ids table db).

(** An update of the one row stored under an id in the int4 range.  It
    is carried out when the body binds, sets no [notNull] column to [null]
    and leaves the key free; and the row a carried-out update returns
    holds the supplied values. *)
Definition patch_stores {R I P} (table : PgTable R I)
    (columns_of : list (string * Json) -> SetClause P)
    (update : option Z -> Json -> Storage (option R))
    (supplied : list (string * Json) -> R -> Prop)
    (db : DB) (id : Z) (o : list (string * Json)) : Prop :=
  int4 id = true ->
  forall r, filter (eq_ (pk table) id) (rows (tbl_get table db)) = [r] ->
  (binds columns_of (JObj o) = true ->
   existsb is_violated (columns (columns_of o)) = false ->
   key_free table (columns_of o) db id ->
   exists r', fst (update (Some id) (JObj o) db) = inr (Some r'))
  /\ forall r', fst (update (Some id) (JObj o) db) = inr (Some r') ->
       supplied o r'.

(** A PATCH body without an own key: [{}], [[]], the empty string, a
    number, a boolean. *)
Definition keyless (body : Json) : bool :=
  match body with
  | JObj [] | JArr [] | JStr EmptyString | JNum _ | JFrac _ _ | JBool _ => true
  | _ => false
  end.

(** The GET routes. *)
Definition reads (req : Wire.Request) : bool :=
  match req with
  | Wire.GetSubjects | Wire.GetSubject _ | Wire.GetStudySessions _
  | Wire.GetNotes _ | Wire.GetGoals | Wire.GetStudyStats _ => true
  | _ => false
  end.

(** The collection a route is mounted on ([/api/<collection>...]). *)
Definition mounted_on (req : Wire.Request) : string :=
  match req with
  | Wire.GetSubjects | Wire.GetSubject _ | Wire.PostSubject _
  | Wire.PatchSubject _ _ | Wire.DeleteSubject _ => "subjects"
  | Wire.GetStudySessions _ | Wire.PostStudySession _
  | Wire.PatchStudySession _ _ | Wire.DeleteStudySession _ => "study-sessions"
  | Wire.GetNotes _ | Wire.PostNote _ | Wire.PatchNote _ _
  | Wire.DeleteNote _ => "notes"
  | Wire.GetGoals | Wire.PostGoal _ | Wire.PatchGoal _ _
  | Wire.DeleteGoal _ => "goals"
  | Wire.GetStudyStats _ | Wire.PostStudyStats _ => "study-stats"
  end.

(** Deleting a stored id in the int4 range through the route answers 204,
    and deleting it again answers 404 and leaves the store as the first
    delete left it. *)
Definition deleted_once {R I} (table : PgTable R I)
    (DELETE : string -> DB -> Response * DB) (message : string)
    (pf : Platform) (db : DB) (i : string) (id : Z) : Prop :=
  parseInt pf i = Some id -> int4 id = true ->
  In id (stored_ids table db) ->
  fst (DELETE i db) = status_send 204
  /\ ~ In id (stored_ids table (snd (DELETE i db)))
  /\ DELETE i (snd (DELETE i db))
     = (status_json 404 (JsonMessage message), snd (DELETE i db)).

(** * Properties *)

(** ** Lists of rows *)

Section Rows.
Context {R : Type}.
Variable key : R -> Z.

Lemma filter_absent (id : Z) (l : list R) :
  ~ In id (map key l) -> filter (eq_ key id) l = [].
Proof.
  induction l as [|r l IH]; simpl; intros Hn; [reflexivity|].
  destruct (Z.eqb_spec (key r) id) as [E|E].
  - exfalso; apply Hn; left; exact E.
  - apply IH; intros Hin; apply Hn; right; exact Hin.
Qed.

Lemma filter_present (id : Z) (l : list R) :
  In id (map key l) -> exists r rest, filter (eq_ key id) l = r :: rest.
Proof.
  induction l as [|r l IH]; simpl; intros Hin; [contradiction|].
  destruct (Z.eqb_spec (key r) id) as [E|E].
  - exists r, (filter (eq_ key id) l); reflexivity.
  - destruct Hin as [Hin|Hin]; [contradiction|]. apply IH; exact Hin.
Qed.

Lemma filter_others_absent (id : Z) (l : list R) :
  ~ In id (map key l) -> filter (fun r => negb (eq_ key id r)) l = l.
Proof.
  induction l as [|r l IH]; simpl; intros Hn; [reflexivity|].
  destruct (Z.eqb_spec (key r) id) as [E|E].
  - exfalso; apply Hn; left; exact E.
  - simpl; f_equal; apply IH; intros Hin; apply Hn; right; exact Hin.
Qed.

Lemma deleted_id_absent (id : Z) (l : list R) :
  ~ In id (map key (filter (fun r => negb (eq_ key id r)) l)).
Proof.
  induction l as [|r l IH]; simpl; [tauto|].
  destruct (Z.eqb_spec (key r) id) as [E|E]; simpl; [exact IH|].
  intros [H|H]; [contradiction|exact (IH H)].
Qed.

End Rows.

Lemma filter_split_length {R} (p : R -> bool) (l : list R) :
  (List.length (filter p l)
   + List.length (filter (fun r => negb (p r)) l))%nat = List.length l.
Proof.
  induction l as [|r l IH]; simpl; [reflexivity|].
  destruct (p r); simpl; lia.
Qed.

Lemma filter_assigned {R} (p : R -> bool) (g : R -> R) (l : list R) :
  (forall r, p r = true -> p (g r) = true) ->
  filter p (map (fun r => if p r then g r else r) l) = map g (filter p l).
Proof.
  intros Hg; induction l as [|r l IH]; simpl; [reflexivity|].
  destruct (p r) eqn:E.
  - rewrite (Hg r E); simpl; f_equal; exact IH.
  - rewrite E; exact IH.
Qed.

(** ** Sorting *)

Section Sorting.
Context {R : Type}.
Variable le : string -> string -> bool.
Variable column : R -> string.

Lemma insert_by_perm (x : R) (l : list R) :
  Permutation (x :: l) (insert_by le column x l).
Proof.
  induction l as [|y l IH]; simpl; [apply Permutation_refl|].
  destruct (le (column x) (column y)); [apply Permutation_refl|].
  eapply perm_trans; [apply perm_swap|]. apply perm_skip; exact IH.
Qed.

Lemma sort_by_perm (l : list R) : Permutation l (sort_by le column l).
Proof.
  induction l as [|x l IH]; simpl; [constructor|].
  eapply perm_trans; [apply perm_skip; exact IH|apply insert_by_perm].
Qed.

Hypothesis le_total : forall a b, le a b = true \/ le b a = true.
Hypothesis le_trans : forall a b c, le a b = true -> le b c = true -> le a c = true.

Lemma insert_by_sorted (x : R) (l : list R) :
  StronglySorted (ascending le column) l ->
  StronglySorted (ascending le column) (insert_by le column x l).
Proof.
  induction 1 as [|y l Hs IH Hall]; simpl.
  - constructor; constructor.
  - destruct (le (column x) (column y)) eqn:E.
    + constructor; [constructor; assumption|].
      constructor; [exact E|].
      eapply Forall_impl; [|exact Hall].
      intros z Hz; unfold ascending in *; eapply le_trans; eassumption.
    + constructor; [exact IH|].
      assert (Hyx : ascending le column y x).
      { unfold ascending; destruct (le_total (column x) (column y)); congruence. }
      eapply Permutation_Forall; [apply insert_by_perm|].
      constructor; assumption.
Qed.

Lemma sort_by_sorted (l : list R) :
  StronglySorted (ascending le column) (sort_by le column l).
Proof.
  induction l as [|x l IH]; simpl; [constructor|].
  apply insert_by_sorted; exact IH.
Qed.

End Sorting.

(** ** Unfolding storage methods and routes *)

Ltac unfold_storage :=
  unfold getUser, getUserByUsername, createUser,
    getSubjects, getSubject, createSubject, updateSubject, deleteSubject,
    getStudySessions, getStudySessionsByDate, getStudySession,
    createStudySession, updateStudySession, deleteStudySession,
    getNotes, getNotesBySubject, getNote, createNote, updateNote, deleteNote,
    getGoals, getGoal, createGoal, updateGoal, deleteGoal,
    getStudyStats, getStudyStatsByDate, createOrUpdateStudyStats,
    orderBy, where_, select_from, insert_returning, update_returning,
    delete_where, bind, ret in *.

(** Expose the six tables of a database. *)
Ltac open_db db :=
  destruct db as [[? ?] [? ?] [? ?] [? ?] [? ?] [? ?]].

(** ** C10: an empty update set *)

(** C10.  For every id and every state of the store, a PATCH whose body is
    the empty object reaches the storage update with no value to set; the
    update throws, the handler answers 500 and nothing is written, whether
    or not a row with that id exists.  This holds on the four PATCH
    routes. *)
Theorem empty_patch_is_500 (db : DB) (id : Z) :
  (updateSubject id PartialInsertSubject.empty db = (inl NoValuesToSet, db)
   /\ PATCH_subjects_id id PartialInsertSubject.empty db
      = (status_json 500 (JsonMessage "Failed to update subject"), db))
  /\ (updateStudySession id PartialInsertStudySession.empty db
      = (inl NoValuesToSet, db)
      /\ PATCH_study_sessions_id id PartialInsertStudySession.empty db
         = (status_json 500 (JsonMessage "Failed to update study session"), db))
  /\ (updateNote id PartialInsertNote.empty db = (inl NoValuesToSet, db)
      /\ PATCH_notes_id id PartialInsertNote.empty db
         = (status_json 500 (JsonMessage "Failed to update note"), db))
  /\ (updateGoal id PartialInsertGoal.empty db = (inl NoValuesToSet, db)
      /\ PATCH_goals_id id PartialInsertGoal.empty db
         = (status_json 500 (JsonMessage "Failed to update goal"), db)).
Proof.
  repeat split; reflexivity.
Qed.

(** ** C8: deletes do not cascade *)

(** C8.  Deleting a subject rewrites the subjects table only: it keeps
    exactly the subjects with another id, and the study sessions and notes
    (in particular those whose [subjectId] is the deleted id), the goals,
    the statistics and the users are as before; the DELETE route writes
    what deleteSubject writes.  Likewise each of the other deletes leaves
    every other table as it was. *)
Theorem delete_does_not_cascade (db : DB) (id : Z) :
  snd (DELETE_subjects_id id db) = snd (deleteSubject id db)
  /\ (let db' := snd (deleteSubject id db) in
   rows (subjects_rows db')
   = filter (fun r => negb (Subject.id r =? id)) (rows (subjects_rows db))
   /\ studySessions_rows db' = studySessions_rows db
   /\ notes_rows db' = notes_rows db
   /\ filter (eq_ StudySession.subjectId id) (rows (studySessions_rows db'))
      = filter (eq_ StudySession.subjectId id) (rows (studySessions_rows db))
   /\ filter (eq_ Note.subjectId id) (rows (notes_rows db'))
      = filter (eq_ Note.subjectId id) (rows (notes_rows db))
   /\ goals_rows db' = goals_rows db
   /\ studyStats_rows db' = studyStats_rows db
   /\ users_rows db' = users_rows db)
  /\ (let db' := snd (deleteStudySession id db) in
      subjects_rows db' = subjects_rows db /\ notes_rows db' = notes_rows db
      /\ goals_rows db' = goals_rows db
      /\ studyStats_rows db' = studyStats_rows db
      /\ users_rows db' = users_rows db)
  /\ (let db' := snd (deleteNote id db) in
      subjects_rows db' = subjects_rows db
      /\ studySessions_rows db' = studySessions_rows db
      /\ goals_rows db' = goals_rows db
      /\ studyStats_rows db' = studyStats_rows db
      /\ users_rows db' = users_rows db)
  /\ (let db' := snd (deleteGoal id db) in
      subjects_rows db' = subjects_rows db
      /\ studySessions_rows db' = studySessions_rows db
      /\ notes_rows db' = notes_rows db
      /\ studyStats_rows db' = studyStats_rows db
      /\ users_rows db' = users_rows db).
Proof.
  split; [|repeat split; reflexivity].
  unfold DELETE_subjects_id, try_catch, bind.
  destruct (deleteSubject id db) as [[e|[|]] db']; reflexivity.
Qed.

(** ** The by-id statements, for any table *)

Lemma subjects_laws : table_laws subjects.
Proof. split; [reflexivity|intros db; open_db db; reflexivity]. Qed.

Lemma studySessions_laws : table_laws studySessions.
Proof. split; [reflexivity|intros db; open_db db; reflexivity]. Qed.

Lemma notes_laws : table_laws notes.
Proof. split; [reflexivity|intros db; open_db db; reflexivity]. Qed.

Lemma goals_laws : table_laws goals.
Proof. split; [reflexivity|intros db; open_db db; reflexivity]. Qed.

Lemma studyStats_laws : table_laws studyStats.
Proof. split; [reflexivity|intros db; open_db db; reflexivity]. Qed.

Section ById.
Context {R I : Type}.
Variable table : PgTable R I.
Hypothesis laws : table_laws table.

Lemma get_by_id_result (id : Z) (db : DB) :
  get_by_id table id db
  = (inr (hd_error (filter (eq_ (pk table) id) (rows (tbl_get table db)))), db).
Proof. reflexivity. Qed.

Lemma get_by_id_absent (id : Z) (db : DB) :
  ~ In id (stored_ids table db) -> get_by_id table id db = (inr None, db).
Proof.
  intros Hn; rewrite get_by_id_result, filter_absent by exact Hn; reflexivity.
Qed.

Lemma delete_by_id_result (id : Z) (db : DB) :
  delete_by_id table id db
  = (inr (0 <? Z.of_nat (List.length
                           (filter (eq_ (pk table) id) (rows (tbl_get table db))))),
     tbl_put table
       (mkTable (filter (fun r => negb (eq_ (pk table) id r))
                        (rows (tbl_get table db)))
                (serial (tbl_get table db)))
       db).
Proof. reflexivity. Qed.

Lemma delete_by_id_absent (id : Z) (db : DB) :
  ~ In id (stored_ids table db) -> delete_by_id table id db = (inr false, db).
Proof.
  intros Hn; rewrite delete_by_id_result.
  rewrite filter_absent, filter_others_absent by exact Hn.
  rewrite (put_get table laws); reflexivity.
Qed.

Lemma delete_by_id_present (id : Z) (db : DB) :
  In id (stored_ids table db) ->
  fst (delete_by_id table id db) = inr true.
Proof.
  intros Hin; rewrite delete_by_id_result.
  destruct (filter_present (pk table) id _ Hin) as (r & rest & E).
  rewrite E; reflexivity.
Qed.

Lemma delete_by_id_removes (id : Z) (db : DB) :
  ~ In id (stored_ids table (snd (delete_by_id table id db))).
Proof.
  rewrite delete_by_id_result; unfold stored_ids; simpl.
  rewrite (get_put table laws); simpl.
  apply deleted_id_absent.
Qed.

Lemma delete_by_id_true_iff (id : Z) (db : DB) :
  exists b, fst (delete_by_id table id db) = inr b
    /\ (b = true <-> (0 < removed table db (snd (delete_by_id table id db)))%nat)
    /\ (b = false -> snd (delete_by_id table id db) = db).
Proof.
  rewrite delete_by_id_result; cbn [fst snd].
  eexists; split; [reflexivity|].
  unfold removed; rewrite (get_put table laws); cbn [rows].
  pose proof (filter_split_length (eq_ (pk table) id) (rows (tbl_get table db)))
    as Hlen.
  split.
  - rewrite Z.ltb_lt; lia.
  - rewrite Z.ltb_ge; intros Hz.
    assert (Hnil : filter (eq_ (pk table) id) (rows (tbl_get table db)) = [])
      by (apply length_zero_iff_nil; lia).
    assert (Hn : ~ In id (stored_ids table db)).
    { intros Hin; destruct (filter_present (pk table) id _ Hin) as (r & l & E).
      congruence. }
    rewrite filter_others_absent by exact Hn.
    apply (put_get table laws).
Qed.

Context {P : Type} `{UpdateSet P R}.

Lemma update_by_id_empty (id : Z) (u : P) (db : DB) :
  entries u = 0%nat -> update_by_id table id u db = (inl NoValuesToSet, db).
Proof.
  intros E; unfold update_by_id, bind, update_returning; rewrite E; reflexivity.
Qed.

Lemma update_by_id_result (id : Z) (u : P) (db : DB) :
  entries u <> 0%nat ->
  update_by_id table id u db
  = (inr (hd_error (map (assign u)
                        (filter (eq_ (pk table) id) (rows (tbl_get table db))))),
     tbl_put table
       (mkTable (map (fun r => if eq_ (pk table) id r then assign u r else r)
                     (rows (tbl_get table db)))
                (serial (tbl_get table db)))
       db).
Proof.
  intros E; unfold update_by_id, bind, update_returning.
  destruct (Nat.eqb_spec (entries u) 0); [contradiction|reflexivity].
Qed.

Hypothesis assign_pk : forall (u : P) (r : R), pk table (assign u r) = pk table r.

End ById.

(** ** Routes built on the by-id statements *)

Section Routes.
Context {R I P : Type} `{UpdateSet P R}.
Variable table : PgTable R I.
Hypothesis laws : table_laws table.
Variable update : Z -> P -> Storage (option R).
Variable delete : Z -> Storage bool.
Variable PATCH : Z -> P -> DB -> Response * DB.
Variable DELETE : Z -> DB -> Response * DB.
Variable wrap : R -> Body.
Variables message patch_failed delete_failed : string.
Hypothesis update_is : forall id u, update id u = update_by_id table id u.
Hypothesis delete_is : forall id, delete id = delete_by_id table id.
Hypothesis PATCH_is : forall id u,
  PATCH id u
  = try_catch
      (row <- update id u ;;
       match row with
       | None => ret (status_json 404 (JsonMessage message))
       | Some r => ret (json (wrap r))
       end)
      patch_failed.
Hypothesis DELETE_is : forall id,
  DELETE id
  = try_catch
      (success <- delete id ;;
       if negb success then ret (status_json 404 (JsonMessage message))
       else ret (status_send 204))
      delete_failed.

Lemma DELETE_result (db : DB) (id : Z) (b : bool) (db' : DB) :
  delete id db = (inr b, db') ->
  DELETE id db
  = (if b then status_send 204 else status_json 404 (JsonMessage message), db').
Proof.
  intros E; rewrite DELETE_is; unfold try_catch, bind; rewrite E.
  destruct b; reflexivity.
Qed.

Lemma delete_then_not_found_at (db : DB) (id : Z) :
  delete_then_not_found table delete DELETE message db id.
Proof.
  intros Hin.
  pose proof (delete_by_id_present table id db Hin) as Ht.
  pose proof (delete_by_id_absent table laws id _
                (delete_by_id_removes table laws id db)) as Hf.
  rewrite <- !delete_is in *.
  destruct (delete id db) as [res db1] eqn:E; simpl in Ht, Hf |- *; subst res.
  rewrite (DELETE_result db id true db1 E); cbn [fst snd].
  rewrite (DELETE_result db1 id false db1 Hf).
  repeat split; assumption || reflexivity.
Qed.

Lemma delete_reports_removal_at (db : DB) (id : Z) :
  delete_reports_removal table delete db id.
Proof.
  unfold delete_reports_removal; rewrite delete_is.
  apply delete_by_id_true_iff; exact laws.
Qed.

Lemma PATCH_writes_as_update (db : DB) (id : Z) (u : P) :
  snd (PATCH id u db) = snd (update id u db).
Proof.
  rewrite PATCH_is; unfold try_catch, bind.
  destruct (update id u db) as [[e|[r|]] db']; reflexivity.
Qed.

End Routes.

(** ** C5: deleting twice *)

(** C5.  For each of the four entities: deleting a stored id returns true
    and the route answers 204; deleting the same id again returns false and
    the route answers 404.  The result of a delete is true exactly when the
    table lost at least one row, and on false the store is unchanged. *)
Theorem delete_twice_is_success_then_not_found (db : DB) (id : Z) :
  (delete_then_not_found subjects deleteSubject DELETE_subjects_id
     "Subject not found" db id
   /\ delete_reports_removal subjects deleteSubject db id)
  /\ (delete_then_not_found studySessions deleteStudySession
        DELETE_study_sessions_id "Study session not found" db id
      /\ delete_reports_removal studySessions deleteStudySession db id)
  /\ (delete_then_not_found notes deleteNote DELETE_notes_id
        "Note not found" db id
      /\ delete_reports_removal notes deleteNote db id)
  /\ (delete_then_not_found goals deleteGoal DELETE_goals_id
        "Goal not found" db id
      /\ delete_reports_removal goals deleteGoal db id).
Proof.
  repeat match goal with |- _ /\ _ => split end.
  - exact (delete_then_not_found_at subjects subjects_laws deleteSubject
             DELETE_subjects_id "Subject not found" "Failed to delete subject"
             (fun _ => eq_refl) (fun _ => eq_refl) db id).
  - exact (delete_reports_removal_at subjects subjects_laws deleteSubject
             (fun _ => eq_refl) db id).
  - exact (delete_then_not_found_at studySessions studySessions_laws
             deleteStudySession DELETE_study_sessions_id
             "Study session not found" "Failed to delete study session"
             (fun _ => eq_refl) (fun _ => eq_refl) db id).
  - exact (delete_reports_removal_at studySessions studySessions_laws
             deleteStudySession (fun _ => eq_refl) db id).
  - exact (delete_then_not_found_at notes notes_laws deleteNote
             DELETE_notes_id "Note not found" "Failed to delete note"
             (fun _ => eq_refl) (fun _ => eq_refl) db id).
  - exact (delete_reports_removal_at notes notes_laws deleteNote
             (fun _ => eq_refl) db id).
  - exact (delete_then_not_found_at goals goals_laws deleteGoal
             DELETE_goals_id "Goal not found" "Failed to delete goal"
             (fun _ => eq_refl) (fun _ => eq_refl) db id).
  - exact (delete_reports_removal_at goals goals_laws deleteGoal
             (fun _ => eq_refl) db id).
Qed.

Lemma delete_twice_is_success_then_not_found_witness :
  In 1 (stored_ids subjects math_db)
  /\ fst (deleteSubject 1 math_db) = inr true
  /\ fst (deleteSubject 1 (snd (deleteSubject 1 math_db))) = inr false
  /\ fst (DELETE_subjects_id 1 math_db) = status_send 204
  /\ fst (DELETE_subjects_id 1 (snd (DELETE_subjects_id 1 math_db)))
     = status_json 404 (JsonMessage "Subject not found").
Proof.
  assert (Hin : In 1 (stored_ids subjects math_db)) by (left; reflexivity).
  destruct (delete_twice_is_success_then_not_found math_db 1) as ((Hs & _) & _).
  destruct (Hs Hin) as (H1 & H2 & H3 & H4).
  rewrite H2, H4.
  split; [exact Hin|].
  split; [exact H1|].
  split; [reflexivity|].
  split; [exact H3|reflexivity].
Defined.

(** ** Creation *)

Section Creation.
Context {R I : Type}.
Variable table : PgTable R I.
Hypothesis laws : table_laws table.
Hypothesis conflicts_pk :
  forall a b, conflicts table a b = true -> pk table a = pk table b.
Hypothesis stored_pk : forall id v, pk table (stored table id v) = id.

Lemma no_conflict_with_next (db : DB) (v : I) :
  serial_ok table db ->
  existsb (conflicts table (stored table (serial (tbl_get table db)) v))
          (rows (tbl_get table db)) = false.
Proof.
  intros Hok.
  destruct (existsb _ _) eqn:E; [|reflexivity].
  apply existsb_exists in E; destruct E as (r & Hin & Hc).
  apply conflicts_pk in Hc; rewrite stored_pk in Hc.
  unfold serial_ok in Hok; rewrite Forall_forall in Hok.
  specialize (Hok r Hin); lia.
Qed.

Lemma create_result (db : DB) (v : I) :
  serial_ok table db ->
  create table v db
  = (inr (Some (stored table (serial (tbl_get table db)) v)),
     tbl_put table
       (mkTable (rows (tbl_get table db)
                 ++ [stored table (serial (tbl_get table db)) v])
                (serial (tbl_get table db) + 1))
       db).
Proof.
  intros Hok; unfold create, bind, insert_returning.
  rewrite (no_conflict_with_next db v Hok); reflexivity.
Qed.

Lemma next_id_is_fresh (db : DB) :
  serial_ok table db -> ~ In (serial (tbl_get table db)) (stored_ids table db).
Proof.
  unfold serial_ok, stored_ids; rewrite Forall_forall; intros Hok Hin.
  apply in_map_iff in Hin; destruct Hin as (r & E & Hin).
  specialize (Hok r Hin); lia.
Qed.

Variable schema : Json -> SafeParse I.
Variable method : I -> Storage (option R).
Variable wrap : R -> Body.
Variable POST : Json -> DB -> Response * DB.
Variables invalid failed : string.
Variable as_stored : I -> R -> Prop.
Hypothesis method_is : forall v, method v = create table v.
Hypothesis POST_is : forall body,
  POST body
  = try_catch
      (match schema body with
       | ParseFailure issues => ret (status_json 400 (JsonErrors invalid issues))
       | ParseSuccess data =>
           row <- method data ;;
           ret (status_json 201 (json_of wrap row))
       end)
      failed.
Hypothesis stored_as_stored : forall id v, as_stored v (stored table id v).

Lemma creates_as_stored_at (db : DB) (body : Json) :
  creates_as_stored table schema method wrap POST as_stored db body.
Proof.
  intros Hok data Hparse.
  exists (stored table (serial (tbl_get table db)) data).
  pose proof (create_result db data Hok) as Hc; rewrite <- method_is in Hc.
  split; [rewrite Hc; reflexivity|].
  split; [|apply stored_as_stored].
  unfold creates; rewrite POST_is; unfold try_catch, bind.
  rewrite Hparse, Hc; unfold ret; cbn [fst snd json_of].
  rewrite (get_put table laws), stored_pk; cbn [rows].
  split; [reflexivity|]. split; [reflexivity|]. split; [reflexivity|].
  apply next_id_is_fresh; exact Hok.
Qed.

End Creation.

Lemma pk_conflict_eq (a b : Z) : (a =? b) = true -> a = b.
Proof. apply Z.eqb_eq. Qed.

(** ** C9: notes are listed by creation time *)

Lemma ascii_compare_refl (c : Ascii.ascii) : Ascii.compare c c = Eq.
Proof. unfold Ascii.compare; apply N.compare_refl. Qed.

Lemma ascii_compare_lt_trans (a b c : Ascii.ascii) :
  Ascii.compare a b = Lt -> Ascii.compare b c = Lt -> Ascii.compare a c = Lt.
Proof.
  unfold Ascii.compare; rewrite !N.compare_lt_iff; apply N.lt_trans.
Qed.

Lemma bytewise_le_total (a b : string) :
  bytewise_le a b = true \/ bytewise_le b a = true.
Proof. apply String.leb_total. Qed.

Lemma bytewise_le_trans (a b c : string) :
  bytewise_le a b = true -> bytewise_le b c = true -> bytewise_le a c = true.
Proof.
  unfold bytewise_le, String.leb.
  revert b c; induction a as [|x a IH]; intros [|y b] [|z c]; simpl;
    try congruence.
  destruct (Ascii.compare x y) eqn:Exy; try congruence;
    destruct (Ascii.compare y z) eqn:Eyz; try congruence.
  - apply Ascii.compare_eq_iff in Exy, Eyz; subst.
    rewrite ascii_compare_refl; apply IH.
  - apply Ascii.compare_eq_iff in Exy; subst; rewrite Eyz; reflexivity.
  - apply Ascii.compare_eq_iff in Eyz; subst; rewrite Exy; reflexivity.
  - rewrite (ascii_compare_lt_trans x y z Exy Eyz); reflexivity.
Qed.

(** C9.  Under a collation that orders text totally and transitively,
    getNotes returns the stored notes, and getNotesBySubject the stored
    notes of the subject, rearranged so that each note's createdAt is at
    most that of every note after it; neither writes to the store. *)
Theorem notes_are_sorted_by_createdAt (collate_le : string -> string -> bool)
    (db : DB) :
  (forall a b, collate_le a b = true \/ collate_le b a = true) ->
  (forall a b c,
     collate_le a b = true -> collate_le b c = true -> collate_le a c = true) ->
  (exists found,
     getNotes collate_le db = (inr found, db)
     /\ StronglySorted (ascending collate_le Note.createdAt) found
     /\ Permutation found (rows (notes_rows db)))
  /\ (forall S,
        exists found,
          getNotesBySubject collate_le S db = (inr found, db)
          /\ StronglySorted (ascending collate_le Note.createdAt) found
          /\ Permutation found
               (filter (eq_ Note.subjectId S) (rows (notes_rows db)))).
Proof.
  intros Htotal Htrans; split; [|intros S]; eexists;
    (split; [reflexivity|]);
    (split; [apply sort_by_sorted; assumption
            |apply Permutation_sym, sort_by_perm]).
Qed.

Lemma notes_are_sorted_by_createdAt_witness :
  rows (notes_rows notes_db)
  = [Note.mk 1 1 "Note" "Text" "2024-02-07"; Note.mk 2 1 "Note" "Text" "2024-01-05"]
  /\ fst (getNotes bytewise_le notes_db)
     = inr [Note.mk 2 1 "Note" "Text" "2024-01-05";
            Note.mk 1 1 "Note" "Text" "2024-02-07"]
  /\ exists found,
       getNotes bytewise_le notes_db = (inr found, notes_db)
       /\ StronglySorted (ascending bytewise_le Note.createdAt) found
       /\ Permutation found (rows (notes_rows notes_db)).
Proof.
  split; [reflexivity|]. split; [reflexivity|].
  exact (proj1 (notes_are_sorted_by_createdAt bytewise_le notes_db
                  bytewise_le_total bytewise_le_trans)).
Defined.

(** ** The statistics upsert *)

Section StatsRows.
Variable d : string.

Lemma date_filter_absent (l : list StudyStats.t) :
  ~ In d (map StudyStats.date l) -> filter (eq_ StudyStats.date d) l = [].
Proof.
  induction l as [|r l IH]; simpl; intros Hn; [reflexivity|].
  destruct (String.eqb_spec (StudyStats.date r) d) as [E|E].
  - exfalso; apply Hn; left; exact E.
  - apply IH; intros Hin; apply Hn; right; exact Hin.
Qed.

Lemma date_filter_nil (l : list StudyStats.t) :
  filter (eq_ StudyStats.date d) l = [] -> ~ In d (map StudyStats.date l).
Proof.
  induction l as [|r l IH]; simpl; [tauto|].
  destruct (String.eqb_spec (StudyStats.date r) d) as [E|E]; [discriminate|].
  intros Hf [H|H]; [contradiction|exact (IH Hf H)].
Qed.

Lemma date_filter_unique (l : list StudyStats.t) :
  NoDup (map StudyStats.date l) ->
  filter (eq_ StudyStats.date d) l = []
  \/ exists r, filter (eq_ StudyStats.date d) l = [r].
Proof.
  induction l as [|r l IH]; simpl; intros Hnd; [left; reflexivity|].
  inversion Hnd as [|x xs Hx Hxs]; subst.
  destruct (String.eqb_spec (StudyStats.date r) d) as [E|E].
  - right; exists r; rewrite date_filter_absent; [reflexivity|].
    rewrite <- E; exact Hx.
  - apply IH; exact Hxs.
Qed.

Lemma dates_after_set (v : InsertStudyStats.t) (l : list StudyStats.t) :
  InsertStudyStats.date v = d ->
  map StudyStats.date
      (map (fun r => if eq_ StudyStats.date d r then assign v r else r) l)
  = map StudyStats.date l.
Proof.
  intros Hd; induction l as [|r l IH]; cbn [map]; [reflexivity|].
  rewrite IH; f_equal.
  unfold eq_; simpl.
  destruct (String.eqb_spec (StudyStats.date r) d) as [E|E]; simpl; congruence.
Qed.

Lemma ids_after_set (v : InsertStudyStats.t) (l : list StudyStats.t) (n : Z) :
  Forall (fun r => StudyStats.id r < n) l ->
  Forall (fun r => StudyStats.id r < n)
         (map (fun r => if eq_ StudyStats.date d r then assign v r else r) l).
Proof.
  induction 1 as [|r l Hr Hl IH]; cbn [map]; constructor; [|exact IH].
  destruct (eq_ StudyStats.date d r); simpl; exact Hr.
Qed.

End StatsRows.

Lemma upsert_existing (db : DB) (v : InsertStudyStats.t) (r : StudyStats.t)
    (rest : list StudyStats.t) :
  filter (eq_ StudyStats.date (InsertStudyStats.date v))
         (rows (studyStats_rows db)) = r :: rest ->
  createOrUpdateStudyStats v db
  = (inr (Some (assign v r)),
     tbl_put studyStats
       (mkTable
          (map (fun x => if eq_ StudyStats.date (InsertStudyStats.date v) x
                         then assign v x else x)
               (rows (studyStats_rows db)))
          (serial (studyStats_rows db)))
       db).
Proof.
  intros E.
  unfold createOrUpdateStudyStats, getStudyStatsByDate, where_,
    select_from, update_returning, bind, ret; cbn [tbl_get studyStats].
  cbv beta iota; rewrite E; cbn [hd_error]; cbv beta iota.
  rewrite E; reflexivity.
Qed.

Lemma upsert_new (db : DB) (v : InsertStudyStats.t) :
  serial_ok studyStats db ->
  filter (eq_ StudyStats.date (InsertStudyStats.date v))
         (rows (studyStats_rows db)) = [] ->
  createOrUpdateStudyStats v db
  = (inr (Some (stored studyStats (serial (studyStats_rows db)) v)),
     tbl_put studyStats
       (mkTable
          (rows (studyStats_rows db)
           ++ [stored studyStats (serial (studyStats_rows db)) v])
          (serial (studyStats_rows db) + 1))
       db).
Proof.
  intros Hok E.
  pose proof (create_result studyStats (fun a b => pk_conflict_eq _ _)
                (fun _ _ => eq_refl) db v Hok) as Hc.
  unfold create, bind in Hc.
  unfold createOrUpdateStudyStats, getStudyStatsByDate, where_,
    select_from, bind, ret; cbn [tbl_get studyStats].
  cbv beta iota; rewrite E; cbn [hd_error].
  destruct (insert_returning studyStats v db) as [[e|created] db'];
    [discriminate Hc|exact Hc].
Qed.

Lemma NoDup_snoc {A} (l : list A) (x : A) :
  NoDup l -> ~ In x l -> NoDup (l ++ [x]).
Proof.
  induction 1 as [|y l Hy Hl IH]; simpl; intros Hx.
  - constructor; [tauto|constructor].
  - constructor; [|apply IH; tauto].
    rewrite in_app_iff; simpl; intros [H|[H|[]]]; [tauto|].
    apply Hx; left; symmetry; exact H.
Qed.

(** One upsert in a store that has at most one row per date. *)
Lemma upsert_one_row (db : DB) (v : InsertStudyStats.t) :
  serial_ok studyStats db -> one_row_per_date db ->
  exists row,
    fst (createOrUpdateStudyStats v db) = inr (Some row)
    /\ filter (eq_ StudyStats.date (InsertStudyStats.date v))
              (rows (studyStats_rows (snd (createOrUpdateStudyStats v db))))
       = [row]
    /\ StudyStats.date row = InsertStudyStats.date v
    /\ (forall m, InsertStudyStats.totalMinutes v = Some m ->
                  StudyStats.totalMinutes row = m)
    /\ serial_ok studyStats (snd (createOrUpdateStudyStats v db))
    /\ one_row_per_date (snd (createOrUpdateStudyStats v db)).
Proof.
  intros Hok Hone.
  destruct (date_filter_unique (InsertStudyStats.date v) _ Hone) as [E|[r E]].
  - rewrite (upsert_new db v Hok E); cbn [fst snd].
    exists (stored studyStats (serial (studyStats_rows db)) v).
    unfold serial_ok, one_row_per_date in *; cbn [tbl_get tbl_put studyStats
      studyStats_rows rows serial pk] in *.
    split; [reflexivity|].
    split.
    { rewrite filter_app, E; simpl.
      rewrite String.eqb_refl; reflexivity. }
    split; [reflexivity|].
    split; [intros m Hm; simpl; rewrite Hm; reflexivity|].
    split.
    + apply Forall_app; split.
      * eapply Forall_impl; [|exact Hok]. simpl; intros; lia.
      * constructor; [simpl; lia|constructor].
    + rewrite map_app; apply NoDup_snoc; [exact Hone|].
      apply date_filter_nil; exact E.
  - rewrite (upsert_existing db v r [] E); cbn [fst snd].
    exists (assign v r).
    unfold serial_ok, one_row_per_date in *; cbn [tbl_get tbl_put studyStats
      studyStats_rows rows serial pk] in *.
    split; [reflexivity|].
    split.
    { rewrite filter_assigned, E; [reflexivity|].
      intros x _; unfold eq_; simpl; apply String.eqb_refl. }
    split; [reflexivity|].
    split; [intros m Hm; simpl; rewrite Hm; reflexivity|].
    split.
    + apply ids_after_set; exact Hok.
    + rewrite dates_after_set by reflexivity; exact Hone.
Qed.

Lemma POST_study_stats_valid (db : DB) (body : Json) (v : InsertStudyStats.t) :
  insertStudyStatsSchema body = ParseSuccess v ->
  snd (POST_study_stats body db) = snd (createOrUpdateStudyStats v db)
  /\ forall stats, fst (createOrUpdateStudyStats v db) = inr stats ->
       fst (POST_study_stats body db) = json (json_of JsonStats stats).
Proof.
  intros Hv; unfold POST_study_stats, try_catch; rewrite Hv; unfold bind.
  destruct (createOrUpdateStudyStats v db) as [[e|stats] db']; cbn [fst snd].
  - split; [reflexivity|discriminate].
  - split; [reflexivity|]. intros s E; injection E as ->; reflexivity.
Qed.

(** ** The invariants hold in every state the server reaches *)

Section Rewrites.
Context {R I : Type}.
Variable table : PgTable R I.
Hypothesis laws : table_laws table.
Hypothesis stored_pk : forall id v, pk table (stored table id v) = id.

Lemma rewrites_refl (db : DB) : rewrites table db db.
Proof.
  exists (mkTable (rows (tbl_get table db)) (serial (tbl_get table db))).
  split; [symmetry; apply (put_get table laws)|intros H; exact H].
Qed.

Lemma create_rewrites (db : DB) (v : I) :
  rewrites table db (snd (create table v db)).
Proof.
  unfold create, bind, insert_returning.
  destruct (existsb _ _); cbn [fst snd]; eexists; (split; [reflexivity|]);
    unfold serial_ok; cbn [rows serial]; intros Hok.
  - eapply Forall_impl; [|exact Hok]. cbn beta; intros; lia.
  - apply Forall_app; split.
    + eapply Forall_impl; [|exact Hok]. cbn beta; intros; lia.
    + constructor; [rewrite stored_pk; lia|constructor].
Qed.

Lemma delete_rewrites (db : DB) (id : Z) :
  rewrites table db (snd (delete_by_id table id db)).
Proof.
  rewrite delete_by_id_result; cbn [snd]; eexists; split; [reflexivity|].
  unfold serial_ok; cbn [rows serial]; intros Hok.
  apply Forall_forall; intros r Hin; apply filter_In in Hin.
  rewrite Forall_forall in Hok; apply Hok; tauto.
Qed.

Context {P : Type} `{UpdateSet P R}.
Hypothesis assign_pk : forall (u : P) (r : R), pk table (assign u r) = pk table r.

Lemma update_rewrites (db : DB) (id : Z) (u : P) :
  rewrites table db (snd (update_by_id table id u db)).
Proof.
  destruct (Nat.eq_dec (entries u) 0) as [E|E].
  - rewrite update_by_id_empty by exact E; apply rewrites_refl.
  - rewrite update_by_id_result by exact E; cbn [snd].
    eexists; split; [reflexivity|].
    unfold serial_ok; cbn [rows serial]; intros Hok.
    apply Forall_forall; intros r Hin; apply in_map_iff in Hin.
    destruct Hin as (x & Ex & Hin); rewrite Forall_forall in Hok.
    specialize (Hok x Hin); subst r.
    destruct (eq_ (pk table) id x); [rewrite assign_pk|]; exact Hok.
Qed.

End Rewrites.

Lemma subjects_rewrites_ok (db db' : DB) :
  rewrites subjects db db' -> db_ok db -> db_ok db'.
Proof.
  intros (t & -> & Ht) (H1 & H2 & H3 & H4 & H5 & H6).
  repeat split; try assumption. exact (Ht H1).
Qed.

Lemma studySessions_rewrites_ok (db db' : DB) :
  rewrites studySessions db db' -> db_ok db -> db_ok db'.
Proof.
  intros (t & -> & Ht) (H1 & H2 & H3 & H4 & H5 & H6).
  repeat split; try assumption. exact (Ht H2).
Qed.

Lemma notes_rewrites_ok (db db' : DB) :
  rewrites notes db db' -> db_ok db -> db_ok db'.
Proof.
  intros (t & -> & Ht) (H1 & H2 & H3 & H4 & H5 & H6).
  repeat split; try assumption. exact (Ht H3).
Qed.

Lemma goals_rewrites_ok (db db' : DB) :
  rewrites goals db db' -> db_ok db -> db_ok db'.
Proof.
  intros (t & -> & Ht) (H1 & H2 & H3 & H4 & H5 & H6).
  repeat split; try assumption. exact (Ht H4).
Qed.

Lemma upsert_db_ok (db : DB) (v : InsertStudyStats.t) :
  db_ok db -> db_ok (snd (createOrUpdateStudyStats v db)).
Proof.
  intros (H1 & H2 & H3 & H4 & H5 & H6).
  destruct (upsert_one_row db v H5 H6) as (_ & _ & _ & _ & _ & Hok & Hone).
  assert (Hput : exists t, snd (createOrUpdateStudyStats v db)
                           = tbl_put studyStats t db).
  { destruct (filter (eq_ StudyStats.date (InsertStudyStats.date v))
                     (rows (studyStats_rows db))) as [|r rest] eqn:E.
    - rewrite (upsert_new db v H5 E); eexists; reflexivity.
    - rewrite (upsert_existing db v r rest E); eexists; reflexivity. }
  destruct Hput as (t & Et); rewrite Et in *.
  repeat split; assumption.
Qed.

Lemma POST_writes_as_create {R I} (schema : Json -> SafeParse I)
    (method : I -> Storage (option R)) (wrap : R -> Body)
    (invalid failed : string) (body : Json) (db : DB) :
  snd (try_catch
         (match schema body with
          | ParseFailure issues =>
              ret (status_json 400 (JsonErrors invalid issues))
          | ParseSuccess data =>
              row <- method data ;;
              ret (status_json 201 (json_of wrap row))
          end)
         failed db)
  = match schema body with
    | ParseFailure _ => db
    | ParseSuccess data => snd (method data db)
    end.
Proof.
  unfold try_catch, bind.
  destruct (schema body) as [data|issues]; [|reflexivity].
  destruct (method data db) as [[e|row] db']; reflexivity.
Qed.

Lemma DELETE_writes_as_delete (delete : Storage bool)
    (message failed : string) (db : DB) :
  snd (try_catch
         (success <- delete ;;
          if negb success then ret (status_json 404 (JsonMessage message))
          else ret (status_send 204))
         failed db)
  = snd (delete db).
Proof.
  unfold try_catch, bind.
  destruct (delete db) as [[e|[|]] db']; reflexivity.
Qed.

Lemma handle_db_ok (collate_le : string -> string -> bool) (req : Request)
    (db : DB) :
  db_ok db -> db_ok (snd (handle collate_le req db)).
Proof.
  intros Hok.
  destruct req as [|id|b|id u|id|date|b|id u|id|subjectId|b|id u|id
                  | |b|id u|id|date|b]; cbn [handle].
  - exact Hok.
  - replace (snd (GET_subjects_id id db)) with db; [exact Hok|].
    unfold GET_subjects_id, try_catch, bind.
    change (getSubject id db) with (get_by_id subjects id db).
    rewrite get_by_id_result; destruct (hd_error _); reflexivity.
  - unfold POST_subjects; rewrite POST_writes_as_create.
    destruct (insertSubjectSchema b); [|exact Hok].
    apply (subjects_rewrites_ok db); [|exact Hok].
    apply (create_rewrites subjects); reflexivity.
  - rewrite (PATCH_writes_as_update updateSubject PATCH_subjects_id JsonSubject
               "Subject not found" "Failed to update subject"
               (fun _ _ => eq_refl)).
    apply (subjects_rewrites_ok db); [|exact Hok].
    apply (update_rewrites subjects subjects_laws); reflexivity.
  - unfold DELETE_subjects_id; rewrite DELETE_writes_as_delete.
    apply (subjects_rewrites_ok db); [|exact Hok].
    apply (delete_rewrites subjects).
  - replace (snd (GET_study_sessions date db)) with db; [exact Hok|].
    unfold GET_study_sessions, try_catch; destruct (truthy date); reflexivity.
  - unfold POST_study_sessions; rewrite POST_writes_as_create.
    destruct (insertStudySessionSchema b); [|exact Hok].
    apply (studySessions_rewrites_ok db); [|exact Hok].
    apply (create_rewrites studySessions); reflexivity.
  - rewrite (PATCH_writes_as_update updateStudySession PATCH_study_sessions_id
               JsonStudySession "Study session not found"
               "Failed to update study session" (fun _ _ => eq_refl)).
    apply (studySessions_rewrites_ok db); [|exact Hok].
    apply (update_rewrites studySessions studySessions_laws); reflexivity.
  - unfold DELETE_study_sessions_id; rewrite DELETE_writes_as_delete.
    apply (studySessions_rewrites_ok db); [|exact Hok].
    apply (delete_rewrites studySessions).
  - replace (snd (GET_notes collate_le subjectId db)) with db; [exact Hok|].
    destruct subjectId; reflexivity.
  - unfold POST_notes; rewrite POST_writes_as_create.
    destruct (insertNoteSchema b); [|exact Hok].
    apply (notes_rewrites_ok db); [|exact Hok].
    apply (create_rewrites notes); reflexivity.
  - rewrite (PATCH_writes_as_update updateNote PATCH_notes_id JsonNote
               "Note not found" "Failed to update note" (fun _ _ => eq_refl)).
    apply (notes_rewrites_ok db); [|exact Hok].
    apply (update_rewrites notes notes_laws); reflexivity.
  - unfold DELETE_notes_id; rewrite DELETE_writes_as_delete.
    apply (notes_rewrites_ok db); [|exact Hok].
    apply (delete_rewrites notes).
  - exact Hok.
  - unfold POST_goals; rewrite POST_writes_as_create.
    destruct (insertGoalSchema b); [|exact Hok].
    apply (goals_rewrites_ok db); [|exact Hok].
    apply (create_rewrites goals); reflexivity.
  - rewrite (PATCH_writes_as_update updateGoal PATCH_goals_id JsonGoal
               "Goal not found" "Failed to update goal" (fun _ _ => eq_refl)).
    apply (goals_rewrites_ok db); [|exact Hok].
    apply (update_rewrites goals goals_laws); reflexivity.
  - unfold DELETE_goals_id; rewrite DELETE_writes_as_delete.
    apply (goals_rewrites_ok db); [|exact Hok].
    apply (delete_rewrites goals).
  - replace (snd (GET_study_stats date db)) with db; [exact Hok|].
    unfold GET_study_stats, try_catch; destruct (truthy date); [|reflexivity].
    unfold_storage; cbn [tbl_get studyStats].
    destruct (hd_error _); reflexivity.
  - destruct (insertStudyStatsSchema b) as [v|issues] eqn:E.
    + rewrite (proj1 (POST_study_stats_valid db b v E)).
      apply upsert_db_ok; exact Hok.
    + unfold POST_study_stats, try_catch; rewrite E; exact Hok.
Qed.

Lemma empty_db_ok : db_ok empty_db.
Proof. repeat split; constructor. Qed.

(** Every store reached from the empty database by serving requests one
    after the other satisfies the invariants. *)
Lemma serve_db_ok (collate_le : string -> string -> bool)
    (reqs : list Request) (db : DB) :
  db_ok db -> db_ok (snd (serve collate_le reqs db)).
Proof.
  revert db; induction reqs as [|req reqs IH]; intros db Hok; [exact Hok|].
  cbn [serve].
  pose proof (handle_db_ok collate_le req db Hok) as H1.
  destruct (handle collate_le req db) as [res db1]; cbn [snd] in H1.
  specialize (IH db1 H1).
  destruct (serve collate_le reqs db1) as [more db2]; exact IH.
Qed.

(** * Further properties *)

Lemma GET_subjects_id_outcome (db : DB) (id : Z) :
  GET_subjects_id id db = (status_json 404 (JsonMessage "Subject not found"), db)
  \/ exists r, GET_subjects_id id db = (json (JsonSubject r), db).
Proof.
  unfold GET_subjects_id, try_catch, bind.
  change (getSubject id db) with (get_by_id subjects id db).
  rewrite get_by_id_result.
  destruct (hd_error _) as [r|]; [right; exists r|left]; reflexivity.
Qed.

Lemma subjects_creates_as_stored (db : DB) (body : Json) :
  creates_as_stored subjects insertSubjectSchema createSubject JsonSubject
    POST_subjects subject_as_stored db body.
Proof.
  apply (creates_as_stored_at subjects subjects_laws)
    with (invalid := "Invalid subject data")
         (failed := "Failed to create subject");
    try reflexivity.
  - intros a0 b0; apply pk_conflict_eq.
  - intros i v; repeat split.
Qed.

Lemma studySessions_creates_as_stored (db : DB) (body : Json) :
  creates_as_stored studySessions insertStudySessionSchema createStudySession
    JsonStudySession POST_study_sessions session_as_stored db body.
Proof.
  apply (creates_as_stored_at studySessions studySessions_laws)
    with (invalid := "Invalid session data")
         (failed := "Failed to create study session");
    try reflexivity.
  - intros a0 b0; apply pk_conflict_eq.
  - intros i v; repeat split.
Qed.

Lemma notes_creates_as_stored (db : DB) (body : Json) :
  creates_as_stored notes insertNoteSchema createNote JsonNote POST_notes
    note_as_stored db body.
Proof.
  apply (creates_as_stored_at notes notes_laws)
    with (invalid := "Invalid note data") (failed := "Failed to create note");
    try reflexivity.
  - intros a0 b0; apply pk_conflict_eq.
  - intros i v; repeat split.
Qed.

Lemma goals_creates_as_stored (db : DB) (body : Json) :
  creates_as_stored goals insertGoalSchema createGoal JsonGoal POST_goals
    goal_as_stored db body.
Proof.
  apply (creates_as_stored_at goals goals_laws)
    with (invalid := "Invalid goal data") (failed := "Failed to create goal");
    try reflexivity.
  - intros a0 b0; apply pk_conflict_eq.
  - intros i v; repeat split.
Qed.

(** ** One request rewrites one table *)

Lemma kept_rows_have_distinct_keys {R K} (keep : R -> bool) (key : R -> K)
    (l : list R) (Hnd : NoDup (map key l)) :
  NoDup (map key (filter keep l)).
Proof.
  induction l as [|x l IH]; simpl in *; [constructor|].
  inversion Hnd as [|y ys Hy Hys]; subst.
  destruct (keep x); simpl; [constructor|]; try (apply IH; exact Hys).
  intros Hin; apply Hy.
  apply in_map_iff in Hin; destruct Hin as (z & Ez & Hz).
  apply filter_In in Hz; apply in_map_iff; exists z; tauto.
Qed.

Section Steps.
Context {R I : Type}.
Variable table : PgTable R I.
Hypothesis laws : table_laws table.
Hypothesis stored_pk : forall id v, pk table (stored table id v) = id.

Lemma steps_refl (db : DB) : steps table db db.
Proof.
  exists (mkTable (rows (tbl_get table db)) (serial (tbl_get table db))).
  split; [symmetry; apply (put_get table laws)|].
  split; [intros H; exact H|]. split; [intros _ H; exact H|cbn; lia].
Qed.

Lemma create_steps (db : DB) (v : I) : steps table db (snd (create table v db)).
Proof.
  unfold create, bind, insert_returning.
  destruct (existsb _ _); cbn [fst snd]; eexists; (split; [reflexivity|]);
    unfold serial_ok, ids_unique, stored_ids; cbn [rows serial].
  - split; [intros Hok|split; [intros _ Hu; exact Hu|lia]].
    eapply Forall_impl; [|exact Hok]. cbn beta; intros; lia.
  - split; [intros Hok|split; [intros Hok Hu|lia]].
    + apply Forall_app; split.
      * eapply Forall_impl; [|exact Hok]. cbn beta; intros; lia.
      * constructor; [rewrite stored_pk; lia|constructor].
    + rewrite map_app; cbn [map]; rewrite stored_pk.
      apply NoDup_snoc; [exact Hu|].
      apply (next_id_is_fresh table db Hok).
Qed.

Lemma delete_steps (db : DB) (id : Z) :
  steps table db (snd (delete_by_id table id db)).
Proof.
  rewrite delete_by_id_result; cbn [snd]; eexists; split; [reflexivity|].
  unfold serial_ok, ids_unique, stored_ids; cbn [rows serial].
  split; [intros Hok|split; [intros _ Hu|lia]].
  - apply Forall_forall; intros r Hin; apply filter_In in Hin.
    rewrite Forall_forall in Hok; apply Hok; tauto.
  - apply kept_rows_have_distinct_keys; exact Hu.
Qed.

Context {P : Type} `{UpdateSet P R}.
Hypothesis assign_pk : forall (u : P) (r : R), pk table (assign u r) = pk table r.

Lemma ids_after_assign (c : R -> bool) (u : P) (l : list R) :
  map (pk table) (map (fun r => if c r then assign u r else r) l)
  = map (pk table) l.
Proof.
  induction l as [|r l IH]; cbn [map]; [reflexivity|].
  rewrite IH; f_equal. destruct (c r); [apply assign_pk|reflexivity].
Qed.

Lemma update_steps (db : DB) (id : Z) (u : P) :
  steps table db (snd (update_by_id table id u db)).
Proof.
  destruct (Nat.eq_dec (entries u) 0) as [E|E].
  - rewrite update_by_id_empty by exact E; apply steps_refl.
  - rewrite update_by_id_result by exact E; cbn [snd].
    eexists; split; [reflexivity|].
    unfold serial_ok, ids_unique, stored_ids; cbn [rows serial].
    split; [intros Hok|split; [intros _ Hu|lia]].
    + apply Forall_forall; intros r Hin; apply in_map_iff in Hin.
      destruct Hin as (x & Ex & Hin); rewrite Forall_forall in Hok.
      specialize (Hok x Hin); subst r.
      destruct (eq_ (pk table) id x); [rewrite assign_pk|]; exact Hok.
    + rewrite ids_after_assign; exact Hu.
Qed.

End Steps.

Lemma upsert_steps (db : DB) (v : InsertStudyStats.t) :
  steps studyStats db (snd (createOrUpdateStudyStats v db)).
Proof.
  destruct (filter (eq_ StudyStats.date (InsertStudyStats.date v))
                   (rows (studyStats_rows db))) as [|r rest] eqn:E.
  - replace (snd (createOrUpdateStudyStats v db))
      with (snd (create studyStats v db)).
    + apply (create_steps studyStats); reflexivity.
    + unfold createOrUpdateStudyStats, getStudyStatsByDate, where_,
        select_from, bind, ret; cbn [tbl_get studyStats].
      cbv beta iota; rewrite E; reflexivity.
  - rewrite (upsert_existing db v r rest E); cbn [snd].
    eexists; split; [reflexivity|].
    unfold serial_ok, ids_unique, stored_ids;
      cbn [rows serial tbl_get studyStats pk].
    split; [intros Hok|split; [intros _ Hu|lia]].
    + apply ids_after_set; exact Hok.
    + rewrite (@ids_after_assign _ _ studyStats _ InsertStudyStats_set
                 (fun _ _ => eq_refl)); exact Hu.
Qed.

Lemma handle_steps (collate_le : string -> string -> bool) (req : Request)
    (db : DB) :
  steps_of req db (snd (handle collate_le req db)).
Proof.
  destruct req as [|id|b|id u|id|date|b|id u|id|subjectId|b|id u|id
                  | |b|id u|id|date|b];
    cbn [handle steps_of].
  - apply (steps_refl subjects subjects_laws).
  - destruct (GET_subjects_id_outcome db id) as [E|(r & E)]; rewrite E;
      apply (steps_refl subjects subjects_laws).
  - unfold POST_subjects; rewrite POST_writes_as_create.
    destruct (insertSubjectSchema b);
      [|apply (steps_refl subjects subjects_laws)].
    apply (create_steps subjects); reflexivity.
  - rewrite (PATCH_writes_as_update updateSubject PATCH_subjects_id JsonSubject
               "Subject not found" "Failed to update subject"
               (fun _ _ => eq_refl)).
    apply (update_steps subjects subjects_laws); reflexivity.
  - unfold DELETE_subjects_id; rewrite DELETE_writes_as_delete.
    apply (delete_steps subjects).
  - replace (snd (GET_study_sessions date db)) with db;
      [apply (steps_refl studySessions studySessions_laws)|].
    unfold GET_study_sessions, try_catch; destruct (truthy date); reflexivity.
  - unfold POST_study_sessions; rewrite POST_writes_as_create.
    destruct (insertStudySessionSchema b);
      [|apply (steps_refl studySessions studySessions_laws)].
    apply (create_steps studySessions); reflexivity.
  - rewrite (PATCH_writes_as_update updateStudySession PATCH_study_sessions_id
               JsonStudySession "Study session not found"
               "Failed to update study session" (fun _ _ => eq_refl)).
    apply (update_steps studySessions studySessions_laws); reflexivity.
  - unfold DELETE_study_sessions_id; rewrite DELETE_writes_as_delete.
    apply (delete_steps studySessions).
  - replace (snd (GET_notes collate_le subjectId db)) with db;
      [apply (steps_refl notes notes_laws)|].
    destruct subjectId; reflexivity.
  - unfold POST_notes; rewrite POST_writes_as_create.
    destruct (insertNoteSchema b); [|apply (steps_refl notes notes_laws)].
    apply (create_steps notes); reflexivity.
  - rewrite (PATCH_writes_as_update updateNote PATCH_notes_id JsonNote
               "Note not found" "Failed to update note" (fun _ _ => eq_refl)).
    apply (update_steps notes notes_laws); reflexivity.
  - unfold DELETE_notes_id; rewrite DELETE_writes_as_delete.
    apply (delete_steps notes).
  - apply (steps_refl goals goals_laws).
  - unfold POST_goals; rewrite POST_writes_as_create.
    destruct (insertGoalSchema b); [|apply (steps_refl goals goals_laws)].
    apply (create_steps goals); reflexivity.
  - rewrite (PATCH_writes_as_update updateGoal PATCH_goals_id JsonGoal
               "Goal not found" "Failed to update goal" (fun _ _ => eq_refl)).
    apply (update_steps goals goals_laws); reflexivity.
  - unfold DELETE_goals_id; rewrite DELETE_writes_as_delete.
    apply (delete_steps goals).
  - replace (snd (GET_study_stats date db)) with db;
      [apply (steps_refl studyStats studyStats_laws)|].
    unfold GET_study_stats, try_catch; destruct (truthy date); [|reflexivity].
    unfold_storage; cbn [tbl_get studyStats].
    destruct (hd_error _); reflexivity.
  - destruct (insertStudyStatsSchema b) as [v|issues] eqn:E.
    + rewrite (proj1 (POST_study_stats_valid db b v E)).
      apply upsert_steps.
    + unfold POST_study_stats, try_catch; rewrite E.
      apply (steps_refl studyStats studyStats_laws).
Qed.


(** X3.  A GET request never writes: the store after it is the store
    before it, whatever the store holds. *)
Theorem reads_do_not_write (collate_le : string -> string -> bool)
    (req : Request) (db : DB) :
  is_read req = true -> snd (handle collate_le req db) = db.
Proof.
  destruct req as [|id|b|id u|id|date|b|id u|id|subjectId|b|id u|id
                  | |b|id u|id|date|b];
    cbn [is_read handle]; intros Hr; try discriminate Hr.
  - reflexivity.
  - destruct (GET_subjects_id_outcome db id) as [E|(r & E)]; rewrite E;
      reflexivity.
  - unfold GET_study_sessions, try_catch; destruct (truthy date); reflexivity.
  - destruct subjectId; reflexivity.
  - reflexivity.
  - unfold GET_study_stats, try_catch; destruct (truthy date); [|reflexivity].
    unfold_storage; cbn [tbl_get studyStats].
    destruct (hd_error _); reflexivity.
Qed.

Lemma reads_do_not_write_witness :
  snd (handle bytewise_le (GetNotes (Some 1)) notes_db) = notes_db
  /\ snd (handle bytewise_le (GetStudyStats (Some "2024-05-01")) math_db)
     = math_db.
Proof.
  split.
  - apply (reads_do_not_write bytewise_le (GetNotes (Some 1)) notes_db).
    reflexivity.
  - apply (reads_do_not_write bytewise_le (GetStudyStats (Some "2024-05-01"))
             math_db).
    reflexivity.
Defined.

(** X4.  A request writes to the table of its own collection at most: the
    users table and the tables of the other collections are the same after
    the request as before, whatever the request and the store. *)
Theorem request_writes_its_collection_only
    (collate_le : string -> string -> bool) (req : Request) (db : DB) :
  users_rows (snd (handle collate_le req db)) = users_rows db
  /\ (collection req <> "subjects" ->
      subjects_rows (snd (handle collate_le req db)) = subjects_rows db)
  /\ (collection req <> "study-sessions" ->
      studySessions_rows (snd (handle collate_le req db))
      = studySessions_rows db)
  /\ (collection req <> "notes" ->
      notes_rows (snd (handle collate_le req db)) = notes_rows db)
  /\ (collection req <> "goals" ->
      goals_rows (snd (handle collate_le req db)) = goals_rows db)
  /\ (collection req <> "study-stats" ->
      studyStats_rows (snd (handle collate_le req db)) = studyStats_rows db).
Proof.
  pose proof (handle_steps collate_le req db) as Hs.
  destruct req; cbn [steps_of collection] in *;
    destruct Hs as (t & -> & _);
    (split; [reflexivity|]);
    (split; [intros Hc; try reflexivity; contradiction Hc; reflexivity|]);
    (split; [intros Hc; try reflexivity; contradiction Hc; reflexivity|]);
    (split; [intros Hc; try reflexivity; contradiction Hc; reflexivity|]);
    (split; intros Hc; try reflexivity; contradiction Hc; reflexivity).
Qed.

Lemma request_writes_its_collection_only_witness :
  subjects_rows (snd (handle bytewise_le (DeleteNote 1) math_db))
  = subjects_rows math_db
  /\ notes_rows (snd (handle bytewise_le (DeleteSubject 1) notes_db))
     = notes_rows notes_db.
Proof.
  split.
  - apply (request_writes_its_collection_only bytewise_le (DeleteNote 1)
             math_db).
    discriminate.
  - apply (request_writes_its_collection_only bytewise_le (DeleteSubject 1)
             notes_db).
    discriminate.
Defined.

(** ** Sequences and ids over a run of requests *)








(** ** Create, fetch, delete *)

Section RoundTrip.
Context {R I : Type}.
Variable table : PgTable R I.
Hypothesis laws : table_laws table.
Hypothesis conflicts_pk :
  forall a b, conflicts table a b = true -> pk table a = pk table b.
Hypothesis stored_pk : forall id v, pk table (stored table id v) = id.

Lemma filter_after_delete (id id' : Z) (l : list R) :
  id' <> id ->
  filter (eq_ (pk table) id') (filter (fun r => negb (eq_ (pk table) id r)) l)
  = filter (eq_ (pk table) id') l.
Proof.
  intros Hne; unfold eq_; cbn [sql_eqb SqlEq_integer].
  induction l as [|r l IH]; [reflexivity|].
  cbn [filter].
  destruct (Z.eqb_spec (pk table r) id) as [E|E]; cbn [negb filter].
  - destruct (Z.eqb_spec (pk table r) id') as [E'|E']; [congruence|exact IH].
  - destruct (pk table r =? id'); [f_equal|]; exact IH.
Qed.

Lemma delete_keeps_others_by_id (db : DB) (id : Z) :
  delete_keeps_others (get_by_id table) (delete_by_id table) db id.
Proof.
  intros id' Hne.
  rewrite delete_by_id_result; cbn [snd].
  rewrite !get_by_id_result, (get_put table laws); cbn [fst rows].
  rewrite (filter_after_delete id id' _ Hne); reflexivity.
Qed.

End RoundTrip.

(** X8.  Deleting one id leaves the rest of its table alone: every other id
    is fetched after the delete exactly as before it (subjects, study
    sessions, notes, goals). *)
Theorem delete_keeps_other_rows (db : DB) (id : Z) :
  delete_keeps_others getSubject deleteSubject db id
  /\ delete_keeps_others getStudySession deleteStudySession db id
  /\ delete_keeps_others getNote deleteNote db id
  /\ delete_keeps_others getGoal deleteGoal db id.
Proof.
  split; [|split; [|split]].
  - exact (delete_keeps_others_by_id subjects subjects_laws db id).
  - exact (delete_keeps_others_by_id studySessions studySessions_laws db id).
  - exact (delete_keeps_others_by_id notes notes_laws db id).
  - exact (delete_keeps_others_by_id goals goals_laws db id).
Qed.

Lemma delete_keeps_other_rows_witness :
  fst (getNote 1 (snd (deleteNote 2 notes_db))) = fst (getNote 1 notes_db)
  /\ fst (getNote 1 notes_db)
     = inr (Some (Note.mk 1 1 "Note" "Text" "2024-02-07")).
Proof.
  split; [|reflexivity].
  destruct (delete_keeps_other_rows notes_db 2) as (_ & _ & H & _).
  apply H; discriminate.
Defined.

(** ** Users *)







(** ** Validation *)

Lemma property_without (k key : string) (o : list (string * Json)) :
  k <> key -> property k (without key o) = property k o.
Proof.
  intros Hne; induction o as [|[k' v] o IH]; [reflexivity|].
  cbn [without filter fst property].
  destruct (String.eqb_spec k' key) as [E|E]; cbn [negb].
  - subst k'; destruct (String.eqb_spec key k); [congruence|exact IH].
  - cbn [property]; destruct (String.eqb k' k); [reflexivity|exact IH].
Qed.

Ltac skip_key H :=
  unfold shape;
  rewrite !property_without
    by (intros E; apply H; rewrite <- E; cbn; tauto);
  reflexivity.

(** X13.  The insert schemas read their own keys only: removing any other
    key from the body changes neither the validation result nor, hence, the
    response and the store.  ["id"] is such a key on every schema, so a
    client cannot choose the id of the row it creates. *)
Theorem unread_keys_are_ignored (key : string) (o : list (string * Json))
    (db : DB) :
  (~ In key insertSubjectKeys ->
   insertSubjectSchema (JObj (without key o)) = insertSubjectSchema (JObj o)
   /\ POST_subjects (JObj (without key o)) db = POST_subjects (JObj o) db)
  /\ (~ In key insertStudySessionKeys ->
      insertStudySessionSchema (JObj (without key o))
      = insertStudySessionSchema (JObj o)
      /\ POST_study_sessions (JObj (without key o)) db
         = POST_study_sessions (JObj o) db)
  /\ (~ In key insertNoteKeys ->
      insertNoteSchema (JObj (without key o)) = insertNoteSchema (JObj o)
      /\ POST_notes (JObj (without key o)) db = POST_notes (JObj o) db)
  /\ (~ In key insertGoalKeys ->
      insertGoalSchema (JObj (without key o)) = insertGoalSchema (JObj o)
      /\ POST_goals (JObj (without key o)) db = POST_goals (JObj o) db)
  /\ (~ In key insertStudyStatsKeys ->
      insertStudyStatsSchema (JObj (without key o))
      = insertStudyStatsSchema (JObj o)
      /\ POST_study_stats (JObj (without key o)) db
         = POST_study_stats (JObj o) db)
  /\ ~ In "id" insertSubjectKeys /\ ~ In "id" insertStudySessionKeys
  /\ ~ In "id" insertNoteKeys /\ ~ In "id" insertGoalKeys
  /\ ~ In "id" insertStudyStatsKeys.
Proof.
  split; [|split; [|split; [|split; [|split]]]].
  - intros H.
    assert (E : insertSubjectSchema (JObj (without key o))
                = insertSubjectSchema (JObj o))
      by (unfold insertSubjectSchema; skip_key H).
    split; [exact E|unfold POST_subjects; rewrite E; reflexivity].
  - intros H.
    assert (E : insertStudySessionSchema (JObj (without key o))
                = insertStudySessionSchema (JObj o))
      by (unfold insertStudySessionSchema; skip_key H).
    split; [exact E|unfold POST_study_sessions; rewrite E; reflexivity].
  - intros H.
    assert (E : insertNoteSchema (JObj (without key o))
                = insertNoteSchema (JObj o))
      by (unfold insertNoteSchema; skip_key H).
    split; [exact E|unfold POST_notes; rewrite E; reflexivity].
  - intros H.
    assert (E : insertGoalSchema (JObj (without key o))
                = insertGoalSchema (JObj o))
      by (unfold insertGoalSchema; skip_key H).
    split; [exact E|unfold POST_goals; rewrite E; reflexivity].
  - intros H.
    assert (E : insertStudyStatsSchema (JObj (without key o))
                = insertStudyStatsSchema (JObj o))
      by (unfold insertStudyStatsSchema; skip_key H).
    split; [exact E|unfold POST_study_stats; rewrite E; reflexivity].
  - repeat split; cbn; intros H;
      repeat (destruct H as [H|H]; [discriminate H|]); exact H.
Qed.

Lemma unread_keys_are_ignored_witness :
  POST_subjects (JObj [("id", JNum 99); ("name", JStr "Math")]) empty_db
  = POST_subjects math_body empty_db
  /\ fst (POST_subjects (JObj [("id", JNum 99); ("name", JStr "Math")]) empty_db)
     = status_json 201
         (JsonSubject (Subject.mk 1 "Math" "#4F46E5" "fas fa-book" None 0 0)).
Proof.
  split; [|reflexivity].
  destruct (unread_keys_are_ignored "id"
              [("id", JNum 99); ("name", JStr "Math")] empty_db)
    as (H & _).
  destruct H as (_ & H).
  - cbn; intros H; repeat (destruct H as [H|H]; [discriminate H|]); exact H.
  - symmetry; exact H.
Defined.

(** ** Repeating the statistics upsert *)

Lemma map_assign_fixed {R} (c : R -> bool) (g : R -> R) (l : list R) :
  (forall r, In r l -> c r = true -> g r = r) ->
  map (fun r => if c r then g r else r) l = l.
Proof.
  induction l as [|r l IH]; cbn [map]; intros Hg; [reflexivity|].
  rewrite IH by (intros x Hx; apply Hg; right; exact Hx).
  destruct (c r) eqn:E; [rewrite (Hg r (or_introl eq_refl) E)|]; reflexivity.
Qed.

Lemma stats_assign_twice (v : InsertStudyStats.t) (r : StudyStats.t) :
  assign v (assign v r) = assign v r.
Proof.
  destruct v as [d [m|] [c|] [s|]], r; reflexivity.
Qed.

Lemma stats_assign_stored (v : InsertStudyStats.t) (id : Z) :
  assign v (stored studyStats id v) = stored studyStats id v.
Proof.
  destruct v as [d [m|] [c|] [s|]]; reflexivity.
Qed.

Lemma upsert_row_is_fixed (db : DB) (v : InsertStudyStats.t) (row : StudyStats.t) :
  serial_ok studyStats db ->
  fst (createOrUpdateStudyStats v db) = inr (Some row) ->
  assign v row = row.
Proof.
  intros Hok.
  destruct (filter (eq_ StudyStats.date (InsertStudyStats.date v))
                   (rows (studyStats_rows db))) as [|r rest] eqn:E.
  - rewrite (upsert_new db v Hok E); cbn [fst]; intros H.
    injection H as <-; apply stats_assign_stored.
  - rewrite (upsert_existing db v r rest E); cbn [fst]; intros H.
    injection H as <-; apply stats_assign_twice.
Qed.

(** X16.  The statistics upsert is idempotent: in a store with one row per
    date and ids below the sequence, sending the same valid POST
    /api/study-stats again gives the same response as the first time and
    leaves the store as the first POST left it. *)
Theorem stats_post_twice_is_post_once (db : DB) (body : Json)
    (v : InsertStudyStats.t) :
  insertStudyStatsSchema body = ParseSuccess v ->
  serial_ok studyStats db ->
  one_row_per_date db ->
  POST_study_stats body (snd (POST_study_stats body db))
  = (fst (POST_study_stats body db), snd (POST_study_stats body db)).
Proof.
  intros Hv Hok Hone.
  destruct (POST_study_stats_valid db body v Hv) as [Hdb Hres].
  destruct (upsert_one_row db v Hok Hone)
    as (row & Hret & Hrows & _ & _ & Hok1 & Hone1).
  pose proof (upsert_row_is_fixed db v row Hok Hret) as Hfix.
  rewrite (Hres (Some row) Hret), Hdb.
  set (db1 := snd (createOrUpdateStudyStats v db)) in *.
  destruct (POST_study_stats_valid db1 body v Hv) as [Hdb2 Hres2].
  pose proof (upsert_existing db1 v row [] Hrows) as Hup.
  assert (Hsame : snd (createOrUpdateStudyStats v db1) = db1).
  { rewrite Hup; cbn [snd].
    rewrite map_assign_fixed; [apply (put_get studyStats studyStats_laws)|].
    intros r Hin Hc.
    assert (Hr : In r (filter (eq_ StudyStats.date (InsertStudyStats.date v))
                              (rows (studyStats_rows db1))))
      by (apply filter_In; split; assumption).
    rewrite Hrows in Hr; destruct Hr as [<-|[]]; exact Hfix. }
  rewrite (surjective_pairing (POST_study_stats body db1)).
  rewrite Hdb2, Hsame, (Hres2 (Some (assign v row))), Hfix; [reflexivity|].
  rewrite Hup; reflexivity.
Qed.

Lemma stats_post_twice_is_post_once_witness :
  POST_study_stats (stats_body "2024-05-01" 30)
    (snd (POST_study_stats (stats_body "2024-05-01" 30) empty_db))
  = (json (JsonStats (StudyStats.mk 1 "2024-05-01" 30 0 0)),
     snd (POST_study_stats (stats_body "2024-05-01" 30) empty_db)).
Proof.
  exact (stats_post_twice_is_post_once empty_db (stats_body "2024-05-01" 30)
           (InsertStudyStats.mk "2024-05-01" (Some 30) None None) eq_refl
           (Forall_nil _) (NoDup_nil _)).
Defined.

(** * The deployed server *)

(** ** Parameters the database accepts or refuses *)

Lemma int4_bounds (n : Z) : int4 n = true <-> INT32_MIN <= n <= INT32_MAX.
Proof. unfold int4; rewrite andb_true_iff, !Z.leb_le; tauto. Qed.

Lemma bound_id {R} (column : R -> Z) (id : Z) :
  int4 id = true -> Wire.eq_ column (Some id) = Some (eq_ column id).
Proof. intros H; unfold Wire.eq_; cbn; rewrite H; reflexivity. Qed.

Lemma refused_id {R} (column : R -> Z) (id : Z) :
  int4 id = false -> Wire.eq_ column (Some id) = None.
Proof. intros H; unfold Wire.eq_; cbn; rewrite H; reflexivity. Qed.

Lemma bound_text {R} (column : R -> string) (s : string) :
  pg_text s = true
  -> Wire.eq_ column (Wire.QString s) = Some (eq_ column s).
Proof. intros H; unfold Wire.eq_; cbn; rewrite H; reflexivity. Qed.

Lemma refused_text {R} (column : R -> string) (s : string) :
  pg_text s = false -> Wire.eq_ column (Wire.QString s) = None.
Proof. intros H; unfold Wire.eq_; cbn; rewrite H; reflexivity. Qed.

Lemma refused_number {R} (column : R -> Z) (n : option Z) :
  unbound n -> Wire.eq_ column n = None.
Proof.
  destruct n as [id|]; intros H; [apply refused_id; exact H|reflexivity].
Qed.

Section WireById.
Context {R I : Type}.
Variable table : PgTable R I.
Hypothesis laws : table_laws table.

Lemma wire_get_by_id (id : Z) :
  int4 id = true -> Wire.get_by_id table (Some id) = get_by_id table id.
Proof.
  intros H; unfold Wire.get_by_id; rewrite bound_id by exact H; reflexivity.
Qed.

Lemma wire_get_refused (n : option Z) (db : DB) :
  unbound n -> Wire.get_by_id table n db = (inl DatabaseError, db).
Proof.
  intros H; unfold Wire.get_by_id; rewrite refused_number by exact H.
  reflexivity.
Qed.

Lemma wire_delete_by_id (id : Z) :
  int4 id = true -> Wire.delete_by_id table (Some id) = delete_by_id table id.
Proof.
  intros H; unfold Wire.delete_by_id; rewrite bound_id by exact H; reflexivity.
Qed.

Lemma wire_delete_refused (n : option Z) (db : DB) :
  unbound n -> Wire.delete_by_id table n db = (inl DatabaseError, db).
Proof.
  intros H; unfold Wire.delete_by_id; rewrite refused_number by exact H.
  reflexivity.
Qed.

End WireById.

(** ** What validation guarantees to the database *)

Lemma zInteger_int4 (path : list string) (v : option Json) (n : Z) :
  zInteger path v = inr n -> int4 n = true.
Proof.
  destruct v as [[|b|k|f|s|l|o]|]; cbn; try discriminate.
  destruct (Z.ltb_spec k INT32_MIN); [discriminate|].
  destruct (Z.ltb_spec INT32_MAX k); [discriminate|].
  intros E; injection E as <-.
  apply int4_bounds; lia.
Qed.

Lemma optional_int4 (path : list string) (v : option Json) (x : option Z) :
  optional zInteger path v = inr x -> given int4 x = true.
Proof.
  unfold optional; destruct v as [j|]; [|intros E; injection E as <-; reflexivity].
  destruct (zInteger path (Some j)) as [e|n] eqn:En; [discriminate|].
  intros E; injection E as <-; exact (zInteger_int4 _ _ _ En).
Qed.

Lemma nullable_int4 (path : list string) (v : option Json) (x : option Z) :
  nullable zInteger path v = inr x -> given int4 x = true.
Proof.
  unfold nullable.
  destruct (zInteger path v) as [e|n] eqn:En;
    destruct v as [[|b|k|f|s|l|o]|]; intros E;
    try discriminate E; injection E as <-;
    try reflexivity; exact (zInteger_int4 _ _ _ En).
Qed.

Lemma optional_nullable_int4 (path : list string) (v : option Json)
    (x : option (option Z)) :
  optional (nullable zInteger) path v = inr x -> given (given int4) x = true.
Proof.
  unfold optional; destruct v as [j|]; [|intros E; injection E as <-; reflexivity].
  destruct (nullable zInteger path (Some j)) as [e|n] eqn:En; [discriminate|].
  intros E; injection E as <-; exact (nullable_int4 _ _ _ En).
Qed.

Ltac schema_fields :=
  cbv zeta;
  repeat match goal with
         | |- context [match shape ?t ?k ?o with _ => _ end] =>
             destruct (shape t k o) eqn:?
         end.

Ltac bounded :=
  repeat match goal with
         | E : shape (optional zInteger) _ _ = inr _ |- _ =>
             apply optional_int4 in E
         | E : shape zInteger _ _ = inr _ |- _ => apply zInteger_int4 in E
         | E : shape (optional (nullable zInteger)) _ _ = inr _ |- _ =>
             apply optional_nullable_int4 in E
         end.

Lemma stats_validated (body : Json) (v : InsertStudyStats.t) :
  insertStudyStatsSchema body = ParseSuccess v ->
  accepted v = pg_text (InsertStudyStats.date v).
Proof.
  unfold insertStudyStatsSchema; destruct body as [|b|k|f|s|l|o];
    try discriminate.
  schema_fields; intros E; try discriminate E; injection E as <-.
  bounded; cbn.
  repeat match goal with E : given int4 _ = true |- _ => rewrite E; clear E end.
  rewrite !andb_true_r; reflexivity.
Qed.

(** ** C7: validation failures *)

Ltac unfold_wire_routes :=
  unfold Wire.POST_subjects, Wire.POST_study_sessions, Wire.POST_notes,
    Wire.POST_goals, Wire.POST_study_stats, try_catch, ret.

(** C7.  On each of the five routes that validate their body:
    - a body the schema rejects (a value of the wrong type, a missing
      field, a number that is not an integer or lies outside the int4
      range) is answered 400 with the route's message and the list of
      issues the schema reported; the store is left untouched and the
      status is not 500;
    - a body the schema accepts is never answered 400;
    - the schema accepts no integer outside the int4 range, so a body
      that gives such a number to an integer column is among the
      rejected. *)
Theorem invalid_body_is_400 (db : DB) (body : Json) :
  validating insertSubjectSchema Wire.POST_subjects "Invalid subject data"
    db body
  /\ validating insertStudySessionSchema Wire.POST_study_sessions
       "Invalid session data" db body
  /\ validating insertNoteSchema Wire.POST_notes "Invalid note data" db body
  /\ validating insertGoalSchema Wire.POST_goals "Invalid goal data" db body
  /\ validating insertStudyStatsSchema Wire.POST_study_stats
       "Invalid stats data" db body
  /\ (forall data, insertSubjectSchema body = ParseSuccess data ->
        given int4 (InsertSubject.progress data) = true
        /\ given int4 (InsertSubject.totalHours data) = true)
  /\ (forall data, insertStudySessionSchema body = ParseSuccess data ->
        int4 (InsertStudySession.subjectId data) = true
        /\ given (given int4) (InsertStudySession.actualDuration data) = true)
  /\ (forall data, insertNoteSchema body = ParseSuccess data ->
        int4 (InsertNote.subjectId data) = true)
  /\ (forall data, insertGoalSchema body = ParseSuccess data ->
        given int4 (InsertGoal.progress data) = true)
  /\ (forall data, insertStudyStatsSchema body = ParseSuccess data ->
        given int4 (InsertStudyStats.totalMinutes data) = true
        /\ given int4 (InsertStudyStats.sessionsCompleted data) = true
        /\ given int4 (InsertStudyStats.streak data) = true).
Proof.
  split; [|split; [|split; [|split; [|split; [|split; [|split; [|split;
    [|split]]]]]]]].
  1-5: split;
    [ intros issues E; unfold_wire_routes; rewrite E; reflexivity
    | intros data E; unfold_wire_routes; unfold bind; rewrite E ].
  - destruct (Wire.createSubject data db) as [[e|[r|]] db'];
      cbn; discriminate.
  - destruct (Wire.createStudySession data db) as [[e|[r|]] db'];
      cbn; discriminate.
  - destruct (Wire.createNote data db) as [[e|[r|]] db']; cbn; discriminate.
  - destruct (Wire.createGoal data db) as [[e|[r|]] db']; cbn; discriminate.
  - destruct (Wire.createOrUpdateStudyStats data db) as [[e|[r|]] db'];
      cbn; discriminate.
  - intros data; unfold insertSubjectSchema;
      destruct body as [|b|k|f|s|l|o]; try discriminate.
    schema_fields; intros E; try discriminate E; injection E as <-.
    bounded; cbn; split; assumption.
  - intros data; unfold insertStudySessionSchema;
      destruct body as [|b|k|f|s|l|o]; try discriminate.
    schema_fields; intros E; try discriminate E; injection E as <-.
    bounded; cbn; split; assumption.
  - intros data; unfold insertNoteSchema;
      destruct body as [|b|k|f|s|l|o]; try discriminate.
    schema_fields; intros E; try discriminate E; injection E as <-.
    bounded; cbn; assumption.
  - intros data; unfold insertGoalSchema;
      destruct body as [|b|k|f|s|l|o]; try discriminate.
    schema_fields; intros E; try discriminate E; injection E as <-.
    bounded; cbn; assumption.
  - intros data; unfold insertStudyStatsSchema;
      destruct body as [|b|k|f|s|l|o]; try discriminate.
    schema_fields; intros E; try discriminate E; injection E as <-.
    bounded; cbn; repeat split; assumption.
Qed.

Lemma invalid_body_is_400_witness :
  Wire.POST_subjects (JObj [("name", JStr "Big"); ("progress", JNum 2147483648)])
    math_db
  = (status_json 400
       (JsonErrors "Invalid subject data"
          [mkIssue (TooBig INT32_MAX) ["progress"]]),
     math_db)
  /\ Wire.POST_notes (JObj [("subjectId", JFrac 7 "7.5")]) empty_db
     = (status_json 400
          (JsonErrors "Invalid note data"
             [mkIssue (InvalidType ZInteger ZFloat) ["subjectId"];
              mkIssue (InvalidType ZString ZUndefined) ["title"];
              mkIssue (InvalidType ZString ZUndefined) ["content"];
              mkIssue (InvalidType ZString ZUndefined) ["createdAt"]]),
        empty_db)
  /\ Wire.POST_study_stats JNull empty_db
     = (status_json 400
          (JsonErrors "Invalid stats data"
             [mkIssue (InvalidType ZObject ZNull) []]),
        empty_db).
Proof.
  split; [|split].
  - destruct (invalid_body_is_400 math_db
                (JObj [("name", JStr "Big"); ("progress", JNum 2147483648)]))
      as ((H & _) & _).
    apply H; reflexivity.
  - destruct (invalid_body_is_400 empty_db (JObj [("subjectId", JFrac 7 "7.5")]))
      as (_ & _ & (H & _) & _).
    apply H; reflexivity.
  - destruct (invalid_body_is_400 empty_db JNull) as (_ & _ & _ & _ & (H & _) & _).
    apply H; reflexivity.
Defined.

(** ** Updates from a request body *)

Section WireUpdate.
Context {R I P : Type} `{UpdateSet P R} `{PrimaryKey R}.
Variable table : PgTable R I.
Hypothesis laws : table_laws table.
Variable columns_of : list (string * Json) -> SetClause P.
Hypothesis no_field : forallb is_kept (columns (columns_of [])) = true.

Lemma set_binds (body : Json) :
  binds columns_of body = true ->
  exists o, body = JObj o
    /\ Wire.set_ columns_of body = ret (columns_of o)
    /\ forallb is_kept (columns (columns_of o)) = false
    /\ existsb is_refused (columns (columns_of o)) = false.
Proof.
  destruct body as [|b|n|f|s|l|[|kv o]]; cbn; try discriminate.
  rewrite andb_true_iff, !negb_true_iff; intros [Hk Hr].
  exists (kv :: o); repeat split; assumption.
Qed.

Lemma update_unbound (body : Json) (n : option Z) (db : DB) :
  binds columns_of body = false ->
  exists e, Wire.update_by_id table columns_of n body db = (inl e, db).
Proof.
  unfold Wire.update_by_id, Wire.update_returning, bind.
  destruct body as [|b|k|f|s|l|o]; cbn;
    try (intros _; eexists; reflexivity).
  - destruct s; cbn; [intros _; eexists; reflexivity|].
    rewrite no_field; intros _; eexists; reflexivity.
  - destruct l; cbn; [intros _; eexists; reflexivity|].
    rewrite no_field; intros _; eexists; reflexivity.
  - destruct o as [|kv o]; cbn; [intros _; eexists; reflexivity|].
    destruct (forallb is_kept (columns (columns_of (kv :: o))));
      [intros _; eexists; reflexivity|].
    destruct (existsb is_refused (columns (columns_of (kv :: o))));
      [intros _; eexists; reflexivity|].
    discriminate.
Qed.

Lemma update_refused_id (body : Json) (n : option Z) (db : DB) :
  unbound n ->
  exists e, Wire.update_by_id table columns_of n body db = (inl e, db).
Proof.
  intros Hn.
  destruct (binds columns_of body) eqn:Hb; [|apply update_unbound; exact Hb].
  destruct (set_binds body Hb) as (o & -> & Hset & Hk & Hr).
  unfold Wire.update_by_id, bind; rewrite Hset; unfold ret.
  unfold Wire.update_returning; rewrite Hk, Hr.
  rewrite refused_number by exact Hn; eexists; reflexivity.
Qed.

(** The statement sent for a body that binds and an id in range. *)
Lemma update_bound (o : list (string * Json)) (id : Z) (db : DB) :
  binds columns_of (JObj o) = true -> int4 id = true ->
  Wire.update_by_id table columns_of (Some id) (JObj o) db
  = match filter (eq_ (pk table) id) (rows (tbl_get table db)) with
    | [] => (inr None, db)
    | first :: others =>
        let rest := filter (fun r => negb (eq_ (pk table) id r))
                           (rows (tbl_get table db)) in
        let values := columns_of o in
        if existsb is_violated (columns values)
        then (inl DatabaseError, db)
        else if match rekey values with
                | Some k =>
                    existsb (fun r => pk table r =? k) rest
                    || negb (Nat.eqb (List.length others) 0)
                | None => false
                end
        then (inl UniqueViolation, db)
        else
          let updated :=
            map (fun r => new_key (rekey values) (assign (payload values) r))
                (first :: others) in
          (inr (hd_error updated),
           tbl_put table
             (mkTable (rest ++ updated) (serial (tbl_get table db))) db)
    end.
Proof.
  intros Hb Hid.
  destruct (set_binds _ Hb) as (o' & E & Hset & Hk & Hr).
  injection E as <-.
  unfold Wire.update_by_id, bind; rewrite Hset; unfold ret.
  unfold Wire.update_returning; rewrite Hk, Hr.
  rewrite bound_id by exact Hid.
  change (fun r : R => sql_eqb (pk table r) id) with (eq_ (pk table) id).
  destruct (filter (eq_ (pk table) id) (rows (tbl_get table db)))
    as [|first others]; [reflexivity|].
  cbv zeta.
  destruct (existsb is_violated _); [reflexivity|].
  destruct (match rekey (columns_of o) with Some _ => _ | None => _ end);
    reflexivity.
Qed.

Lemma update_absent (body : Json) (id : Z) (db : DB) :
  binds columns_of body = true -> int4 id = true ->
  ~ In id (stored_ids table db) ->
  Wire.update_by_id table columns_of (Some id) body db = (inr None, db).
Proof.
  intros Hb Hid Hn.
  destruct (set_binds _ Hb) as (o & -> & _).
  rewrite update_bound by assumption.
  unfold stored_ids in Hn; rewrite filter_absent by exact Hn; reflexivity.
Qed.

End WireUpdate.

(** ** Routes on a path parameter *)

Section WireRoutes.
Context {R I P : Type} `{UpdateSet P R} `{PrimaryKey R}.
Variable pf : Platform.
Variable table : PgTable R I.
Hypothesis laws : table_laws table.
Variable columns_of : list (string * Json) -> SetClause P.
Hypothesis no_field : forallb is_kept (columns (columns_of [])) = true.
Variable get : option Z -> Storage (option R).
Variable update : option Z -> Json -> Storage (option R).
Variable delete : option Z -> Storage bool.
Variable PATCH : string -> Json -> DB -> Response * DB.
Variable DELETE : string -> DB -> Response * DB.
Variable wrap : R -> Body.
Variables message patch_failed delete_failed : string.
Hypothesis get_is : forall n, get n = Wire.get_by_id table n.
Hypothesis update_is : forall n body,
  update n body = Wire.update_by_id table columns_of n body.
Hypothesis delete_is : forall n, delete n = Wire.delete_by_id table n.
Hypothesis PATCH_is : forall i body,
  PATCH i body
  = try_catch
      (row <- update (parseInt pf i) body ;;
       match row with
       | None => ret (status_json 404 (JsonMessage message))
       | Some r => ret (json (wrap r))
       end)
      patch_failed.
Hypothesis DELETE_is : forall i,
  DELETE i
  = try_catch
      (success <- delete (parseInt pf i) ;;
       if negb success
       then ret (status_json 404 (JsonMessage message))
       else ret (status_send 204))
      delete_failed.

Lemma PATCH_of_update (i : string) (body : Json) (db : DB) :
  PATCH i body db
  = match update (parseInt pf i) body db with
    | (inr None, db') => (status_json 404 (JsonMessage message), db')
    | (inr (Some r), db') => (json (wrap r), db')
    | (inl _, db') => (status_json 500 (JsonMessage patch_failed), db')
    end.
Proof.
  rewrite PATCH_is; unfold try_catch, bind, ret.
  destruct (update (parseInt pf i) body db) as [[e|[r|]] db']; reflexivity.
Qed.

Lemma DELETE_of_delete (i : string) (db : DB) :
  DELETE i db
  = match delete (parseInt pf i) db with
    | (inr false, db') => (status_json 404 (JsonMessage message), db')
    | (inr true, db') => (status_send 204, db')
    | (inl _, db') => (status_json 500 (JsonMessage delete_failed), db')
    end.
Proof.
  rewrite DELETE_is; unfold try_catch, bind, ret.
  destruct (delete (parseInt pf i) db) as [[e|[|]] db']; reflexivity.
Qed.

Lemma absent_id_not_found_at (db : DB) (i : string) (id : Z) :
  absent_id_not_found table columns_of get update delete PATCH DELETE
    message patch_failed pf db i id.
Proof.
  intros Hi Hid Hn.
  assert (Hdel : delete (Some id) db = (inr false, db)).
  { rewrite delete_is, wire_delete_by_id by exact Hid.
    apply delete_by_id_absent; assumption. }
  split; [|split; [exact Hdel|split]].
  - rewrite get_is, wire_get_by_id by exact Hid.
    apply get_by_id_absent; exact Hn.
  - rewrite DELETE_of_delete, Hi, Hdel; reflexivity.
  - intros body; rewrite PATCH_of_update, Hi, update_is.
    destruct (binds columns_of body) eqn:Hb.
    + rewrite (update_absent table columns_of body id db Hb Hid Hn).
      split; reflexivity.
    + destruct (update_unbound table columns_of no_field body (Some id) db Hb)
        as (e & E).
      rewrite E; split; [exists e|]; reflexivity.
Qed.

Lemma unbound_id_throws_at (db : DB) (i : string) :
  unbound_id_throws get update delete PATCH DELETE patch_failed delete_failed
    pf db i.
Proof.
  intros Hn.
  assert (Hdel : delete (parseInt pf i) db = (inl DatabaseError, db))
    by (rewrite delete_is; apply wire_delete_refused; exact Hn).
  split; [|split; [exact Hdel|split]].
  - rewrite get_is; apply wire_get_refused; exact Hn.
  - rewrite DELETE_of_delete, Hdel; reflexivity.
  - intros body; rewrite PATCH_of_update, update_is.
    destruct (update_refused_id table columns_of no_field body
                (parseInt pf i) db Hn) as (e & E).
    rewrite E; split; [exists e|]; reflexivity.
Qed.

End WireRoutes.

Lemma GET_subjects_id_of_get (pf : Platform) (i : string) (db : DB) :
  Wire.GET_subjects_id pf i db
  = match Wire.getSubject (parseInt pf i) db with
    | (inr None, db') => (status_json 404 (JsonMessage "Subject not found"), db')
    | (inr (Some s), db') => (json (JsonSubject s), db')
    | (inl _, db') =>
        (status_json 500 (JsonMessage "Failed to fetch subject"), db')
    end.
Proof.
  unfold Wire.GET_subjects_id, try_catch, bind, ret.
  destruct (Wire.getSubject (parseInt pf i) db) as [[e|[r|]] db'];
    reflexivity.
Qed.

(** ** C2: ids that are not stored *)

(** C2, as the code has it.  For each of the four entities and every path
    parameter that [parseInt] reads as an id in the int4 range which is not
    stored: get by id returns the not-found value and delete returns false,
    without throwing, and GET /api/subjects/:id and the DELETE route answer
    404; update returns the not-found value and the PATCH route answers 404
    when the body binds (it has a key, names a column, and gives every
    column it names a value of the column's type); for any other body
    update throws and the route answers 500.  A path parameter read as
    [NaN] or as a number outside the int4 range makes get, update and
    delete throw: the routes answer 500.  In every case the store is left
    as it was. *)
Theorem absent_id_is_not_found (pf : Platform) (db : DB) (i : string)
    (id : Z) :
  absent_id_not_found subjects (Wire.subjects_set pf) Wire.getSubject
    (Wire.updateSubject pf) Wire.deleteSubject (Wire.PATCH_subjects_id pf)
    (Wire.DELETE_subjects_id pf) "Subject not found"
    "Failed to update subject" pf db i id
  /\ (parseInt pf i = Some id -> int4 id = true ->
      ~ In id (stored_ids subjects db) ->
      Wire.GET_subjects_id pf i db
      = (status_json 404 (JsonMessage "Subject not found"), db))
  /\ absent_id_not_found studySessions (Wire.studySessions_set pf)
       Wire.getStudySession (Wire.updateStudySession pf)
       Wire.deleteStudySession (Wire.PATCH_study_sessions_id pf)
       (Wire.DELETE_study_sessions_id pf) "Study session not found"
       "Failed to update study session" pf db i id
  /\ absent_id_not_found notes (Wire.notes_set pf) Wire.getNote
       (Wire.updateNote pf) Wire.deleteNote (Wire.PATCH_notes_id pf)
       (Wire.DELETE_notes_id pf) "Note not found" "Failed to update note"
       pf db i id
  /\ absent_id_not_found goals (Wire.goals_set pf) Wire.getGoal
       (Wire.updateGoal pf) Wire.deleteGoal (Wire.PATCH_goals_id pf)
       (Wire.DELETE_goals_id pf) "Goal not found" "Failed to update goal"
       pf db i id
  /\ unbound_id_throws Wire.getSubject (Wire.updateSubject pf)
       Wire.deleteSubject (Wire.PATCH_subjects_id pf)
       (Wire.DELETE_subjects_id pf) "Failed to update subject"
       "Failed to delete subject" pf db i
  /\ (unbound (parseInt pf i) ->
      Wire.GET_subjects_id pf i db
      = (status_json 500 (JsonMessage "Failed to fetch subject"), db))
  /\ unbound_id_throws Wire.getStudySession (Wire.updateStudySession pf)
       Wire.deleteStudySession (Wire.PATCH_study_sessions_id pf)
       (Wire.DELETE_study_sessions_id pf) "Failed to update study session"
       "Failed to delete study session" pf db i
  /\ unbound_id_throws Wire.getNote (Wire.updateNote pf) Wire.deleteNote
       (Wire.PATCH_notes_id pf) (Wire.DELETE_notes_id pf)
       "Failed to update note" "Failed to delete note" pf db i
  /\ unbound_id_throws Wire.getGoal (Wire.updateGoal pf) Wire.deleteGoal
       (Wire.PATCH_goals_id pf) (Wire.DELETE_goals_id pf)
       "Failed to update goal" "Failed to delete goal" pf db i.
Proof.
  split; [|split; [|split; [|split; [|split; [|split; [|split; [|split;
    [|split]]]]]]]].
  - exact (absent_id_not_found_at pf subjects subjects_laws
             (Wire.subjects_set pf) eq_refl _ _ _ _ _ JsonSubject _ _
             "Failed to delete subject"
             (fun _ => eq_refl) (fun _ _ => eq_refl) (fun _ => eq_refl)
             (fun _ _ => eq_refl) (fun _ => eq_refl) db i id).
  - intros Hi Hid Hn; rewrite GET_subjects_id_of_get, Hi.
    change (Wire.getSubject (Some id)) with (Wire.get_by_id subjects (Some id)).
    rewrite wire_get_by_id by exact Hid.
    rewrite (get_by_id_absent subjects id db Hn); reflexivity.
  - exact (absent_id_not_found_at pf studySessions studySessions_laws
             (Wire.studySessions_set pf) eq_refl _ _ _ _ _ JsonStudySession
             _ _ "Failed to delete study session"
             (fun _ => eq_refl) (fun _ _ => eq_refl) (fun _ => eq_refl)
             (fun _ _ => eq_refl) (fun _ => eq_refl) db i id).
  - exact (absent_id_not_found_at pf notes notes_laws
             (Wire.notes_set pf) eq_refl _ _ _ _ _ JsonNote _ _
             "Failed to delete note"
             (fun _ => eq_refl) (fun _ _ => eq_refl) (fun _ => eq_refl)
             (fun _ _ => eq_refl) (fun _ => eq_refl) db i id).
  - exact (absent_id_not_found_at pf goals goals_laws
             (Wire.goals_set pf) eq_refl _ _ _ _ _ JsonGoal _ _
             "Failed to delete goal"
             (fun _ => eq_refl) (fun _ _ => eq_refl) (fun _ => eq_refl)
             (fun _ _ => eq_refl) (fun _ => eq_refl) db i id).
  - exact (unbound_id_throws_at pf subjects
             (Wire.subjects_set pf) eq_refl _ _ _ _ _ JsonSubject
             "Subject not found" _ _
             (fun _ => eq_refl) (fun _ _ => eq_refl) (fun _ => eq_refl)
             (fun _ _ => eq_refl) (fun _ => eq_refl) db i).
  - intros Hn; rewrite GET_subjects_id_of_get.
    change (Wire.getSubject (parseInt pf i))
      with (Wire.get_by_id subjects (parseInt pf i)).
    rewrite wire_get_refused by exact Hn; reflexivity.
  - exact (unbound_id_throws_at pf studySessions
             (Wire.studySessions_set pf) eq_refl _ _ _ _ _ JsonStudySession
             "Study session not found" _ _
             (fun _ => eq_refl) (fun _ _ => eq_refl) (fun _ => eq_refl)
             (fun _ _ => eq_refl) (fun _ => eq_refl) db i).
  - exact (unbound_id_throws_at pf notes
             (Wire.notes_set pf) eq_refl _ _ _ _ _ JsonNote
             "Note not found" _ _
             (fun _ => eq_refl) (fun _ _ => eq_refl) (fun _ => eq_refl)
             (fun _ _ => eq_refl) (fun _ => eq_refl) db i).
  - exact (unbound_id_throws_at pf goals
             (Wire.goals_set pf) eq_refl _ _ _ _ _ JsonGoal
             "Goal not found" _ _
             (fun _ => eq_refl) (fun _ _ => eq_refl) (fun _ => eq_refl)
             (fun _ _ => eq_refl) (fun _ => eq_refl) db i).
Qed.

Lemma absent_id_is_not_found_witness :
  Wire.GET_subjects_id example "2" math_db
  = (status_json 404 (JsonMessage "Subject not found"), math_db)
  /\ Wire.DELETE_subjects_id example "2" math_db
     = (status_json 404 (JsonMessage "Subject not found"), math_db)
  /\ Wire.PATCH_subjects_id example "2" (JObj [("name", JStr "Algebra")])
       math_db
     = (status_json 404 (JsonMessage "Subject not found"), math_db)
  /\ Wire.PATCH_subjects_id example "2" (JObj [("title", JStr "Algebra")])
       math_db
     = (status_json 500 (JsonMessage "Failed to update subject"), math_db).
Proof.
  assert (Hn : ~ In 2 (stored_ids subjects math_db))
    by (cbv; intros [H|[]]; discriminate H).
  destruct (absent_id_is_not_found example math_db "2" 2)
    as (Hs & Hget & _).
  destruct (Hs eq_refl eq_refl Hn) as (_ & _ & Hdel & Hpatch).
  split; [exact (Hget eq_refl eq_refl Hn)|].
  split; [exact Hdel|].
  split.
  - exact (proj2 (Hpatch (JObj [("name", JStr "Algebra")]))).
  - exact (proj2 (Hpatch (JObj [("title", JStr "Algebra")]))).
Defined.

(** C2 as stated fails.  Id 2 is not stored, yet an update with an empty
    body throws instead of returning the not-found value and the PATCH
    route answers 500; id 2147483648 is not stored, yet get and delete
    throw for it and the GET and DELETE routes answer 500. *)
Lemma absent_id_is_not_always_404 :
  ~ In 2 (stored_ids subjects math_db)
  /\ Wire.updateSubject example (Some 2) (JObj []) math_db
     = (inl NoValuesToSet, math_db)
  /\ Wire.PATCH_subjects_id example "2" (JObj []) math_db
     = (status_json 500 (JsonMessage "Failed to update subject"), math_db)
  /\ ~ In 2147483648 (stored_ids subjects math_db)
  /\ Wire.getSubject (Some 2147483648) math_db = (inl DatabaseError, math_db)
  /\ Wire.GET_subjects_id example "2147483648" math_db
     = (status_json 500 (JsonMessage "Failed to fetch subject"), math_db)
  /\ Wire.deleteSubject (Some 2147483648) math_db
     = (inl DatabaseError, math_db)
  /\ Wire.DELETE_subjects_id example "2147483648" math_db
     = (status_json 500 (JsonMessage "Failed to delete subject"), math_db).
Proof.
  repeat split; try reflexivity;
    cbv; intros [H|[]]; discriminate H.
Qed.

(** ** C3: filtered lists *)

Lemma wire_truthy (s : string) : s <> "" -> Wire.truthy (Wire.QString s) = true.
Proof.
  intros Hs; unfold Wire.truthy.
  destruct (String.eqb_spec s ""); [contradiction|reflexivity].
Qed.

Lemma refused_text_nonempty (s : string) : pg_text s = false -> s <> "".
Proof. intros H ->; discriminate H. Qed.

(** C3, as the code has it.  For every date parameter D that is not empty
    and has no character U+0000, GET /api/study-sessions?date=D returns
    the stored sessions whose date is D, each as often as it is stored,
    and nothing else.  For every
    subjectId parameter that is not empty and that [parseInt] reads as a
    number S in the int4 range, GET /api/notes?subjectId=... returns a
    rearrangement of the stored notes whose subjectId is S, and nothing
    else.  A date with a character U+0000, and a subjectId read as [NaN]
    or outside the int4 range, are answered 500. *)
Theorem filtered_lists_are_exact (pf : Platform) (db : DB) :
  (forall D, D <> "" -> pg_text D = true ->
     exists sessions,
       Wire.GET_study_sessions (Some (Wire.QString D)) db
       = (json (JsonStudySessions sessions), db)
       /\ Permutation sessions
            (filter (eq_ StudySession.date D) (rows (studySessions_rows db)))
       /\ forall s, In s sessions <->
                    In s (rows (studySessions_rows db))
                    /\ StudySession.date s = D)
  /\ (forall s S, s <> "" -> parseInt pf s = Some S -> int4 S = true ->
        exists found,
          Wire.GET_notes pf (Some (Wire.QString s)) db
          = (json (JsonNotes found), db)
          /\ Permutation found
               (filter (eq_ Note.subjectId S) (rows (notes_rows db)))
          /\ forall n, In n found <->
                       In n (rows (notes_rows db)) /\ Note.subjectId n = S)
  /\ (forall D, pg_text D = false ->
        Wire.GET_study_sessions (Some (Wire.QString D)) db
        = (status_json 500 (JsonMessage "Failed to fetch study sessions"), db))
  /\ (forall s, s <> "" -> unbound (parseInt pf s) ->
        Wire.GET_notes pf (Some (Wire.QString s)) db
        = (status_json 500 (JsonMessage "Failed to fetch notes"), db)).
Proof.
  split; [|split; [|split]].
  - intros D HD Htext; eexists; split; [|split; [apply Permutation_refl|]].
    + unfold Wire.GET_study_sessions, try_catch; rewrite (wire_truthy D HD).
      unfold Wire.getStudySessionsByDate.
      rewrite bound_text by exact Htext; reflexivity.
    + intros s; rewrite filter_In; unfold eq_; simpl.
      rewrite String.eqb_eq; reflexivity.
  - intros s S Hs HS Hint.
    exists (sort_by (collation pf) Note.createdAt
              (filter (eq_ Note.subjectId S) (rows (notes_rows db)))).
    split.
    { unfold Wire.GET_notes, try_catch; rewrite (wire_truthy s Hs).
      unfold Wire.getNotesBySubject, Wire.to_string; rewrite HS.
      rewrite bound_id by exact Hint; reflexivity. }
    pose proof (sort_by_perm (collation pf) Note.createdAt
                  (filter (eq_ Note.subjectId S) (rows (notes_rows db)))) as Hp.
    split; [apply Permutation_sym; exact Hp|].
    intros n; split.
    + intros Hin.
      apply (Permutation_in n (Permutation_sym Hp)) in Hin.
      apply filter_In in Hin; unfold eq_ in Hin; simpl in Hin.
      rewrite Z.eqb_eq in Hin; exact Hin.
    + intros [Hin HS']; apply (Permutation_in n Hp).
      apply filter_In; unfold eq_; simpl; rewrite Z.eqb_eq; tauto.
  - intros D Htext.
    unfold Wire.GET_study_sessions, try_catch.
    rewrite (wire_truthy D (refused_text_nonempty D Htext)).
    unfold Wire.getStudySessionsByDate.
    rewrite refused_text by exact Htext; reflexivity.
  - intros s Hs Hn.
    unfold Wire.GET_notes, try_catch; rewrite (wire_truthy s Hs).
    unfold Wire.getNotesBySubject, Wire.to_string.
    rewrite refused_number by exact Hn; reflexivity.
Qed.

Lemma filtered_lists_are_exact_witness :
  Wire.GET_study_sessions (Some (Wire.QString "2024-05-01")) revision_db
  = (json (JsonStudySessions [revision]), revision_db)
  /\ Wire.GET_study_sessions (Some (Wire.QString "2024-05-02")) revision_db
     = (json (JsonStudySessions []), revision_db)
  /\ fst (Wire.GET_notes example (Some (Wire.QString "1")) notes_db)
     = json (JsonNotes [Note.mk 2 1 "Note" "Text" "2024-01-05";
                        Note.mk 1 1 "Note" "Text" "2024-02-07"]).
Proof.
  destruct (filtered_lists_are_exact example revision_db) as (H & _).
  destruct (filtered_lists_are_exact example notes_db) as (_ & Hn & _).
  split; [|split].
  - destruct (H "2024-05-01") as (l & Hget & Hl & _);
      [discriminate|reflexivity|].
    assert (El : l = [revision])
      by (apply Permutation_length_1_inv, Permutation_sym; exact Hl).
    rewrite Hget, El; reflexivity.
  - destruct (H "2024-05-02") as (l & Hget & Hl & _);
      [discriminate|reflexivity|].
    assert (El : l = [])
      by (apply Permutation_nil, Permutation_sym; exact Hl).
    rewrite Hget, El; reflexivity.
  - destruct (Hn "1" 1) as (l & Hget & _);
      [discriminate|reflexivity|reflexivity|].
    reflexivity.
Defined.

(** C3 as stated fails.  With an empty date, GET /api/study-sessions?date=
    takes the branch that lists every session, so it returns a session
    whose date is not the empty string; a date with a character U+0000 is
    answered 500 instead of a list; subjectId 2147483648 is answered 500
    instead of the empty list. *)
Lemma empty_date_lists_every_session :
  fst (Wire.GET_study_sessions (Some (Wire.QString "")) revision_db)
  = json (JsonStudySessions [revision])
  /\ StudySession.date revision <> ""
  /\ filter (eq_ StudySession.date "") (rows (studySessions_rows revision_db))
     = []
  /\ fst (Wire.GET_study_sessions
            (Some (Wire.QString (String Ascii.zero EmptyString))) revision_db)
     = status_json 500 (JsonMessage "Failed to fetch study sessions")
  /\ fst (Wire.GET_notes example (Some (Wire.QString "2147483648")) notes_db)
     = status_json 500 (JsonMessage "Failed to fetch notes").
Proof.
  split; [reflexivity|]. split; [discriminate|].
  split; [reflexivity|]. split; reflexivity.
Qed.

(** ** C4: creation *)

Section WireCreation.
Context {R I : Type} `{Accepted I}.
Variable table : PgTable R I.
Hypothesis laws : table_laws table.
Hypothesis conflicts_pk :
  forall a b, conflicts table a b = (pk table a =? pk table b).
Hypothesis stored_pk : forall id v, pk table (stored table id v) = id.

Lemma next_conflicts (db : DB) (v : I) :
  existsb (conflicts table (stored table (serial (tbl_get table db)) v))
          (rows (tbl_get table db)) = true
  <-> In (serial (tbl_get table db)) (stored_ids table db).
Proof.
  unfold stored_ids; rewrite existsb_exists, in_map_iff; split.
  - intros (r & Hin & Hc); exists r; split; [|exact Hin].
    rewrite conflicts_pk, stored_pk, Z.eqb_eq in Hc; symmetry; exact Hc.
  - intros (r & E & Hin); exists r; split; [exact Hin|].
    rewrite conflicts_pk, stored_pk, Z.eqb_eq; symmetry; exact E.
Qed.

Lemma wire_create_result (db : DB) (v : I) :
  accepted v = true ->
  int4 (serial (tbl_get table db)) = true ->
  ~ In (serial (tbl_get table db)) (stored_ids table db) ->
  Wire.create table v db
  = (inr (Some (stored table (serial (tbl_get table db)) v)),
     tbl_put table
       (mkTable (rows (tbl_get table db)
                 ++ [stored table (serial (tbl_get table db)) v])
                (serial (tbl_get table db) + 1))
       db).
Proof.
  intros Ha Hs Hn; unfold Wire.create, bind, Wire.insert_returning.
  rewrite Ha, Hs; cbn [negb].
  destruct (existsb _ _) eqn:E; [|reflexivity].
  exfalso; apply Hn; apply (next_conflicts db v); exact E.
Qed.

Lemma wire_create_fails (db : DB) (v : I) :
  accepted v = false
  \/ int4 (serial (tbl_get table db)) = false
  \/ In (serial (tbl_get table db)) (stored_ids table db) ->
  exists e db',
    Wire.create table v db = (inl e, db')
    /\ rows (tbl_get table db') = rows (tbl_get table db).
Proof.
  intros Hf; unfold Wire.create, bind, Wire.insert_returning.
  destruct (accepted v); cbn [negb]; [|eexists _, _; split; reflexivity].
  destruct (int4 (serial (tbl_get table db))); cbn [negb];
    [|eexists _, _; split; reflexivity].
  destruct Hf as [Hf|[Hf|Hf]]; try discriminate Hf.
  apply (next_conflicts db v) in Hf; rewrite Hf.
  eexists _, _; split; [reflexivity|].
  rewrite (get_put table laws); reflexivity.
Qed.

Variable schema : Json -> SafeParse I.
Variable method : I -> Storage (option R).
Variable wrap : R -> Body.
Variable POST : Json -> DB -> Response * DB.
Variables invalid failed : string.
Variable as_stored : I -> R -> Prop.
Hypothesis method_is : forall v, method v = Wire.create table v.
Hypothesis POST_is : forall body,
  POST body
  = try_catch
      (match schema body with
       | ParseFailure issues => ret (status_json 400 (JsonErrors invalid issues))
       | ParseSuccess data =>
           row <- method data ;;
           ret (status_json 201 (json_of wrap row))
       end)
      failed.
Hypothesis stored_as_stored : forall id v, as_stored v (stored table id v).

Lemma created_as_stored_at (db : DB) (body : Json) :
  created_as_stored table schema method wrap POST as_stored db body.
Proof.
  intros data Hparse Ha Hs Hn.
  exists (stored table (serial (tbl_get table db)) data).
  pose proof (wire_create_result db data Ha Hs Hn) as Hc.
  rewrite <- method_is in Hc.
  assert (HP : POST body db
               = (status_json 201
                    (wrap (stored table (serial (tbl_get table db)) data)),
                  snd (method data db))).
  { rewrite POST_is; unfold try_catch, bind.
    rewrite Hparse, Hc; reflexivity. }
  split; [rewrite HP, Hc; reflexivity|].
  split; [|split; [|apply stored_as_stored]].
  - unfold creates; rewrite HP, Hc; cbn [fst snd].
    rewrite (get_put table laws), stored_pk; cbn [rows].
    split; [reflexivity|]. split; [reflexivity|]. split; [reflexivity|].
    exact Hn.
  - rewrite HP, Hc; cbn [snd]; rewrite (get_put table laws); reflexivity.
Qed.

Lemma creation_fails_at (db : DB) (body : Json) :
  creation_fails table schema POST failed db body.
Proof.
  intros data Hparse Hf.
  destruct (wire_create_fails db data Hf) as (e & db' & Hc & Hrows).
  rewrite <- method_is in Hc.
  rewrite POST_is; unfold try_catch, bind; rewrite Hparse, Hc.
  split; [reflexivity|exact Hrows].
Qed.

End WireCreation.

(** C4, as the code has it.  On each of the four creation routes, a body
    that passes validation and whose values the database accepts
    (validation bounds the integers, a text with a character U+0000 is
    refused), sent while the next value of the table's sequence is an int4
    that no stored row has as id, is answered 201 with the row the storage
    method returned; that row is the one row appended to the table, its id
    is the next value of the sequence and is not the id of any row stored
    before, and its other fields are the validated input with the declared
    default for each omitted field.  In particular POST /api/subjects with
    [{name: "Math"}] then answers 201 with the default color and icon, no
    current topic, and progress and total hours 0.  Without these
    conditions the valid body is answered 500 and no row is stored. *)
Theorem create_returns_row_as_stored (db : DB) (body : Json) :
  created_as_stored subjects insertSubjectSchema Wire.createSubject
    JsonSubject Wire.POST_subjects subject_as_stored db body
  /\ created_as_stored studySessions insertStudySessionSchema
       Wire.createStudySession JsonStudySession Wire.POST_study_sessions
       session_as_stored db body
  /\ created_as_stored notes insertNoteSchema Wire.createNote JsonNote
       Wire.POST_notes note_as_stored db body
  /\ created_as_stored goals insertGoalSchema Wire.createGoal JsonGoal
       Wire.POST_goals goal_as_stored db body
  /\ (int4 (serial (subjects_rows db)) = true ->
      ~ In (serial (subjects_rows db)) (stored_ids subjects db) ->
      creates subjects JsonSubject (Wire.POST_subjects math_body) db
        (Subject.mk (serial (subjects_rows db))
           "Math" "#4F46E5" "fas fa-book" None 0 0))
  /\ creation_fails subjects insertSubjectSchema Wire.POST_subjects
       "Failed to create subject" db body
  /\ creation_fails studySessions insertStudySessionSchema
       Wire.POST_study_sessions "Failed to create study session" db body
  /\ creation_fails notes insertNoteSchema Wire.POST_notes
       "Failed to create note" db body
  /\ creation_fails goals insertGoalSchema Wire.POST_goals
       "Failed to create goal" db body.
Proof.
  assert (Hs : forall db body,
             created_as_stored subjects insertSubjectSchema Wire.createSubject
               JsonSubject Wire.POST_subjects subject_as_stored db body).
  { intros db0 body0.
    apply (created_as_stored_at subjects subjects_laws)
      with (invalid := "Invalid subject data")
           (failed := "Failed to create subject");
      try reflexivity.
    intros i v; repeat split. }
  split; [apply Hs|].
  split.
  { apply (created_as_stored_at studySessions studySessions_laws)
      with (invalid := "Invalid session data")
           (failed := "Failed to create study session");
      try reflexivity.
    intros i v; repeat split. }
  split.
  { apply (created_as_stored_at notes notes_laws)
      with (invalid := "Invalid note data") (failed := "Failed to create note");
      try reflexivity.
    intros i v; repeat split. }
  split.
  { apply (created_as_stored_at goals goals_laws)
      with (invalid := "Invalid goal data") (failed := "Failed to create goal");
      try reflexivity.
    intros i v; repeat split. }
  split.
  { intros Hint Hfresh.
    destruct (Hs db math_body _ eq_refl eq_refl Hint Hfresh)
      as (row & Hm & Hc & _ & Has).
    assert (E : row = Subject.mk (serial (subjects_rows db))
                        "Math" "#4F46E5" "fas fa-book" None 0 0).
    { destruct Hc as (_ & _ & Hpk & _).
      destruct Has as (H1 & H2 & H3 & H4 & H5 & H6).
      destruct row as [i n c ic t p h]; cbn in *.
      subst; reflexivity. }
    rewrite <- E; exact Hc. }
  split.
  { apply (creation_fails_at subjects subjects_laws)
      with (method := Wire.createSubject) (wrap := JsonSubject)
           (invalid := "Invalid subject data");
      reflexivity. }
  split.
  { apply (creation_fails_at studySessions studySessions_laws)
      with (method := Wire.createStudySession) (wrap := JsonStudySession)
           (invalid := "Invalid session data");
      reflexivity. }
  split.
  { apply (creation_fails_at notes notes_laws)
      with (method := Wire.createNote) (wrap := JsonNote)
           (invalid := "Invalid note data");
      reflexivity. }
  apply (creation_fails_at goals goals_laws)
    with (method := Wire.createGoal) (wrap := JsonGoal)
         (invalid := "Invalid goal data");
    reflexivity.
Qed.

Lemma create_returns_row_as_stored_witness :
  Wire.POST_subjects math_body empty_db
  = (status_json 201
       (JsonSubject (Subject.mk 1 "Math" "#4F46E5" "fas fa-book" None 0 0)),
     math_db)
  /\ rows (subjects_rows math_db)
     = [Subject.mk 1 "Math" "#4F46E5" "fas fa-book" None 0 0]
  /\ serial (subjects_rows math_db) = 2.
Proof.
  destruct (create_returns_row_as_stored empty_db math_body)
    as (_ & _ & _ & _ & H & _).
  destruct H as (Hres & Hrows & _); [reflexivity|intros []|].
  split; [|split; [exact Hrows|reflexivity]].
  rewrite (surjective_pairing (Wire.POST_subjects math_body empty_db)).
  rewrite Hres; reflexivity.
Defined.

(** C4 as stated fails.  The body [{name: "\u0000"}] passes validation,
    yet the route answers 500 and stores nothing.  After
    PATCH /api/subjects/1 with [{id: 2}] the only subject has id 2, the
    next value of the sequence; the valid body [{name: "Math"}] is then
    answered 500 and no row is added. *)
Lemma valid_body_is_not_always_created :
  insertSubjectSchema nul_body
  = ParseSuccess (InsertSubject.mk nul None None None None None)
  /\ Wire.POST_subjects nul_body empty_db
     = (status_json 500 (JsonMessage "Failed to create subject"), empty_db)
  /\ rows (subjects_rows moved_db)
     = [Subject.mk 2 "Math" "#4F46E5" "fas fa-book" None 0 0]
  /\ serial (subjects_rows moved_db) = 2
  /\ insertSubjectSchema math_body
     = ParseSuccess (InsertSubject.mk "Math" None None None None None)
  /\ fst (Wire.POST_subjects math_body moved_db)
     = status_json 500 (JsonMessage "Failed to create subject")
  /\ rows (subjects_rows (snd (Wire.POST_subjects math_body moved_db)))
     = rows (subjects_rows moved_db).
Proof.
  repeat split.
Qed.

(** ** C1: the statistics upsert *)

Lemma filter_out_then_in {A} (p : A -> bool) (l : list A) :
  filter p (filter (fun x => negb (p x)) l) = [].
Proof.
  induction l as [|x l IH]; cbn; [reflexivity|].
  destruct (p x) eqn:E; cbn; [exact IH|rewrite E; exact IH].
Qed.

Lemma wire_upsert_refused (db : DB) (v : InsertStudyStats.t) :
  pg_text (InsertStudyStats.date v) = false ->
  Wire.createOrUpdateStudyStats v db = (inl DatabaseError, db).
Proof.
  intros Hd; unfold Wire.createOrUpdateStudyStats, Wire.getStudyStatsByDate.
  rewrite refused_text by exact Hd; reflexivity.
Qed.

Lemma wire_upsert_existing (db : DB) (v : InsertStudyStats.t)
    (r : StudyStats.t) (others : list StudyStats.t) :
  accepted v = true ->
  filter (eq_ StudyStats.date (InsertStudyStats.date v))
         (rows (studyStats_rows db)) = r :: others ->
  Wire.createOrUpdateStudyStats v db
  = (inr (Some (assign v r)),
     tbl_put studyStats
       (mkTable
          (filter (fun x => negb (eq_ StudyStats.date
                                    (InsertStudyStats.date v) x))
                  (rows (studyStats_rows db))
           ++ map (assign v) (r :: others))
          (serial (studyStats_rows db)))
       db).
Proof.
  intros Ha E.
  assert (Hd : pg_text (InsertStudyStats.date v) = true).
  { cbn in Ha; rewrite !andb_true_iff in Ha; tauto. }
  unfold Wire.createOrUpdateStudyStats, Wire.getStudyStatsByDate.
  rewrite bound_text by exact Hd.
  unfold Wire.where_, select_from, bind, ret; cbn [tbl_get studyStats].
  rewrite E; cbn [hd_error].
  unfold Wire.update_returning, Wire.studyStats_set; rewrite Ha.
  cbn [columns rekey payload forallb existsb is_kept is_refused is_violated
       andb orb tbl_get studyStats].
  rewrite E; reflexivity.
Qed.

Lemma wire_upsert_new (db : DB) (v : InsertStudyStats.t) :
  accepted v = true ->
  int4 (serial (studyStats_rows db)) = true ->
  ~ In (serial (studyStats_rows db)) (stored_ids studyStats db) ->
  filter (eq_ StudyStats.date (InsertStudyStats.date v))
         (rows (studyStats_rows db)) = [] ->
  Wire.createOrUpdateStudyStats v db
  = (inr (Some (stored studyStats (serial (studyStats_rows db)) v)),
     tbl_put studyStats
       (mkTable (rows (studyStats_rows db)
                 ++ [stored studyStats (serial (studyStats_rows db)) v])
                (serial (studyStats_rows db) + 1))
       db).
Proof.
  intros Ha Hs Hn E.
  assert (Hd : pg_text (InsertStudyStats.date v) = true).
  { cbn in Ha; rewrite !andb_true_iff in Ha; tauto. }
  pose proof (wire_create_result studyStats (fun _ _ => eq_refl)
                (fun _ _ => eq_refl) db v Ha Hs Hn) as Hc.
  unfold Wire.create, bind in Hc.
  unfold Wire.createOrUpdateStudyStats, Wire.getStudyStatsByDate.
  rewrite bound_text by exact Hd.
  unfold Wire.where_, select_from, bind, ret; cbn [tbl_get studyStats].
  rewrite E; cbn [hd_error].
  destruct (Wire.insert_returning studyStats v db) as [[e|created] db'];
    [discriminate Hc|exact Hc].
Qed.

(** One upsert of an accepted payload leaves exactly one row of its date,
    the last of the table, and that row is returned. *)
Lemma wire_upsert_one_row (db : DB) (v : InsertStudyStats.t) :
  one_row_per_date db ->
  accepted v = true ->
  (filter (eq_ StudyStats.date (InsertStudyStats.date v))
          (rows (studyStats_rows db)) = [] ->
   int4 (serial (studyStats_rows db)) = true
   /\ ~ In (serial (studyStats_rows db)) (stored_ids studyStats db)) ->
  exists row db',
    Wire.createOrUpdateStudyStats v db = (inr (Some row), db')
    /\ filter (eq_ StudyStats.date (InsertStudyStats.date v))
              (rows (studyStats_rows db')) = [row]
    /\ one_row_per_date db'
    /\ (forall x, InsertStudyStats.totalMinutes v = Some x ->
                  StudyStats.totalMinutes row = x).
Proof.
  intros Hone Ha Hnew.
  set (d := InsertStudyStats.date v) in *.
  destruct (date_filter_unique d _ Hone) as [E|[r E]].
  - destruct (Hnew E) as [Hs Hn].
    rewrite (wire_upsert_new db v Ha Hs Hn E).
    eexists _, _; split; [reflexivity|].
    cbn [tbl_get tbl_put studyStats studyStats_rows rows].
    split; [|split].
    + rewrite filter_app, E; cbn.
      unfold eq_; cbn; fold d; rewrite String.eqb_refl; reflexivity.
    + unfold one_row_per_date; cbn [studyStats_rows rows].
      rewrite map_app; apply NoDup_snoc; [exact Hone|].
      cbn; apply date_filter_nil; exact E.
    + intros x Hx; cbn; rewrite Hx; reflexivity.
  - rewrite (wire_upsert_existing db v r [] Ha E).
    eexists _, _; split; [reflexivity|].
    cbn [tbl_get tbl_put studyStats studyStats_rows rows map].
    split; [|split].
    + rewrite filter_app, filter_out_then_in; cbn.
      unfold eq_; cbn; fold d; rewrite String.eqb_refl; reflexivity.
    + unfold one_row_per_date; cbn [studyStats_rows rows].
      rewrite map_app; apply NoDup_snoc.
      * apply kept_rows_have_distinct_keys; exact Hone.
      * cbn; fold d; intros Hin; apply in_map_iff in Hin.
        destruct Hin as (x & Hx & Hin); apply filter_In in Hin.
        destruct Hin as [_ Hin]; unfold eq_ in Hin; cbn in Hin.
        rewrite negb_true_iff, String.eqb_neq in Hin; contradiction.
    + intros x Hx; cbn; rewrite Hx; reflexivity.
Qed.

(** C1, as the code has it.  Two bodies that pass validation, with the
    same date, the second carrying totalMinutes m.
    For a date without a character U+0000, in a store that holds at most
    one statistics row per date and whose next sequence value is an int4
    that no statistics row has as id:
    - createOrUpdateStudyStats looks the date up; when a row is found the
      table keeps its sequence and the rows of the other dates, in their
      order, followed by the rows of that date with the payload assigned;
      when none is found one row is appended;
    - after the two POSTs to /api/study-stats, one after the other,
      exactly one stored row has that date, its totalMinutes is m, and it
      is the body of the second response.
    For a date with a character U+0000, in any store, each POST is
    answered 500 and the store is left as it was. *)
Theorem stats_upsert_keeps_one_row_with_latest_value (db : DB)
    (b1 b2 : Json) (v1 v2 : InsertStudyStats.t) (m : Z) :
  insertStudyStatsSchema b1 = ParseSuccess v1 ->
  insertStudyStatsSchema b2 = ParseSuccess v2 ->
  InsertStudyStats.date v2 = InsertStudyStats.date v1 ->
  InsertStudyStats.totalMinutes v2 = Some m ->
  (pg_text (InsertStudyStats.date v1) = true ->
   one_row_per_date db ->
   int4 (serial (studyStats_rows db)) = true ->
   ~ In (serial (studyStats_rows db)) (stored_ids studyStats db) ->
   ((forall r,
       fst (Wire.getStudyStatsByDate
              (Wire.QString (InsertStudyStats.date v1)) db)
       = inr (Some r) ->
       studyStats_rows (snd (Wire.createOrUpdateStudyStats v1 db))
       = mkTable
           (filter (fun x => negb (eq_ StudyStats.date
                                     (InsertStudyStats.date v1) x))
                   (rows (studyStats_rows db))
            ++ map (assign v1)
                   (filter (eq_ StudyStats.date (InsertStudyStats.date v1))
                           (rows (studyStats_rows db))))
           (serial (studyStats_rows db)))
    /\ (fst (Wire.getStudyStatsByDate
               (Wire.QString (InsertStudyStats.date v1)) db) = inr None ->
        rows (studyStats_rows (snd (Wire.createOrUpdateStudyStats v1 db)))
        = rows (studyStats_rows db)
          ++ [stored studyStats (serial (studyStats_rows db)) v1]))
   /\ exists row,
        filter (eq_ StudyStats.date (InsertStudyStats.date v1))
               (rows (studyStats_rows
                        (snd (Wire.POST_study_stats b2
                                (snd (Wire.POST_study_stats b1 db))))))
        = [row]
        /\ StudyStats.totalMinutes row = m
        /\ fst (Wire.POST_study_stats b2 (snd (Wire.POST_study_stats b1 db)))
           = json (JsonStats row))
  /\ (pg_text (InsertStudyStats.date v1) = false ->
      Wire.POST_study_stats b1 db
      = (status_json 500 (JsonMessage "Failed to update study stats"), db)
      /\ Wire.POST_study_stats b2 db
         = (status_json 500 (JsonMessage "Failed to update study stats"), db)).
Proof.
  intros Hb1 Hb2 Hd Hm.
  split.
  2:{ intros Htext.
      unfold Wire.POST_study_stats, try_catch, bind; rewrite Hb1, Hb2.
      rewrite !wire_upsert_refused by (rewrite ?Hd; exact Htext).
      split; reflexivity. }
  intros Htext Hone Hs Hn.
  assert (Ha1 : accepted v1 = true)
    by (rewrite (stats_validated b1 v1 Hb1); exact Htext).
  assert (Ha2 : accepted v2 = true)
    by (rewrite (stats_validated b2 v2 Hb2), Hd; exact Htext).
  split.
  - unfold Wire.getStudyStatsByDate; rewrite bound_text by exact Htext.
    unfold Wire.where_, select_from, bind, ret; cbn [tbl_get studyStats fst].
    split.
    + intros r Hr.
      destruct (filter (eq_ StudyStats.date (InsertStudyStats.date v1))
                       (rows (studyStats_rows db))) as [|r0 others] eqn:E;
        [discriminate Hr|].
      rewrite (wire_upsert_existing db v1 r0 others Ha1 E).
      reflexivity.
    + intros Hr.
      destruct (filter (eq_ StudyStats.date (InsertStudyStats.date v1))
                       (rows (studyStats_rows db))) as [|r0 others] eqn:E;
        [|discriminate Hr].
      rewrite (wire_upsert_new db v1 Ha1 Hs Hn E); reflexivity.
  - destruct (wire_upsert_one_row db v1 Hone Ha1 (fun _ => conj Hs Hn))
      as (row1 & db1 & Hu1 & Hf1 & Hone1 & _).
    assert (HP1 : Wire.POST_study_stats b1 db = (json (JsonStats row1), db1)).
    { unfold Wire.POST_study_stats, try_catch, bind; rewrite Hb1, Hu1.
      reflexivity. }
    rewrite HP1; cbn [snd].
    destruct (wire_upsert_one_row db1 v2 Hone1 Ha2) as
      (row2 & db2 & Hu2 & Hf2 & _ & Hval).
    { rewrite Hd, Hf1; discriminate. }
    assert (HP2 : Wire.POST_study_stats b2 db1 = (json (JsonStats row2), db2)).
    { unfold Wire.POST_study_stats, try_catch, bind; rewrite Hb2, Hu2.
      reflexivity. }
    rewrite HP2; cbn [fst snd].
    exists row2; rewrite <- Hd.
    split; [exact Hf2|]. split; [exact (Hval m Hm)|reflexivity].
Qed.

Lemma stats_upsert_keeps_one_row_with_latest_value_witness :
  exists row,
    filter (eq_ StudyStats.date "2024-05-01")
           (rows (studyStats_rows
                    (snd (Wire.POST_study_stats (stats_body "2024-05-01" 45)
                            (snd (Wire.POST_study_stats
                                    (stats_body "2024-05-01" 30) empty_db))))))
    = [row]
    /\ StudyStats.totalMinutes row = 45
    /\ fst (Wire.POST_study_stats (stats_body "2024-05-01" 45)
              (snd (Wire.POST_study_stats (stats_body "2024-05-01" 30)
                      empty_db)))
       = json (JsonStats row).
Proof.
  apply (stats_upsert_keeps_one_row_with_latest_value empty_db
           (stats_body "2024-05-01" 30) (stats_body "2024-05-01" 45)
           (InsertStudyStats.mk "2024-05-01" (Some 30) None None)
           (InsertStudyStats.mk "2024-05-01" (Some 45) None None) 45
           eq_refl eq_refl eq_refl eq_refl);
    try reflexivity.
  - constructor.
  - intros [].
Defined.

(** C1 as stated fails.  For a date that is the character U+0000 both
    bodies pass validation, both POSTs are answered 500, and no row is
    stored for that date.  For a second POST whose totalMinutes is
    2147483648 the answer is 400, and the one row of the date holds the
    value of the first POST, not of the later one. *)
Lemma refused_date_stores_no_row :
  insertStudyStatsSchema (nul_stats 30)
  = ParseSuccess (InsertStudyStats.mk nul (Some 30) None None)
  /\ insertStudyStatsSchema (nul_stats 45)
     = ParseSuccess (InsertStudyStats.mk nul (Some 45) None None)
  /\ Wire.POST_study_stats (nul_stats 30) empty_db
     = (status_json 500 (JsonMessage "Failed to update study stats"), empty_db)
  /\ Wire.POST_study_stats (nul_stats 45)
       (snd (Wire.POST_study_stats (nul_stats 30) empty_db))
     = (status_json 500 (JsonMessage "Failed to update study stats"), empty_db)
  /\ filter (eq_ StudyStats.date nul)
            (rows (studyStats_rows
                     (snd (Wire.POST_study_stats (nul_stats 45)
                             (snd (Wire.POST_study_stats (nul_stats 30)
                                     empty_db))))))
     = []
  /\ Wire.POST_study_stats (stats_body "2024-05-01" 2147483648)
       (snd (Wire.POST_study_stats (stats_body "2024-05-01" 30) empty_db))
     = (status_json 400
          (JsonErrors "Invalid stats data"
             [mkIssue (TooBig INT32_MAX) ["totalMinutes"]]),
        snd (Wire.POST_study_stats (stats_body "2024-05-01" 30) empty_db))
  /\ rows (studyStats_rows
             (snd (Wire.POST_study_stats (stats_body "2024-05-01" 30)
                     empty_db)))
     = [StudyStats.mk 1 "2024-05-01" 30 0 0].
Proof.
  repeat split.
Qed.

(** ** C6: partial updates *)

Lemma filter_others {R} (key : R -> Z) (id id' : Z) (l : list R) :
  id' <> id ->
  filter (eq_ key id') (filter (fun r => negb (eq_ key id r)) l)
  = filter (eq_ key id') l.
Proof.
  intros Hne; induction l as [|x l IH]; cbn; [reflexivity|].
  unfold eq_ in *; cbn in *.
  destruct (Z.eqb_spec (key x) id) as [E|E]; cbn.
  - destruct (Z.eqb_spec (key x) id'); [congruence|exact IH].
  - destruct (Z.eqb_spec (key x) id'); [rewrite IH; reflexivity|exact IH].
Qed.

Lemma filter_no_key {R} (key : R -> Z) (k : Z) (l : list R) :
  existsb (fun r => key r =? k) l = false -> filter (eq_ key k) l = [].
Proof.
  induction l as [|x l IH]; cbn; [reflexivity|].
  unfold eq_; cbn; destruct (key x =? k); cbn; [discriminate|exact IH].
Qed.

Lemma filter_one_key {R} (key : R -> Z) (id : Z) (l : list R) (r : R) :
  filter (eq_ key id) l = [r] -> key r = id.
Proof.
  intros E.
  assert (Hin : In r (filter (eq_ key id) l)) by (rewrite E; left; reflexivity).
  apply filter_In in Hin; destruct Hin as [_ Hin].
  apply Z.eqb_eq; exact Hin.
Qed.

Section WirePatch.
Context {R I P : Type} `{UpdateSet P R} `{PrimaryKey R}.
Variable table : PgTable R I.
Hypothesis laws : table_laws table.
Variable columns_of : list (string * Json) -> SetClause P.
Hypothesis no_field : forallb is_kept (columns (columns_of [])) = true.
Hypothesis assign_pk : forall (u : P) (r : R), pk table (assign u r) = pk table r.
Hypothesis key_set : forall k (r : R), pk table (with_id k r) = k.
Hypothesis rekey_int4 : forall o k,
  rekey (columns_of o) = Some k -> int4 k = true.
Variable kept : list (string * Json) -> R -> R -> Prop.
Hypothesis kept_refl : forall o r, kept o r r.
Hypothesis kept_patched : forall o r, kept o r (patched (columns_of o) r).

(** The three outcomes of an update of the one row stored under [id]. *)
Lemma update_one (body : Json) (id : Z) (r : R) (db : DB) :
  int4 id = true ->
  filter (eq_ (pk table) id) (rows (tbl_get table db)) = [r] ->
  (exists e, Wire.update_by_id table columns_of (Some id) body db = (inl e, db))
  \/ exists o,
       body = JObj o
       /\ binds columns_of body = true
       /\ existsb is_violated (columns (columns_of o)) = false
       /\ (forall k, rekey (columns_of o) = Some k ->
             existsb (fun x => pk table x =? k)
               (filter (fun x => negb (eq_ (pk table) id x))
                       (rows (tbl_get table db))) = false)
       /\ Wire.update_by_id table columns_of (Some id) body db
          = (inr (Some (patched (columns_of o) r)),
             tbl_put table
               (mkTable
                  (filter (fun x => negb (eq_ (pk table) id x))
                          (rows (tbl_get table db))
                   ++ [patched (columns_of o) r])
                  (serial (tbl_get table db)))
               db).
Proof.
  intros Hid Hr.
  destruct (binds columns_of body) eqn:Hb;
    [|left; apply update_unbound; assumption].
  destruct (set_binds columns_of body Hb) as (o & -> & _).
  rewrite (update_bound table columns_of o id db Hb Hid), Hr; cbv zeta.
  destruct (existsb is_violated (columns (columns_of o))) eqn:Hv;
    [left; eexists; reflexivity|].
  destruct (rekey (columns_of o)) as [k|] eqn:Hk.
  - cbn [List.length Nat.eqb negb]; rewrite orb_false_r.
    destruct (existsb (fun x => pk table x =? k) _) eqn:Hc;
      [left; eexists; reflexivity|].
    right; exists o; split; [reflexivity|]. split; [reflexivity|].
    split; [exact Hv|]. split.
    + intros k' E; assert (Ek : k' = k) by congruence.
      rewrite Ek; exact Hc.
    + unfold patched; rewrite Hk; reflexivity.
  - right; exists o; split; [reflexivity|]. split; [reflexivity|].
    split; [exact Hv|]. split; [intros k' E; congruence|].
    unfold patched; rewrite Hk; reflexivity.
Qed.

Lemma patched_key (o : list (string * Json)) (r : R) :
  pk table (patched (columns_of o) r)
  = match rekey (columns_of o) with Some k => k | None => pk table r end.
Proof.
  unfold patched, new_key; destruct (rekey (columns_of o));
    [apply key_set|apply assign_pk].
Qed.

Lemma patch_keeps_the_rest_at (db : DB) (id : Z) (body : Json) :
  patch_keeps_the_rest table (Wire.get_by_id table)
    (Wire.update_by_id table columns_of) kept db id body.
Proof.
  intros Hid r Hr.
  pose proof (filter_one_key _ _ _ _ Hr) as Hkey.
  destruct (update_one body id r db Hid Hr)
    as [(e & E)|(o & -> & Hb & Hv & Hfree & E)].
  - exists r; rewrite E; cbn [fst snd].
    split; [right; split; [exists e|]; reflexivity|].
    split.
    { rewrite Hkey, wire_get_by_id by exact Hid.
      rewrite get_by_id_result, Hr; reflexivity. }
    split; [apply kept_refl|].
    split; [intros Hne; contradiction|reflexivity].
  - exists (patched (columns_of o) r); rewrite E; cbn [fst snd].
    split; [left; reflexivity|].
    assert (Hint : int4 (pk table (patched (columns_of o) r)) = true).
    { rewrite patched_key.
      destruct (rekey (columns_of o)) as [k|] eqn:Hk;
        [exact (rekey_int4 o k Hk)|rewrite Hkey; exact Hid]. }
    assert (Hrest : filter (eq_ (pk table) (pk table (patched (columns_of o) r)))
                           (filter (fun x => negb (eq_ (pk table) id x))
                                   (rows (tbl_get table db))) = []).
    { rewrite patched_key.
      destruct (rekey (columns_of o)) as [k|] eqn:Hk.
      - apply filter_no_key; apply Hfree; reflexivity.
      - rewrite Hkey; apply filter_out_then_in. }
    split.
    { rewrite wire_get_by_id by exact Hint.
      rewrite get_by_id_result, (get_put table laws); cbn [fst rows].
      rewrite filter_app, Hrest; cbn.
      unfold eq_; cbn; rewrite Z.eqb_refl; reflexivity. }
    split; [apply kept_patched|].
    split.
    + intros Hne.
      rewrite wire_get_by_id by exact Hid.
      rewrite get_by_id_result, (get_put table laws); cbn [fst rows].
      rewrite filter_app, filter_out_then_in; cbn.
      unfold eq_; cbn.
      destruct (Z.eqb_spec (pk table (patched (columns_of o) r)) id);
        [contradiction|reflexivity].
    + intros id' Hne Hne'.
      destruct (int4 id') eqn:Hid'.
      * rewrite !wire_get_by_id by exact Hid'.
        rewrite !get_by_id_result, (get_put table laws); cbn [fst rows].
        rewrite filter_app, filter_others by exact Hne; cbn.
        unfold eq_ at 2; cbn.
        destruct (Z.eqb_spec (pk table (patched (columns_of o) r)) id');
          [congruence|].
        rewrite app_nil_r; reflexivity.
      * rewrite !wire_get_refused by exact Hid'; reflexivity.
Qed.

End WirePatch.

Lemma integer_put (pf : Platform) (v : option Json) (k : Z) :
  put (Wire.integer pf v) = Some k -> int4 k = true.
Proof.
  destruct v as [[|b|n|f|s|l|o]|]; cbn; try discriminate.
  - destruct (int4 n) eqn:E; cbn; [|discriminate].
    intros H; injection H as <-; exact E.
  - destruct (int4in pf s) as [n|]; cbn; [|discriminate].
    destruct (int4 n) eqn:E; cbn; [|discriminate].
    intros H; injection H as <-; exact E.
Qed.

Ltac kept_cases :=
  intros o r; unfold patched; cbn;
  repeat split; intros E; rewrite E; cbn; try reflexivity;
  destruct (put (Wire.integer _ (property "id" o))); reflexivity.

Lemma subject_kept_patched (pf : Platform) o r :
  subject_kept o r (patched (Wire.subjects_set pf o) r).
Proof. revert o r; kept_cases. Qed.

Lemma session_kept_patched (pf : Platform) o r :
  session_kept o r (patched (Wire.studySessions_set pf o) r).
Proof. revert o r; kept_cases. Qed.

Lemma note_kept_patched (pf : Platform) o r :
  note_kept o r (patched (Wire.notes_set pf o) r).
Proof. revert o r; kept_cases. Qed.

Lemma goal_kept_patched (pf : Platform) o r :
  goal_kept o r (patched (Wire.goals_set pf o) r).
Proof. revert o r; kept_cases. Qed.

Lemma subject_patch_keeps_the_rest (pf : Platform) (db : DB) (id : Z)
    (body : Json) :
  patch_keeps_the_rest subjects Wire.getSubject (Wire.updateSubject pf)
    subject_kept db id body.
Proof.
  apply (patch_keeps_the_rest_at subjects subjects_laws
           (Wire.subjects_set pf) eq_refl).
  - intros u r; reflexivity.
  - intros k r; reflexivity.
  - intros o k; apply integer_put.
  - intros o r; repeat split.
  - apply subject_kept_patched.
Qed.

(** C6.  For each of the four entities, every id in the int4 range under
    which exactly one row is stored, and every PATCH body as the handler
    passes it to the update: after the update, whether it was carried out
    or threw, the row is fetched under the id it then has (the same id
    unless the body has the key [id]) and every column whose key is absent
    from the body has the value it had before; the rows with other ids are
    fetched as before.  For subjects the same is observed through
    PATCH /api/subjects/:id followed by GET /api/subjects/:id. *)
Theorem update_changes_only_supplied_fields (pf : Platform) (db : DB)
    (id : Z) (body : Json) :
  patch_keeps_the_rest subjects Wire.getSubject (Wire.updateSubject pf)
    subject_kept db id body
  /\ patch_keeps_the_rest studySessions Wire.getStudySession
       (Wire.updateStudySession pf) session_kept db id body
  /\ patch_keeps_the_rest notes Wire.getNote (Wire.updateNote pf)
       note_kept db id body
  /\ patch_keeps_the_rest goals Wire.getGoal (Wire.updateGoal pf)
       goal_kept db id body
  /\ (forall i r,
        parseInt pf i = Some id -> int4 id = true ->
        filter (eq_ Subject.id id) (rows (subjects_rows db)) = [r] ->
        Wire.GET_subjects_id pf i db = (json (JsonSubject r), db)
        /\ exists r',
             (fst (Wire.PATCH_subjects_id pf i body db) = json (JsonSubject r')
              \/ Wire.PATCH_subjects_id pf i body db
                 = (status_json 500 (JsonMessage "Failed to update subject"),
                    db)
                 /\ r' = r)
             /\ (forall i', parseInt pf i' = Some (Subject.id r') ->
                   fst (Wire.GET_subjects_id pf i'
                          (snd (Wire.PATCH_subjects_id pf i body db)))
                   = json (JsonSubject r'))
             /\ subject_kept (fields_of body) r r').
Proof.
  split; [apply subject_patch_keeps_the_rest|].
  split.
  { apply (patch_keeps_the_rest_at studySessions studySessions_laws
             (Wire.studySessions_set pf) eq_refl).
    - intros u r; reflexivity.
    - intros k r; reflexivity.
    - intros o k; apply integer_put.
    - intros o r; repeat split.
    - apply session_kept_patched. }
  split.
  { apply (patch_keeps_the_rest_at notes notes_laws
             (Wire.notes_set pf) eq_refl).
    - intros u r; reflexivity.
    - intros k r; reflexivity.
    - intros o k; apply integer_put.
    - intros o r; repeat split.
    - apply note_kept_patched. }
  split.
  { apply (patch_keeps_the_rest_at goals goals_laws
             (Wire.goals_set pf) eq_refl).
    - intros u r; reflexivity.
    - intros k r; reflexivity.
    - intros o k; apply integer_put.
    - intros o r; repeat split.
    - apply goal_kept_patched. }
  intros i r Hi Hid Hr.
  split.
  { rewrite GET_subjects_id_of_get, Hi.
    change (Wire.getSubject (Some id)) with (Wire.get_by_id subjects (Some id)).
    rewrite wire_get_by_id by exact Hid.
    rewrite get_by_id_result; cbn [pk tbl_get subjects]; rewrite Hr.
    reflexivity. }
  destruct (subject_patch_keeps_the_rest pf db id body Hid r Hr)
    as (r' & Hupd & Hget & Hkept & _).
  exists r'.
  assert (HP : Wire.PATCH_subjects_id pf i body db
               = match Wire.updateSubject pf (Some id) body db with
                 | (inr None, db') =>
                     (status_json 404 (JsonMessage "Subject not found"), db')
                 | (inr (Some s), db') => (json (JsonSubject s), db')
                 | (inl _, db') =>
                     (status_json 500 (JsonMessage "Failed to update subject"),
                      db')
                 end).
  { unfold Wire.PATCH_subjects_id, try_catch, bind, ret; rewrite Hi.
    destruct (Wire.updateSubject pf (Some id) body db) as [[e|[s|]] db'];
      reflexivity. }
  assert (Hsnd : snd (Wire.PATCH_subjects_id pf i body db)
                 = snd (Wire.updateSubject pf (Some id) body db)).
  { rewrite HP.
    destruct (Wire.updateSubject pf (Some id) body db) as [[e|[s|]] db'];
      reflexivity. }
  split; [|split; [|exact Hkept]].
  - destruct Hupd as [Hupd|[(e & Hupd) ->]].
    + left; rewrite HP.
      destruct (Wire.updateSubject pf (Some id) body db) as [[e|[s|]] db'];
        cbn in Hupd; try discriminate Hupd.
      injection Hupd as ->; reflexivity.
    + right; split; [|reflexivity].
      rewrite HP, Hupd; reflexivity.
  - intros i' Hi'.
    rewrite GET_subjects_id_of_get, Hi', Hsnd.
    cbn [pk subjects] in Hget.
    destruct (Wire.getSubject (Some (Subject.id r'))
                (snd (Wire.updateSubject pf (Some id) body db)))
      as [[e|[s|]] db'']; cbn in Hget; try discriminate Hget.
    injection Hget as ->; reflexivity.
Qed.

Lemma update_changes_only_supplied_fields_witness :
  (exists r',
     fst (Wire.PATCH_subjects_id example "1" (JObj [("progress", JNum 40)])
            math_db)
     = json (JsonSubject r')
     /\ Subject.id r' = 1 /\ Subject.name r' = "Math"
     /\ Subject.progress r' = 40
     /\ fst (Wire.GET_subjects_id example "1"
               (snd (Wire.PATCH_subjects_id example "1"
                       (JObj [("progress", JNum 40)]) math_db)))
        = json (JsonSubject r'))
  /\ (exists r',
        fst (Wire.PATCH_subjects_id example "1" (JObj [("id", JNum 99)])
               math_db)
        = json (JsonSubject r')
        /\ Subject.id r' = 99 /\ Subject.name r' = "Math"
        /\ fst (Wire.GET_subjects_id example "99"
                  (snd (Wire.PATCH_subjects_id example "1"
                          (JObj [("id", JNum 99)]) math_db)))
           = json (JsonSubject r')).
Proof.
  split.
  - destruct (update_changes_only_supplied_fields example math_db 1
                (JObj [("progress", JNum 40)])) as (_ & _ & _ & _ & H).
    destruct (H "1" (Subject.mk 1 "Math" "#4F46E5" "fas fa-book" None 0 0)
                eq_refl eq_refl eq_refl)
      as (_ & r' & [Hup|[Hup _]] & Hget & Hkept); [|discriminate Hup].
    destruct Hkept as (Hid & Hname & _).
    specialize (Hid eq_refl); specialize (Hname eq_refl).
    exists r'; split; [exact Hup|]. split; [exact Hid|].
    split; [exact Hname|].
    split; [|apply Hget; rewrite Hid; reflexivity].
    cbv in Hup; injection Hup as <-; reflexivity.
  - destruct (update_changes_only_supplied_fields example math_db 1
                (JObj [("id", JNum 99)])) as (_ & _ & _ & _ & H).
    destruct (H "1" (Subject.mk 1 "Math" "#4F46E5" "fas fa-book" None 0 0)
                eq_refl eq_refl eq_refl)
      as (_ & r' & [Hup|[Hup _]] & Hget & Hkept); [|discriminate Hup].
    destruct Hkept as (_ & Hname & _).
    specialize (Hname eq_refl).
    assert (Hid : Subject.id r' = 99)
      by (cbv in Hup; injection Hup as <-; reflexivity).
    exists r'; split; [exact Hup|]. split; [exact Hid|].
    split; [exact Hname|].
    apply Hget; rewrite Hid; reflexivity.
Defined.

(** ** Validation issues *)

Lemma zString_reports : reports_at_path zString.
Proof.
  intros path [[| | | |s| |]|] e E; cbn in E; try discriminate E;
    injection E as <-; (split; [discriminate|repeat constructor]).
Qed.

Lemma zBoolean_reports : reports_at_path zBoolean.
Proof.
  intros path [[|b| | | | |]|] e E; cbn in E; try discriminate E;
    injection E as <-; (split; [discriminate|repeat constructor]).
Qed.

Lemma zInteger_reports : reports_at_path zInteger.
Proof.
  intros path [[|b|n|f|s|l|o]|] e E; cbn in E; try discriminate E;
    try (injection E as <-; split; [discriminate|repeat constructor]).
  - destruct (n <? INT32_MIN);
      [injection E as <-; split; [discriminate|repeat constructor]|].
    destruct (INT32_MAX <? n); [|discriminate E].
    injection E as <-; split; [discriminate|repeat constructor].
  - injection E as <-; split.
    + destruct (f <? INT32_MIN), (INT32_MAX <=? f); discriminate.
    + destruct (f <? INT32_MIN), (INT32_MAX <=? f); repeat constructor.
Qed.

Lemma nullable_reports {A} (t : ZodType A) :
  reports_at_path t -> reports_at_path (nullable t).
Proof.
  intros Ht path v e E; unfold nullable in E.
  destruct v as [[| | | | | |]|]; try discriminate E;
    (destruct (t path _) as [e'|a] eqn:Et; [|discriminate E]);
    injection E as <-; exact (Ht _ _ _ Et).
Qed.

Lemma optional_reports {A} (t : ZodType A) :
  reports_at_path t -> reports_at_path (optional t).
Proof.
  intros Ht path v e E; unfold optional in E.
  destruct v as [j|]; [|discriminate E].
  destruct (t path (Some j)) as [e'|a] eqn:Et; [|discriminate E].
  injection E as <-; exact (Ht _ _ _ Et).
Qed.

Create HintDb zod.
#[export] Hint Resolve zString_reports zInteger_reports zBoolean_reports
  nullable_reports optional_reports : zod.










(** ** How each route answers *)

Lemma filter_at_most_one {R} (key : R -> Z) (id : Z) (l : list R) (r : R)
    (others : list R) :
  NoDup (map key l) -> filter (eq_ key id) l = r :: others -> others = [].
Proof.
  intros Hnd; revert r others.
  induction l as [|x l IH]; cbn [filter]; intros r others E;
    [discriminate E|].
  inversion Hnd as [|y ys Hy Hys]; subst.
  destruct (eq_ key id x) eqn:Ex.
  - injection E as <- E.
    unfold eq_ in Ex; cbn in Ex; apply Z.eqb_eq in Ex.
    rewrite filter_absent in E by (rewrite <- Ex; exact Hy).
    symmetry; exact E.
  - exact (IH Hys r others E).
Qed.

Lemma key_of_hit_not_in_rest {R} (key : R -> Z) (p : R -> bool) (l : list R)
    (r : R) :
  NoDup (map key l) -> In r (filter p l) ->
  ~ In (key r) (map key (filter (fun x => negb (p x)) l)).
Proof.
  induction l as [|x l IH]; cbn; intros Hnd Hin; [contradiction|].
  inversion Hnd as [|y ys Hy Hys]; subst.
  destruct (p x) eqn:Ep; cbn.
  - destruct Hin as [<-|Hin]; [|exact (IH Hys Hin)].
    intros H; apply Hy.
    apply in_map_iff in H; destruct H as (z & Ez & Hz).
    apply filter_In in Hz; apply in_map_iff; exists z; tauto.
  - intros [H|H]; [|exact (IH Hys Hin H)].
    apply Hy; rewrite H.
    apply filter_In in Hin; apply in_map; tauto.
Qed.

Section WireAnswers.
Context {R I : Type}.
Variable table : PgTable R I.
Hypothesis laws : table_laws table.
Variable inv : list R -> Prop.

Lemma answers_unchanged (allowed : list Z) (res : Response) (db : DB) :
  In (status res) allowed -> answers table inv allowed db (res, db).
Proof.
  intros Hin; split; [exact Hin|].
  exists (mkTable (rows (tbl_get table db)) (serial (tbl_get table db))).
  cbn [fst snd rows serial].
  split; [symmetry; apply (put_get table laws)|].
  split; [lia|]. split; [reflexivity|]. split; [reflexivity|tauto].
Qed.

Hypothesis inv_filter : forall p l, inv l -> inv (filter p l).

Lemma delete_outcome (n : option Z) (db : DB) :
  (exists e, Wire.delete_by_id table n db = (inl e, db))
  \/ Wire.delete_by_id table n db = (inr false, db)
  \/ exists id,
       Wire.delete_by_id table n db
       = (inr true,
          tbl_put table
            (mkTable (filter (fun r => negb (eq_ (pk table) id r))
                             (rows (tbl_get table db)))
                     (serial (tbl_get table db)))
            db).
Proof.
  destruct n as [id|]; [|left; eexists; apply wire_delete_refused; exact Logic.I].
  destruct (int4 id) eqn:Hid;
    [|left; eexists; apply wire_delete_refused; exact Hid].
  rewrite wire_delete_by_id by exact Hid.
  destruct (delete_by_id_true_iff table laws id db) as (b & Hb & _ & Hfalse).
  destruct b.
  - right; right; exists id.
    rewrite delete_by_id_result in *; cbn [fst] in Hb.
    injection Hb as ->; reflexivity.
  - right; left.
    rewrite (surjective_pairing (delete_by_id table id db)), Hb, Hfalse;
      reflexivity.
Qed.

Variable delete : option Z -> Storage bool.
Variable DELETE : string -> DB -> Response * DB.
Variables message delete_failed : string.
Variable pf : Platform.
Hypothesis delete_is : forall n, delete n = Wire.delete_by_id table n.
Hypothesis DELETE_is : forall i,
  DELETE i
  = try_catch
      (success <- delete (parseInt pf i) ;;
       if negb success
       then ret (status_json 404 (JsonMessage message))
       else ret (status_send 204))
      delete_failed.

Lemma DELETE_answers (i : string) (db : DB) :
  answers table inv [204; 404; 500] db (DELETE i db).
Proof.
  rewrite DELETE_is; unfold try_catch, bind, ret; rewrite delete_is.
  destruct (delete_outcome (parseInt pf i) db) as [(e & E)|[E|(id & E)]];
    rewrite E; cbn [negb].
  - apply answers_unchanged; cbn; tauto.
  - apply answers_unchanged; cbn; tauto.
  - split; [cbn; tauto|].
    eexists; split; [reflexivity|]; cbn [fst snd rows serial status status_send].
    split; [lia|]. split; [lia|]. split; [intros [H|H]; discriminate H|].
    intros Hnd Hinv; split;
      [apply kept_rows_have_distinct_keys; exact Hnd|apply inv_filter; exact Hinv].
Qed.

End WireAnswers.

Section WirePatchAnswers.
Context {R I P : Type} `{UpdateSet P R} `{PrimaryKey R}.
Variable table : PgTable R I.
Hypothesis laws : table_laws table.
Variable columns_of : list (string * Json) -> SetClause P.
Hypothesis no_field : forallb is_kept (columns (columns_of [])) = true.
Hypothesis assign_pk : forall (u : P) (r : R), pk table (assign u r) = pk table r.
Hypothesis key_set : forall k (r : R), pk table (with_id k r) = k.

(** An update throws or finds no row, leaving the store as it is, or
    rewrites the table and returns a row. *)
Lemma update_outcome (n : option Z) (body : Json) (db : DB) :
  (exists e, Wire.update_by_id table columns_of n body db = (inl e, db))
  \/ Wire.update_by_id table columns_of n body db = (inr None, db)
  \/ exists r' l,
       Wire.update_by_id table columns_of n body db
       = (inr (Some r'),
          tbl_put table (mkTable l (serial (tbl_get table db))) db)
       /\ (NoDup (map (pk table) (rows (tbl_get table db))) ->
           NoDup (map (pk table) l)).
Proof.
  destruct (binds columns_of body) eqn:Hb;
    [|left; apply update_unbound; assumption].
  destruct n as [id|];
    [|left; apply update_refused_id; [assumption|exact Logic.I]].
  destruct (int4 id) eqn:Hid;
    [|left; apply update_refused_id; assumption].
  destruct (set_binds columns_of body Hb) as (o & -> & _).
  rewrite (update_bound table columns_of o id db Hb Hid).
  destruct (filter (eq_ (pk table) id) (rows (tbl_get table db)))
    as [|first others] eqn:Hhit; [right; left; reflexivity|].
  cbv zeta.
  destruct (existsb is_violated (columns (columns_of o)));
    [left; eexists; reflexivity|].
  destruct (match rekey (columns_of o) with Some _ => _ | None => _ end)
    eqn:Hclash; [left; eexists; reflexivity|].
  right; right; eexists _, _; split; [reflexivity|].
  intros Hnd.
  pose proof (filter_at_most_one _ _ _ _ _ Hnd Hhit) as ->.
  cbn [map]; rewrite map_app; cbn [map].
  apply NoDup_snoc; [apply kept_rows_have_distinct_keys; exact Hnd|].
  unfold new_key.
  destruct (rekey (columns_of o)) as [k|].
  - rewrite key_set.
    rewrite orb_false_iff in Hclash; destruct Hclash as [Hclash _].
    intros Hin; apply in_map_iff in Hin; destruct Hin as (x & Ex & Hx).
    assert (Hex : existsb (fun r => pk table r =? k)
                    (filter (fun r => negb (eq_ (pk table) id r))
                            (rows (tbl_get table db))) = true).
    { apply existsb_exists; exists x; split; [exact Hx|].
      apply Z.eqb_eq; exact Ex. }
    rewrite Hex in Hclash; discriminate Hclash.
  - rewrite assign_pk.
    apply (key_of_hit_not_in_rest (pk table) (eq_ (pk table) id)); [exact Hnd|].
    rewrite Hhit; left; reflexivity.
Qed.

Variable inv : list R -> Prop.
Hypothesis inv_any : forall l, inv l.
Variable update : option Z -> Json -> Storage (option R).
Variable PATCH : string -> Json -> DB -> Response * DB.
Variable wrap : R -> Body.
Variables message patch_failed : string.
Variable pf : Platform.
Hypothesis update_is : forall n body,
  update n body = Wire.update_by_id table columns_of n body.
Hypothesis PATCH_is : forall i body,
  PATCH i body
  = try_catch
      (row <- update (parseInt pf i) body ;;
       match row with
       | None => ret (status_json 404 (JsonMessage message))
       | Some r => ret (json (wrap r))
       end)
      patch_failed.

Lemma PATCH_answers (i : string) (body : Json) (db : DB) :
  answers table inv [200; 404; 500] db (PATCH i body db).
Proof.
  rewrite PATCH_is; unfold try_catch, bind, ret; rewrite update_is.
  destruct (update_outcome (parseInt pf i) body db)
    as [(e & E)|[E|(r' & l & E & Hnd)]]; rewrite E.
  - apply answers_unchanged; [exact laws|cbn; tauto].
  - apply answers_unchanged; [exact laws|cbn; tauto].
  - split; [cbn; tauto|].
    eexists; split; [reflexivity|]; cbn [fst snd rows serial status json].
    split; [lia|]. split; [lia|]. split; [intros [E'|E']; discriminate E'|].
    intros Hd _; split; [exact (Hnd Hd)|apply inv_any].
Qed.

End WirePatchAnswers.

Section WirePostAnswers.
Context {R I : Type} `{Accepted I}.
Variable table : PgTable R I.
Hypothesis laws : table_laws table.
Hypothesis conflicts_pk :
  forall a b, conflicts table a b = (pk table a =? pk table b).
Hypothesis stored_pk : forall id v, pk table (stored table id v) = id.

(** An insert throws, leaving the rows as they are, or appends one row
    under the next value of the sequence, which no row had as id. *)
Lemma create_outcome (v : I) (db : DB) :
  (exists e s,
     Wire.create table v db
     = (inl e, tbl_put table (mkTable (rows (tbl_get table db)) s) db)
     /\ serial (tbl_get table db) <= s)
  \/ (Wire.create table v db
      = (inr (Some (stored table (serial (tbl_get table db)) v)),
         tbl_put table
           (mkTable (rows (tbl_get table db)
                     ++ [stored table (serial (tbl_get table db)) v])
                    (serial (tbl_get table db) + 1))
           db)
      /\ ~ In (serial (tbl_get table db)) (stored_ids table db)).
Proof.
  unfold Wire.create, bind, Wire.insert_returning.
  destruct (accepted v); cbn [negb].
  2:{ left; exists DatabaseError, (serial (tbl_get table db)).
      rewrite (put_get table laws); split; [reflexivity|lia]. }
  destruct (int4 (serial (tbl_get table db))); cbn [negb].
  2:{ left; exists DatabaseError, (serial (tbl_get table db)).
      rewrite (put_get table laws); split; [reflexivity|lia]. }
  destruct (existsb _ _) eqn:E.
  - left; eexists _, _; split; [reflexivity|lia].
  - right; split; [reflexivity|].
    intros Hin; apply (next_conflicts table conflicts_pk stored_pk db v) in Hin.
    rewrite Hin in E; discriminate E.
Qed.

Variable inv : list R -> Prop.
Hypothesis inv_any : forall l, inv l.
Variable schema : Json -> SafeParse I.
Variable method : I -> Storage (option R).
Variable wrap : R -> Body.
Variable POST : Json -> DB -> Response * DB.
Variables invalid failed : string.
Hypothesis method_is : forall v, method v = Wire.create table v.
Hypothesis POST_is : forall body,
  POST body
  = try_catch
      (match schema body with
       | ParseFailure issues => ret (status_json 400 (JsonErrors invalid issues))
       | ParseSuccess data =>
           row <- method data ;;
           ret (status_json 201 (json_of wrap row))
       end)
      failed.

Lemma POST_answers (body : Json) (db : DB) :
  answers table inv [201; 400; 500] db (POST body db).
Proof.
  rewrite POST_is; unfold try_catch, bind, ret.
  destruct (schema body) as [data|issues].
  2:{ apply answers_unchanged; [exact laws|cbn; tauto]. }
  rewrite method_is.
  destruct (create_outcome data db) as [(e & s & E & Hs)|[E Hfresh]]; rewrite E.
  - split; [cbn; tauto|].
    eexists; split; [reflexivity|]; cbn [fst snd rows serial status status_json].
    split; [exact Hs|]. split; [reflexivity|].
    split; [intros [E'|E']; discriminate E'|].
    intros Hd _; split; [exact Hd|apply inv_any].
  - split; [cbn; tauto|].
    eexists; split; [reflexivity|]; cbn [fst snd rows serial status status_json].
    split; [lia|]. split; [lia|]. split; [intros [E'|E']; discriminate E'|].
    intros Hd _; split; [|apply inv_any].
    rewrite map_app; cbn [map]; rewrite stored_pk.
    apply NoDup_snoc; [exact Hd|exact Hfresh].
Qed.

End WirePostAnswers.

Lemma upsert_new_is_create (db : DB) (v : InsertStudyStats.t) :
  pg_text (InsertStudyStats.date v) = true ->
  filter (eq_ StudyStats.date (InsertStudyStats.date v))
         (rows (studyStats_rows db)) = [] ->
  Wire.createOrUpdateStudyStats v db = Wire.create studyStats v db.
Proof.
  intros Hd E.
  unfold Wire.createOrUpdateStudyStats, Wire.getStudyStatsByDate.
  rewrite bound_text by exact Hd.
  unfold Wire.where_, select_from, bind, ret; cbn [tbl_get studyStats].
  rewrite E; reflexivity.
Qed.

Lemma upsert_refused_values (db : DB) (v : InsertStudyStats.t)
    (r : StudyStats.t) (others : list StudyStats.t) :
  pg_text (InsertStudyStats.date v) = true ->
  accepted v = false ->
  filter (eq_ StudyStats.date (InsertStudyStats.date v))
         (rows (studyStats_rows db)) = r :: others ->
  Wire.createOrUpdateStudyStats v db = (inl DatabaseError, db).
Proof.
  intros Hd Ha E.
  unfold Wire.createOrUpdateStudyStats, Wire.getStudyStatsByDate.
  rewrite bound_text by exact Hd.
  unfold Wire.where_, select_from, bind, ret; cbn [tbl_get studyStats].
  rewrite E; cbn [hd_error].
  unfold Wire.update_returning, Wire.studyStats_set; rewrite Ha; reflexivity.
Qed.

(** The upsert throws, leaving the rows as they are, or rewrites the
    table and returns a row; distinct ids and distinct dates stay so. *)
Lemma upsert_outcome (v : InsertStudyStats.t) (db : DB) :
  (exists e s,
     Wire.createOrUpdateStudyStats v db
     = (inl e,
        tbl_put studyStats (mkTable (rows (studyStats_rows db)) s) db)
     /\ serial (studyStats_rows db) <= s)
  \/ exists row l s,
       Wire.createOrUpdateStudyStats v db
       = (inr (Some row), tbl_put studyStats (mkTable l s) db)
       /\ serial (studyStats_rows db) <= s
       /\ (NoDup (map StudyStats.id (rows (studyStats_rows db))) ->
           distinct_dates (rows (studyStats_rows db)) ->
           NoDup (map StudyStats.id l) /\ distinct_dates l).
Proof.
  assert (Hsame : forall e,
             exists e' s,
               (inl e, db)
               = (@inl Thrown (option StudyStats.t) e',
                  tbl_put studyStats (mkTable (rows (studyStats_rows db)) s) db)
               /\ serial (studyStats_rows db) <= s).
  { intros e; exists e, (serial (studyStats_rows db)).
    rewrite (put_get studyStats studyStats_laws); split; [reflexivity|lia]. }
  destruct (pg_text (InsertStudyStats.date v)) eqn:Hd.
  2:{ left; rewrite wire_upsert_refused by exact Hd; apply Hsame. }
  destruct (filter (eq_ StudyStats.date (InsertStudyStats.date v))
                   (rows (studyStats_rows db))) as [|r others] eqn:E.
  - rewrite (upsert_new_is_create db v Hd E).
    destruct (create_outcome studyStats studyStats_laws (fun _ _ => eq_refl)
                (fun _ _ => eq_refl) v db) as [(e & s & Ec & Hs)|[Ec Hfresh]];
      rewrite Ec.
    + left; exists e, s; split; [reflexivity|exact Hs].
    + right; eexists _, _, _; split; [reflexivity|].
      cbn [tbl_get studyStats]; split; [lia|].
      intros Hids Hdates; split.
      * rewrite map_app; apply NoDup_snoc; [exact Hids|exact Hfresh].
      * unfold distinct_dates; rewrite map_app; apply NoDup_snoc;
          [exact Hdates|].
        cbn; apply date_filter_nil; exact E.
  - destruct (accepted v) eqn:Ha.
    2:{ left; rewrite (upsert_refused_values db v r others Hd Ha E).
        apply Hsame. }
    rewrite (wire_upsert_existing db v r others Ha E).
    right; eexists _, _, _; split; [reflexivity|]. split; [lia|].
    intros Hids Hdates.
    assert (Ho : others = []).
    { destruct (date_filter_unique (InsertStudyStats.date v) _ Hdates)
        as [E'|[r' E']]; rewrite E' in E; [discriminate E|].
      injection E as _ <-; reflexivity. }
    subst others; cbn [map]; split.
    + rewrite map_app; cbn [map]; apply NoDup_snoc;
        [apply kept_rows_have_distinct_keys; exact Hids|].
      change (StudyStats.id (assign v r)) with (StudyStats.id r).
      apply (key_of_hit_not_in_rest StudyStats.id
               (eq_ StudyStats.date (InsertStudyStats.date v))); [exact Hids|].
      rewrite E; left; reflexivity.
    + unfold distinct_dates; rewrite map_app; cbn [map]; apply NoDup_snoc;
        [apply kept_rows_have_distinct_keys; exact Hdates|].
      change (StudyStats.date (assign v r)) with (InsertStudyStats.date v).
      intros Hin; apply in_map_iff in Hin.
      destruct Hin as (x & Hx & Hin); apply filter_In in Hin.
      destruct Hin as [_ Hin]; unfold eq_ in Hin; cbn in Hin.
      rewrite negb_true_iff, String.eqb_neq in Hin; contradiction.
Qed.

Lemma POST_study_stats_answers (body : Json) (db : DB) :
  answers studyStats distinct_dates [200; 400; 500] db
    (Wire.POST_study_stats body db).
Proof.
  unfold Wire.POST_study_stats, try_catch, bind, ret.
  destruct (insertStudyStatsSchema body) as [data|issues].
  2:{ apply answers_unchanged; [exact studyStats_laws|cbn; tauto]. }
  destruct (upsert_outcome data db)
    as [(e & s & E & Hs)|(row & l & s & E & Hs & Hinv)]; rewrite E.
  - split; [cbn; tauto|].
    eexists; split; [reflexivity|]; cbn [fst snd rows serial status status_json].
    split; [exact Hs|]. split; [reflexivity|].
    split; [intros [E'|E']; discriminate E'|].
    intros Hd Hdates; split; assumption.
  - split; [cbn; tauto|].
    eexists; split; [reflexivity|]; cbn [fst snd rows serial status json].
    split; [exact Hs|]. split; [lia|].
    split; [intros [E'|E']; discriminate E'|exact Hinv].
Qed.

Lemma GET_subjects_id_answers (pf : Platform) (i : string) (db : DB) :
  answers subjects any_rows [200; 404; 500] db (Wire.GET_subjects_id pf i db).
Proof.
  rewrite GET_subjects_id_of_get.
  change (Wire.getSubject (parseInt pf i))
    with (Wire.get_by_id subjects (parseInt pf i)).
  unfold Wire.get_by_id, Wire.where_.
  destruct (Wire.eq_ (pk subjects) (parseInt pf i)) as [p|];
    [|apply answers_unchanged; [exact subjects_laws|cbn; tauto]].
  unfold select_from, bind, ret.
  destruct (hd_error _);
    apply answers_unchanged; try exact subjects_laws; cbn; tauto.
Qed.

Lemma GET_study_sessions_answers (date : option Wire.QueryValue) (db : DB) :
  answers studySessions any_rows [200; 500] db
    (Wire.GET_study_sessions date db).
Proof.
  unfold Wire.GET_study_sessions, try_catch.
  destruct date as [d|];
    [|apply answers_unchanged; [exact studySessions_laws|cbn; tauto]].
  destruct (Wire.truthy d);
    [|apply answers_unchanged; [exact studySessions_laws|cbn; tauto]].
  unfold Wire.getStudySessionsByDate, Wire.where_.
  destruct (Wire.eq_ StudySession.date d) as [p|];
    apply answers_unchanged; try exact studySessions_laws; cbn; tauto.
Qed.

Lemma GET_notes_answers (pf : Platform) (subjectId : option Wire.QueryValue)
    (db : DB) :
  answers notes any_rows [200; 500] db (Wire.GET_notes pf subjectId db).
Proof.
  unfold Wire.GET_notes, try_catch.
  destruct subjectId as [s|];
    [|apply answers_unchanged; [exact notes_laws|cbn; tauto]].
  destruct (Wire.truthy s);
    [|apply answers_unchanged; [exact notes_laws|cbn; tauto]].
  unfold Wire.getNotesBySubject, Wire.where_, orderBy.
  destruct (Wire.eq_ Note.subjectId (parseInt pf (Wire.to_string s))) as [p|];
    apply answers_unchanged; try exact notes_laws; cbn; tauto.
Qed.

Lemma GET_study_stats_answers (date : option Wire.QueryValue) (db : DB) :
  answers studyStats distinct_dates [200; 500] db
    (Wire.GET_study_stats date db).
Proof.
  unfold Wire.GET_study_stats, try_catch.
  destruct date as [d|];
    [|apply answers_unchanged; [exact studyStats_laws|cbn; tauto]].
  destruct (Wire.truthy d);
    [|apply answers_unchanged; [exact studyStats_laws|cbn; tauto]].
  unfold Wire.getStudyStatsByDate, Wire.where_.
  destruct (Wire.eq_ StudyStats.date d) as [p|];
    [|apply answers_unchanged; [exact studyStats_laws|cbn; tauto]].
  unfold select_from, bind, ret.
  destruct (hd_error _);
    apply answers_unchanged; try exact studyStats_laws; cbn; tauto.
Qed.

Lemma handle_answers (pf : Platform) (req : Wire.Request) (db : DB) :
  answers_of req db (Wire.handle pf req db).
Proof.
  destruct req as [|i|b|i b|i|date|b|i b|i|subjectId|b|i b|i
                  | |b|i b|i|date|b];
    cbn [answers_of Wire.handle statuses].
  - apply answers_unchanged; [exact subjects_laws|cbn; tauto].
  - apply GET_subjects_id_answers.
  - apply (POST_answers subjects subjects_laws)
      with (schema := insertSubjectSchema) (method := Wire.createSubject)
           (wrap := JsonSubject) (invalid := "Invalid subject data")
           (failed := "Failed to create subject");
      try reflexivity; intros; exact I.
  - apply (PATCH_answers subjects subjects_laws (Wire.subjects_set pf) eq_refl)
      with (update := Wire.updateSubject pf) (wrap := JsonSubject)
           (message := "Subject not found")
           (patch_failed := "Failed to update subject") (pf := pf);
      try reflexivity; intros; exact I.
  - apply (DELETE_answers subjects subjects_laws)
      with (delete := Wire.deleteSubject) (message := "Subject not found")
           (delete_failed := "Failed to delete subject") (pf := pf);
      try reflexivity; intros; exact I.
  - apply GET_study_sessions_answers.
  - apply (POST_answers studySessions studySessions_laws)
      with (schema := insertStudySessionSchema)
           (method := Wire.createStudySession) (wrap := JsonStudySession)
           (invalid := "Invalid session data")
           (failed := "Failed to create study session");
      try reflexivity; intros; exact I.
  - apply (PATCH_answers studySessions studySessions_laws
             (Wire.studySessions_set pf) eq_refl)
      with (update := Wire.updateStudySession pf) (wrap := JsonStudySession)
           (message := "Study session not found")
           (patch_failed := "Failed to update study session") (pf := pf);
      try reflexivity; intros; exact I.
  - apply (DELETE_answers studySessions studySessions_laws)
      with (delete := Wire.deleteStudySession)
           (message := "Study session not found")
           (delete_failed := "Failed to delete study session") (pf := pf);
      try reflexivity; intros; exact I.
  - apply GET_notes_answers.
  - apply (POST_answers notes notes_laws)
      with (schema := insertNoteSchema) (method := Wire.createNote)
           (wrap := JsonNote) (invalid := "Invalid note data")
           (failed := "Failed to create note");
      try reflexivity; intros; exact I.
  - apply (PATCH_answers notes notes_laws (Wire.notes_set pf) eq_refl)
      with (update := Wire.updateNote pf) (wrap := JsonNote)
           (message := "Note not found")
           (patch_failed := "Failed to update note") (pf := pf);
      try reflexivity; intros; exact I.
  - apply (DELETE_answers notes notes_laws)
      with (delete := Wire.deleteNote) (message := "Note not found")
           (delete_failed := "Failed to delete note") (pf := pf);
      try reflexivity; intros; exact I.
  - apply answers_unchanged; [exact goals_laws|cbn; tauto].
  - apply (POST_answers goals goals_laws)
      with (schema := insertGoalSchema) (method := Wire.createGoal)
           (wrap := JsonGoal) (invalid := "Invalid goal data")
           (failed := "Failed to create goal");
      try reflexivity; intros; exact I.
  - apply (PATCH_answers goals goals_laws (Wire.goals_set pf) eq_refl)
      with (update := Wire.updateGoal pf) (wrap := JsonGoal)
           (message := "Goal not found")
           (patch_failed := "Failed to update goal") (pf := pf);
      try reflexivity; intros; exact I.
  - apply (DELETE_answers goals goals_laws)
      with (delete := Wire.deleteGoal) (message := "Goal not found")
           (delete_failed := "Failed to delete goal") (pf := pf);
      try reflexivity; intros; exact I.
  - apply GET_study_stats_answers.
  - apply POST_study_stats_answers.
Qed.

(** ** Statuses, error responses and the keys of the store *)

(** X1.  Every route answers with one of its statuses: the two lists
    without a parameter always 200; a list filtered by a query parameter
    200 or 500; GET by id 200, 404 or 500; a creation 201 (200 for the
    statistics upsert), 400 or 500; PATCH 200, 404 or 500; DELETE 204, 404
    or 500. *)
Theorem status_by_route (pf : Platform) (req : Wire.Request) (db : DB) :
  In (status (fst (Wire.handle pf req db))) (statuses req).
Proof.
  pose proof (handle_answers pf req db) as H.
  destruct req; exact (proj1 H).
Qed.

(** X2.  A response with a status of 400 or more leaves the rows of
    every table as they were, whatever made the request fail: validation,
    an id that is not stored, an empty update, a value or a parameter the
    database refuses, a key that is taken.  With 400 or 404 the store is
    unchanged altogether; with 500 a sequence may have advanced, and no
    sequence ever goes back. *)
Theorem error_response_writes_nothing (pf : Platform) (req : Wire.Request)
    (db : DB) :
  (400 <= status (fst (Wire.handle pf req db)) ->
   same_rows db (snd (Wire.handle pf req db)))
  /\ (status (fst (Wire.handle pf req db)) = 400
      \/ status (fst (Wire.handle pf req db)) = 404 ->
      snd (Wire.handle pf req db) = db)
  /\ serials_le db (snd (Wire.handle pf req db)).
Proof.
  pose proof (handle_answers pf req db) as H.
  destruct req; cbn [answers_of] in H;
    destruct H as (_ & t & E & Hs & Hr & Hsame & _);
    (split; [|split; [exact Hsame|]]);
    try (intros Hst; specialize (Hr Hst));
    rewrite E; unfold same_rows, serials_le; cbn;
    repeat split; try reflexivity; try lia; assumption.
Qed.

Lemma error_response_writes_nothing_witness :
  same_rows math_db
    (snd (Wire.handle example (Wire.PostSubject nul_body) math_db))
  /\ same_rows math_db
       (snd (Wire.handle example
               (Wire.PatchSubject "1" (JObj [("progress", JNum 2147483648)]))
               math_db))
  /\ same_rows moved_db
       (snd (Wire.handle example (Wire.PostSubject math_body) moved_db))
  /\ serial (subjects_rows
               (snd (Wire.handle example (Wire.PostSubject math_body)
                       moved_db)))
     = 3.
Proof.
  split; [|split; [|split; [|reflexivity]]].
  - apply (error_response_writes_nothing example (Wire.PostSubject nul_body)
             math_db).
    cbv; discriminate.
  - apply (error_response_writes_nothing example
             (Wire.PatchSubject "1" (JObj [("progress", JNum 2147483648)]))
             math_db).
    cbv; discriminate.
  - apply (error_response_writes_nothing example (Wire.PostSubject math_body)
             moved_db).
    cbv; discriminate.
Defined.

Lemma handle_keys_ok (pf : Platform) (req : Wire.Request) (db : DB) :
  keys_ok db -> keys_ok (snd (Wire.handle pf req db)).
Proof.
  intros (Hs & Hss & Hn & Hg & Hst & Hd).
  pose proof (handle_answers pf req db) as H.
  unfold keys_ok, ids_unique, stored_ids, one_row_per_date in *.
  destruct req; cbn [answers_of] in H;
    destruct H as (_ & t & E & _ & _ & _ & Hinv); rewrite E;
    cbn [tbl_get tbl_put subjects studySessions notes goals studyStats
         subjects_rows studySessions_rows notes_rows goals_rows
         studyStats_rows pk] in *;
    first [ destruct (Hinv Hs I) as [Hk _]
          | destruct (Hinv Hss I) as [Hk _]
          | destruct (Hinv Hn I) as [Hk _]
          | destruct (Hinv Hg I) as [Hk _]
          | destruct (Hinv Hst Hd) as [Hk Hk'] ];
    repeat split; assumption.
Qed.

Lemma serve_keys_ok (pf : Platform) (reqs : list Wire.Request) (db : DB) :
  keys_ok db -> keys_ok (snd (Wire.serve pf reqs db)).
Proof.
  revert db; induction reqs as [|req reqs IH]; intros db Hok; [exact Hok|].
  cbn [Wire.serve].
  pose proof (handle_keys_ok pf req db Hok) as Hstep.
  destruct (Wire.handle pf req db) as [res db'].
  specialize (IH db' Hstep).
  destruct (Wire.serve pf reqs db') as [more db'']; exact IH.
Qed.

Lemma empty_keys_ok : keys_ok empty_db.
Proof. repeat split; constructor. Qed.

(** X6.  From the empty store, and from any store where it holds,
    every sequence of requests leads to a store in which no two rows of a
    table share an id and no two statistics rows share a date, also when a
    PATCH body sets the column [id]. *)
Theorem reachable_store_is_consistent (pf : Platform)
    (reqs : list Wire.Request) (db : DB) :
  keys_ok empty_db
  /\ (keys_ok db -> keys_ok (snd (Wire.serve pf reqs db))).
Proof. split; [exact empty_keys_ok|apply serve_keys_ok]. Qed.

Lemma reachable_store_is_consistent_witness :
  keys_ok
    (snd (Wire.serve example
            [Wire.PostSubject math_body;
             Wire.PatchSubject "1" (JObj [("id", JNum 99)]);
             Wire.PostSubject math_body;
             Wire.PatchSubject "2" (JObj [("id", JNum 99)])]
            empty_db))
  /\ map Subject.id
       (rows (subjects_rows
                (snd (Wire.serve example
                        [Wire.PostSubject math_body;
                         Wire.PatchSubject "1" (JObj [("id", JNum 99)]);
                         Wire.PostSubject math_body;
                         Wire.PatchSubject "2" (JObj [("id", JNum 99)])]
                        empty_db))))
     = [99; 2].
Proof.
  split; [|reflexivity].
  apply (reachable_store_is_consistent example
           [Wire.PostSubject math_body;
            Wire.PatchSubject "1" (JObj [("id", JNum 99)]);
            Wire.PostSubject math_body;
            Wire.PatchSubject "2" (JObj [("id", JNum 99)])]
           empty_db).
  exact empty_keys_ok.
Defined.

(** ** Create, then fetch *)

Section WireRoundTrip.
Context {R I : Type} `{Accepted I}.
Variable table : PgTable R I.
Hypothesis laws : table_laws table.
Hypothesis conflicts_pk :
  forall a b, conflicts table a b = (pk table a =? pk table b).
Hypothesis stored_pk : forall id v, pk table (stored table id v) = id.

Lemma created_then_fetched_at (db : DB) (v : I) :
  created_then_fetched table (Wire.create table) (Wire.get_by_id table) db v.
Proof.
  intros Ha Hs Hn.
  exists (stored table (serial (tbl_get table db)) v).
  rewrite (wire_create_result table conflicts_pk stored_pk db v Ha Hs Hn).
  cbn [fst snd]; rewrite stored_pk.
  split; [reflexivity|]. split.
  - rewrite wire_get_by_id by exact Hs.
    rewrite get_by_id_result, (get_put table laws); cbn [fst rows].
    rewrite filter_app, filter_absent by exact Hn; cbn.
    unfold eq_; cbn; rewrite stored_pk, Z.eqb_refl; reflexivity.
  - intros id Hne.
    destruct (int4 id) eqn:Hid.
    + rewrite !wire_get_by_id by exact Hid.
      rewrite !get_by_id_result, (get_put table laws); cbn [fst rows].
      rewrite filter_app; cbn.
      unfold eq_ at 2; cbn; rewrite stored_pk.
      destruct (Z.eqb_spec (serial (tbl_get table db)) id); [congruence|].
      rewrite app_nil_r; reflexivity.
    + rewrite !wire_get_refused by exact Hid; reflexivity.
Qed.

End WireRoundTrip.

(** X7.  A row created from values the database accepts, while the next
    value of the sequence is an int4 that no row has as id, is the row
    fetched afterwards under the id it was given, and every other id is
    fetched as before; for subjects also through POST /api/subjects
    followed by GET /api/subjects/:id on the new id. *)
Theorem created_row_is_fetched (pf : Platform) (db : DB) :
  (forall v, created_then_fetched subjects Wire.createSubject Wire.getSubject
               db v)
  /\ (forall v, created_then_fetched studySessions Wire.createStudySession
                  Wire.getStudySession db v)
  /\ (forall v, created_then_fetched notes Wire.createNote Wire.getNote db v)
  /\ (forall v, created_then_fetched goals Wire.createGoal Wire.getGoal db v)
  /\ (forall body data i,
        insertSubjectSchema body = ParseSuccess data ->
        accepted data = true ->
        int4 (serial (subjects_rows db)) = true ->
        ~ In (serial (subjects_rows db)) (stored_ids subjects db) ->
        parseInt pf i = Some (serial (subjects_rows db)) ->
        exists row,
          fst (Wire.POST_subjects body db) = status_json 201 (JsonSubject row)
          /\ Subject.id row = serial (subjects_rows db)
          /\ fst (Wire.GET_subjects_id pf i (snd (Wire.POST_subjects body db)))
             = json (JsonSubject row)).
Proof.
  assert (Hs : forall v,
             created_then_fetched subjects Wire.createSubject Wire.getSubject
               db v).
  { intros v; apply (created_then_fetched_at subjects subjects_laws);
      intros; reflexivity. }
  split; [exact Hs|].
  split; [intros v; apply (created_then_fetched_at studySessions
                             studySessions_laws); intros; reflexivity|].
  split; [intros v; apply (created_then_fetched_at notes notes_laws);
          intros; reflexivity|].
  split; [intros v; apply (created_then_fetched_at goals goals_laws);
          intros; reflexivity|].
  intros body data i Hparse Ha Hint Hfresh Hi.
  destruct (Hs data Ha Hint Hfresh) as (row & Hc & Hget & _).
  pose proof (wire_create_result subjects (fun _ _ => eq_refl)
                (fun _ _ => eq_refl) db data Ha Hint Hfresh) as Hres.
  change (Wire.create subjects data) with (Wire.createSubject data) in Hres.
  rewrite Hres in Hc; cbn [fst] in Hc; injection Hc as Hrow.
  exists row.
  assert (HP : Wire.POST_subjects body db
               = (status_json 201 (JsonSubject row),
                  snd (Wire.createSubject data db))).
  { unfold Wire.POST_subjects, try_catch, bind; rewrite Hparse, Hres.
    subst row; reflexivity. }
  rewrite HP; cbn [fst snd].
  assert (Hid : Subject.id row = serial (subjects_rows db))
    by (subst row; reflexivity).
  split; [reflexivity|]. split; [exact Hid|].
  rewrite GET_subjects_id_of_get, Hi.
  cbn [pk subjects] in Hget; rewrite Hid in Hget.
  destruct (Wire.getSubject (Some (serial (subjects_rows db)))
              (snd (Wire.createSubject data db)))
    as [[e|[s|]] db']; cbn in Hget; try discriminate Hget.
  injection Hget as ->; reflexivity.
Qed.

Lemma created_row_is_fetched_witness :
  exists row,
    fst (Wire.POST_subjects math_body math_db)
    = status_json 201 (JsonSubject row)
    /\ Subject.id row = 2
    /\ fst (Wire.GET_subjects_id example "2"
              (snd (Wire.POST_subjects math_body math_db)))
       = json (JsonSubject row).
Proof.
  destruct (created_row_is_fetched example math_db) as (_ & _ & _ & _ & H).
  apply (H math_body (InsertSubject.mk "Math" None None None None None) "2");
    try reflexivity.
  cbv; intros [E|[]]; discriminate E.
Defined.

(** ** What a PATCH stores *)

Section WireStores.
Context {R I P : Type} `{UpdateSet P R} `{PrimaryKey R}.
Variable table : PgTable R I.
Variable columns_of : list (string * Json) -> SetClause P.
Hypothesis no_field : forallb is_kept (columns (columns_of [])) = true.
Variable supplied : list (string * Json) -> R -> Prop.
Hypothesis supplied_patched : forall o r, supplied o (patched (columns_of o) r).

Lemma free_key_does_not_clash (db : DB) (id k : Z) :
  k = id \/ ~ In k (stored_ids table db) ->
  existsb (fun x => pk table x =? k)
    (filter (fun x => negb (eq_ (pk table) id x)) (rows (tbl_get table db)))
  = false.
Proof.
  intros Hfree; apply not_true_is_false; intros Hex.
  apply existsb_exists in Hex; destruct Hex as (x & Hin & Hx).
  apply filter_In in Hin; destruct Hin as [Hin Hne].
  apply Z.eqb_eq in Hx.
  unfold eq_ in Hne; cbn in Hne; rewrite negb_true_iff, Z.eqb_neq in Hne.
  destruct Hfree as [E|Hn]; [congruence|].
  apply Hn; unfold stored_ids; apply in_map_iff; exists x; split; assumption.
Qed.

Lemma patch_stores_at (db : DB) (id : Z) (o : list (string * Json)) :
  patch_stores table columns_of (Wire.update_by_id table columns_of) supplied
    db id o.
Proof.
  intros Hid r Hr; split.
  - intros Hb Hv Hfree.
    rewrite (update_bound table columns_of o id db Hb Hid), Hr; cbv zeta.
    rewrite Hv.
    destruct (rekey (columns_of o)) as [k|] eqn:Hk; [|eexists; reflexivity].
    cbn [List.length Nat.eqb negb]; rewrite orb_false_r.
    rewrite (free_key_does_not_clash db id k (Hfree k Hk)).
    eexists; reflexivity.
  - intros r' Hup.
    destruct (update_one table columns_of no_field (JObj o) id r db Hid Hr)
      as [(e & E)|(o' & Eo & _ & _ & _ & E)].
    + rewrite E in Hup; discriminate Hup.
    + injection Eo as <-; rewrite E in Hup; cbn [fst] in Hup.
      injection Hup as <-; apply supplied_patched.
Qed.

End WireStores.

Ltac supplied_cases :=
  intros o r; unfold patched; cbn;
  repeat split; intros;
  repeat match goal with
         | E : property _ _ = Some _ |- _ => rewrite E; clear E
         end;
  cbn;
  repeat match goal with
         | E : int4 _ = true |- _ => rewrite E; clear E
         | E : pg_text _ = true |- _ => rewrite E; clear E
         end;
  cbn; try reflexivity;
  match goal with
  | |- context [put (Wire.integer ?p (property "id" ?x))] =>
      destruct (put (Wire.integer p (property "id" x))); reflexivity
  end.

Lemma subject_supplied_patched (pf : Platform) o r :
  subject_supplied o (patched (Wire.subjects_set pf o) r).
Proof. revert o r; supplied_cases. Qed.

Lemma session_supplied_patched (pf : Platform) o r :
  session_supplied o (patched (Wire.studySessions_set pf o) r).
Proof. revert o r; supplied_cases. Qed.

Lemma note_supplied_patched (pf : Platform) o r :
  note_supplied o (patched (Wire.notes_set pf o) r).
Proof. revert o r; supplied_cases. Qed.

Lemma goal_supplied_patched (pf : Platform) o r :
  goal_supplied o (patched (Wire.goals_set pf o) r).
Proof. revert o r; supplied_cases. Qed.

(** X9.  For each of the four entities, an update of the one row stored
    under an id in the int4 range is carried out and returns a row when
    the body binds, sets no [notNull] column to [null] and gives the row
    its own id or an id that is not stored; and the row a carried-out
    update returns holds every supplied value that has the JSON type of
    its column and that the database accepts (a number in the int4 range
    for an integer column and for [id], a string without U+0000 for a text
    column, [null] for a column that is not [notNull], a boolean for
    [isCompleted]).  For subjects this is the row
    PATCH /api/subjects/:id answers 200 with. *)
Theorem patch_stores_supplied_values (pf : Platform) (db : DB) (id : Z)
    (o : list (string * Json)) :
  patch_stores subjects (Wire.subjects_set pf) (Wire.updateSubject pf)
    subject_supplied db id o
  /\ patch_stores studySessions (Wire.studySessions_set pf)
       (Wire.updateStudySession pf) session_supplied db id o
  /\ patch_stores notes (Wire.notes_set pf) (Wire.updateNote pf)
       note_supplied db id o
  /\ patch_stores goals (Wire.goals_set pf) (Wire.updateGoal pf)
       goal_supplied db id o
  /\ (forall i r,
        parseInt pf i = Some id -> int4 id = true ->
        filter (eq_ Subject.id id) (rows (subjects_rows db)) = [r] ->
        (binds (Wire.subjects_set pf) (JObj o) = true ->
         existsb is_violated (columns (Wire.subjects_set pf o)) = false ->
         key_free subjects (Wire.subjects_set pf o) db id ->
         exists r',
           fst (Wire.PATCH_subjects_id pf i (JObj o) db)
           = json (JsonSubject r'))
        /\ forall r',
             fst (Wire.PATCH_subjects_id pf i (JObj o) db)
             = json (JsonSubject r') ->
             subject_supplied o r').
Proof.
  assert (Hs : patch_stores subjects (Wire.subjects_set pf)
                 (Wire.updateSubject pf) subject_supplied db id o).
  { apply (patch_stores_at subjects (Wire.subjects_set pf) eq_refl).
    apply subject_supplied_patched. }
  split; [exact Hs|].
  split; [apply (patch_stores_at studySessions (Wire.studySessions_set pf)
                   eq_refl); apply session_supplied_patched|].
  split; [apply (patch_stores_at notes (Wire.notes_set pf) eq_refl);
          apply note_supplied_patched|].
  split; [apply (patch_stores_at goals (Wire.goals_set pf) eq_refl);
          apply goal_supplied_patched|].
  intros i r Hi Hid Hr.
  destruct (Hs Hid r Hr) as [Hdone Hheld].
  split.
  - intros Hb Hv Hfree.
    destruct (Hdone Hb Hv Hfree) as (r' & Hup).
    exists r'.
    unfold Wire.PATCH_subjects_id, try_catch, bind, ret; rewrite Hi.
    destruct (Wire.updateSubject pf (Some id) (JObj o) db) as [[e|[s|]] db'];
      cbn in Hup; try discriminate Hup.
    injection Hup as ->; reflexivity.
  - intros r' HP.
    apply (Hheld r').
    unfold Wire.PATCH_subjects_id, try_catch, bind, ret in HP;
      rewrite Hi in HP.
    destruct (Wire.updateSubject pf (Some id) (JObj o) db) as [[e|[s|]] db'];
      cbn in HP; try discriminate HP.
    injection HP as ->; reflexivity.
Qed.

Lemma patch_stores_supplied_values_witness :
  exists r',
    fst (Wire.PATCH_subjects_id example "1"
           (JObj [("progress", JNum 40); ("currentTopic", JNull);
                  ("name", JStr "Algebra")])
           math_db)
    = json (JsonSubject r')
    /\ Subject.progress r' = 40 /\ Subject.currentTopic r' = None
    /\ Subject.name r' = "Algebra".
Proof.
  destruct (patch_stores_supplied_values example math_db 1
              [("progress", JNum 40); ("currentTopic", JNull);
               ("name", JStr "Algebra")]) as (_ & _ & _ & _ & H).
  destruct (H "1" (Subject.mk 1 "Math" "#4F46E5" "fas fa-book" None 0 0)
              eq_refl eq_refl eq_refl) as [Hdone Hheld].
  destruct Hdone as (r' & Hup);
    [reflexivity|reflexivity|intros k Hk; discriminate Hk|].
  exists r'; split; [exact Hup|].
  destruct (Hheld r' Hup) as (_ & Hname & _ & _ & _ & Htopic & Hprogress & _).
  split; [apply Hprogress; reflexivity|].
  split; [apply Htopic; reflexivity|apply Hname; reflexivity].
Defined.

(** ** Statistics: omitted fields, other dates, lookup by date *)


Lemma the_row_of_a_date (l : list StudyStats.t) (r : StudyStats.t) :
  NoDup (map StudyStats.date l) -> In r l ->
  filter (eq_ StudyStats.date (StudyStats.date r)) l = [r].
Proof.
  intros Hnd Hin.
  assert (Hf : In r (filter (eq_ StudyStats.date (StudyStats.date r)) l)).
  { apply filter_In; split; [exact Hin|].
    unfold eq_; cbn; apply String.eqb_refl. }
  destruct (date_filter_unique (StudyStats.date r) l Hnd) as [E|[r0 E]];
    rewrite E in Hf; [contradiction|].
  destruct Hf as [->|[]]; exact E.
Qed.

Lemma GET_study_stats_by_date (db : DB) (D : string) :
  D <> "" -> pg_text D = true ->
  Wire.GET_study_stats (Some (Wire.QString D)) db
  = (json (match hd_error (filter (eq_ StudyStats.date D)
                                  (rows (studyStats_rows db))) with
           | Some s => JsonStats s
           | None => JsonNull
           end), db).
Proof.
  intros HD Htext.
  unfold Wire.GET_study_stats, try_catch; rewrite (wire_truthy D HD).
  unfold Wire.getStudyStatsByDate; rewrite bound_text by exact Htext.
  reflexivity.
Qed.



(** X11.  GET /api/study-stats?date=D for a non-empty D without a
    character U+0000 answers 200 in every case and writes nothing: with
    null when no stored row has that date (never 404), and with the row of
    that date when the store has one row per date.  After a valid POST for D it answers with
    the very row the POST returned.  With the parameter absent or empty it
    answers with the list of all rows. *)
Theorem stats_lookup_by_date (db : DB) (D : string) :
  D <> "" -> pg_text D = true ->
  (~ In D (map StudyStats.date (rows (studyStats_rows db))) ->
   Wire.GET_study_stats (Some (Wire.QString D)) db = (json JsonNull, db))
  /\ (one_row_per_date db ->
      forall r, In r (rows (studyStats_rows db)) -> StudyStats.date r = D ->
        Wire.GET_study_stats (Some (Wire.QString D)) db
        = (json (JsonStats r), db))
  /\ (one_row_per_date db ->
      int4 (serial (studyStats_rows db)) = true ->
      ~ In (serial (studyStats_rows db)) (stored_ids studyStats db) ->
      forall body v,
        insertStudyStatsSchema body = ParseSuccess v ->
        InsertStudyStats.date v = D ->
        exists row,
          fst (Wire.POST_study_stats body db) = json (JsonStats row)
          /\ fst (Wire.GET_study_stats (Some (Wire.QString D))
                    (snd (Wire.POST_study_stats body db)))
             = json (JsonStats row))
  /\ Wire.GET_study_stats None db
     = (json (JsonStatsList (rows (studyStats_rows db))), db)
  /\ Wire.GET_study_stats (Some (Wire.QString "")) db
     = (json (JsonStatsList (rows (studyStats_rows db))), db)
  /\ status (fst (Wire.GET_study_stats (Some (Wire.QString D)) db)) = 200
  /\ snd (Wire.GET_study_stats (Some (Wire.QString D)) db) = db.
Proof.
  intros HD Htext.
  split; [|split; [|split; [|split; [reflexivity|split; [reflexivity|]]]]];
    [| | |rewrite GET_study_stats_by_date by assumption; split; reflexivity].
  - intros Hn; rewrite GET_study_stats_by_date by assumption.
    rewrite date_filter_absent by exact Hn; reflexivity.
  - intros Hone r Hin Hdate; rewrite GET_study_stats_by_date by assumption.
    rewrite <- Hdate, (the_row_of_a_date _ r Hone Hin); reflexivity.
  - intros Hone Hs Hn body v Hparse Hdate.
    assert (Ha : accepted v = true)
      by (rewrite (stats_validated body v Hparse), Hdate; exact Htext).
    destruct (wire_upsert_one_row db v Hone Ha (fun _ => conj Hs Hn))
      as (row & db' & Hu & Hf & _ & _).
    exists row.
    unfold Wire.POST_study_stats at 1 2, try_catch, bind.
    rewrite Hparse, Hu; cbn [fst snd ret].
    split; [reflexivity|].
    rewrite GET_study_stats_by_date by assumption.
    rewrite <- Hdate, Hf; reflexivity.
Qed.

Lemma stats_lookup_by_date_witness :
  Wire.GET_study_stats (Some (Wire.QString "2024-05-01")) empty_db
  = (json JsonNull, empty_db)
  /\ fst (Wire.GET_study_stats (Some (Wire.QString "2024-05-01"))
            (snd (Wire.POST_study_stats (stats_body "2024-05-01" 30)
                    empty_db)))
     = json (JsonStats (StudyStats.mk 1 "2024-05-01" 30 0 0)).
Proof.
  split.
  - apply (stats_lookup_by_date empty_db "2024-05-01");
      [discriminate|reflexivity|intros []].
  - destruct (stats_lookup_by_date empty_db "2024-05-01")
      as (_ & _ & H & _); [discriminate|reflexivity|].
    destruct (H ltac:(constructor) eq_refl ltac:(intros [])
                (stats_body "2024-05-01" 30)
                (InsertStudyStats.mk "2024-05-01" (Some 30) None None)
                eq_refl eq_refl)
      as (row & Hres & Hget).
    rewrite Hget; cbv in Hres; injection Hres as <-; reflexivity.
Defined.

(** ** Repeating a PATCH *)




Section WireRepeat.
Context {R I P : Type} `{UpdateSet P R} `{PrimaryKey R}.
Variable table : PgTable R I.
Hypothesis laws : table_laws table.
Hypothesis put_put : forall t t' db,
  tbl_put table t (tbl_put table t' db) = tbl_put table t db.
Variable columns_of : list (string * Json) -> SetClause P.
Hypothesis no_field : forallb is_kept (columns (columns_of [])) = true.
Hypothesis assign_pk : forall (u : P) (r : R), pk table (assign u r) = pk table r.
Hypothesis assign_twice : forall (u : P) (r : R),
  assign u (assign u r) = assign u r.
Hypothesis rekey_of_id : forall o,
  property "id" o = None -> rekey (columns_of o) = None.


Variable update : option Z -> Json -> Storage (option R).
Variable PATCH : string -> Json -> DB -> Response * DB.
Variable wrap : R -> Body.
Variables message patch_failed : string.
Variable pf : Platform.
Hypothesis update_is : forall n body,
  update n body = Wire.update_by_id table columns_of n body.
Hypothesis PATCH_is : forall i body,
  PATCH i body
  = try_catch
      (row <- update (parseInt pf i) body ;;
       match row with
       | None => ret (status_json 404 (JsonMessage message))
       | Some r => ret (json (wrap r))
       end)
      patch_failed.


End WireRepeat.








(** ** The typed storage layer inside the deployed server *)

(** X17.  On the inputs the database accepts, the deployed server is
    the typed storage layer: for an id in the int4 range the by-id get and
    delete methods and the routes GET /api/subjects/:id and DELETE are
    those of the typed layer at that id; for values the database accepts
    and a sequence that is not exhausted, create is the typed create; the
    plain lists and the two note listings are the typed ones under the
    database collation. *)
Theorem typed_layer_agrees_on_accepted_input (pf : Platform) (id : Z) :
  int4 id = true ->
  (Wire.getUser (Some id) = getUser id
   /\ Wire.getSubject (Some id) = getSubject id
   /\ Wire.getStudySession (Some id) = getStudySession id
   /\ Wire.getNote (Some id) = getNote id
   /\ Wire.getGoal (Some id) = getGoal id)
  /\ (Wire.deleteSubject (Some id) = deleteSubject id
      /\ Wire.deleteStudySession (Some id) = deleteStudySession id
      /\ Wire.deleteNote (Some id) = deleteNote id
      /\ Wire.deleteGoal (Some id) = deleteGoal id)
  /\ (forall i, parseInt pf i = Some id ->
        Wire.GET_subjects_id pf i = GET_subjects_id id
        /\ Wire.DELETE_subjects_id pf i = DELETE_subjects_id id
        /\ Wire.DELETE_study_sessions_id pf i = DELETE_study_sessions_id id
        /\ Wire.DELETE_notes_id pf i = DELETE_notes_id id
        /\ Wire.DELETE_goals_id pf i = DELETE_goals_id id)
  /\ (forall db,
        int4 (serial (subjects_rows db)) = true ->
        forall v, accepted v = true ->
          Wire.createSubject v db = createSubject v db)
  /\ (forall db,
        int4 (serial (studySessions_rows db)) = true ->
        forall v, accepted v = true ->
          Wire.createStudySession v db = createStudySession v db)
  /\ (forall db,
        int4 (serial (notes_rows db)) = true ->
        forall v, accepted v = true -> Wire.createNote v db = createNote v db)
  /\ (forall db,
        int4 (serial (goals_rows db)) = true ->
        forall v, accepted v = true -> Wire.createGoal v db = createGoal v db)
  /\ Wire.getNotes pf = getNotes (collation pf)
  /\ Wire.getNotesBySubject pf (Some id)
     = getNotesBySubject (collation pf) id
  /\ Wire.GET_subjects = GET_subjects
  /\ Wire.GET_goals = GET_goals.
Proof.
  intros Hid.
  assert (Hget : forall {R I} (table : PgTable R I),
             Wire.get_by_id table (Some id) = get_by_id table id)
    by (intros; apply wire_get_by_id; exact Hid).
  assert (Hdel : forall {R I} (table : PgTable R I),
             Wire.delete_by_id table (Some id) = delete_by_id table id)
    by (intros; apply wire_delete_by_id; exact Hid).
  assert (Hcreate : forall {R I} `{Accepted I} (table : PgTable R I) db v,
             int4 (serial (tbl_get table db)) = true -> accepted v = true ->
             Wire.create table v db = create table v db).
  { intros R I A table db v Hs Ha.
    unfold Wire.create, create, bind, Wire.insert_returning, insert_returning.
    rewrite Ha, Hs; reflexivity. }
  split.
  { split; [exact (Hget _ _ users)|].
    split; [exact (Hget _ _ subjects)|].
    split; [exact (Hget _ _ studySessions)|].
    split; [exact (Hget _ _ notes)|exact (Hget _ _ goals)]. }
  split.
  { split; [exact (Hdel _ _ subjects)|].
    split; [exact (Hdel _ _ studySessions)|].
    split; [exact (Hdel _ _ notes)|exact (Hdel _ _ goals)]. }
  split.
  { intros i Hi.
    unfold Wire.GET_subjects_id, Wire.DELETE_subjects_id,
      Wire.DELETE_study_sessions_id, Wire.DELETE_notes_id,
      Wire.DELETE_goals_id; rewrite Hi.
    change (Wire.getSubject (Some id)) with (Wire.get_by_id subjects (Some id)).
    change (Wire.deleteSubject (Some id))
      with (Wire.delete_by_id subjects (Some id)).
    change (Wire.deleteStudySession (Some id))
      with (Wire.delete_by_id studySessions (Some id)).
    change (Wire.deleteNote (Some id)) with (Wire.delete_by_id notes (Some id)).
    change (Wire.deleteGoal (Some id)) with (Wire.delete_by_id goals (Some id)).
    rewrite Hget, !Hdel; repeat split. }
  split; [intros db Hs v Ha; apply (Hcreate _ _ _ subjects); assumption|].
  split; [intros db Hs v Ha; apply (Hcreate _ _ _ studySessions); assumption|].
  split; [intros db Hs v Ha; apply (Hcreate _ _ _ notes); assumption|].
  split; [intros db Hs v Ha; apply (Hcreate _ _ _ goals); assumption|].
  split; [reflexivity|].
  split; [|split; reflexivity].
  unfold Wire.getNotesBySubject; rewrite bound_id by exact Hid; reflexivity.
Qed.

Lemma typed_layer_agrees_on_accepted_input_witness :
  Wire.DELETE_subjects_id example "1" math_db = DELETE_subjects_id 1 math_db
  /\ Wire.createSubject (InsertSubject.mk "Math" None None None None None)
       empty_db
     = createSubject (InsertSubject.mk "Math" None None None None None)
         empty_db.
Proof.
  destruct (typed_layer_agrees_on_accepted_input example 1 eq_refl)
    as (_ & _ & Hroutes & Hcreate & _).
  split.
  - destruct (Hroutes "1" eq_refl) as (_ & H & _); rewrite H; reflexivity.
  - apply Hcreate; reflexivity.
Defined.

(** ** Empty updates, deletion, isolation and ordering *)

(** X18.  A PATCH whose body has no own key ([{}], [[]], an empty string,
    a number, a boolean) or is [null] is answered 500 on each of the four
    PATCH routes, whatever the path parameter and the store, also when a
    row is stored under that id; nothing is written. *)
Theorem body_without_key_is_500 (pf : Platform) (i : string) (body : Json)
    (db : DB) :
  keyless body = true \/ body = JNull ->
  Wire.PATCH_subjects_id pf i body db
  = (status_json 500 (JsonMessage "Failed to update subject"), db)
  /\ Wire.PATCH_study_sessions_id pf i body db
     = (status_json 500 (JsonMessage "Failed to update study session"), db)
  /\ Wire.PATCH_notes_id pf i body db
     = (status_json 500 (JsonMessage "Failed to update note"), db)
  /\ Wire.PATCH_goals_id pf i body db
     = (status_json 500 (JsonMessage "Failed to update goal"), db).
Proof.
  intros [Hk| ->]; [|repeat split].
  destruct body as [|b|n|f|[|c s]|[|x l]|[|kv o]]; try discriminate Hk;
    repeat split.
Qed.

Lemma body_without_key_is_500_witness :
  In 1 (stored_ids subjects math_db)
  /\ Wire.PATCH_subjects_id example "1" (JObj []) math_db
     = (status_json 500 (JsonMessage "Failed to update subject"), math_db).
Proof.
  split; [left; reflexivity|].
  apply (body_without_key_is_500 example "1" (JObj []) math_db).
  left; reflexivity.
Defined.

Section WireDelete.
Context {R I : Type}.
Variable table : PgTable R I.
Hypothesis laws : table_laws table.
Variable delete : option Z -> Storage bool.
Variable DELETE : string -> DB -> Response * DB.
Variables message delete_failed : string.
Variable pf : Platform.
Hypothesis delete_is : forall n, delete n = Wire.delete_by_id table n.
Hypothesis DELETE_is : forall i,
  DELETE i
  = try_catch
      (success <- delete (parseInt pf i) ;;
       if negb success
       then ret (status_json 404 (JsonMessage message))
       else ret (status_send 204))
      delete_failed.

Lemma deleted_once_at (db : DB) (i : string) (id : Z) :
  deleted_once table DELETE message pf db i id.
Proof.
  intros Hi Hid Hin.
  assert (HD : forall db0,
             DELETE i db0
             = match delete_by_id table id db0 with
               | (inr false, db') =>
                   (status_json 404 (JsonMessage message), db')
               | (inr true, db') => (status_send 204, db')
               | (inl _, db') =>
                   (status_json 500 (JsonMessage delete_failed), db')
               end).
  { intros db0; rewrite DELETE_is; unfold try_catch, bind, ret.
    rewrite Hi, delete_is, wire_delete_by_id by exact Hid.
    destruct (delete_by_id table id db0) as [[e|[|]] db']; reflexivity. }
  pose proof (delete_by_id_present table id db Hin) as Ht.
  pose proof (delete_by_id_removes table laws id db) as Hgone.
  pose proof (delete_by_id_absent table laws id _ Hgone) as Hf.
  rewrite (HD db).
  destruct (delete_by_id table id db) as [res db1]; cbn [fst snd] in *.
  subst res; cbn [fst snd].
  split; [reflexivity|]. split; [exact Hgone|].
  rewrite (HD db1), Hf; reflexivity.
Qed.

End WireDelete.

(** X19.  On the deployed server, for each of the four entities: the
    DELETE route on a stored id in the int4 range answers 204 and removes
    the id; the same DELETE sent again answers 404 and writes nothing. *)
Theorem stored_id_is_deleted_once (pf : Platform) (db : DB) (i : string)
    (id : Z) :
  deleted_once subjects (Wire.DELETE_subjects_id pf) "Subject not found"
    pf db i id
  /\ deleted_once studySessions (Wire.DELETE_study_sessions_id pf)
       "Study session not found" pf db i id
  /\ deleted_once notes (Wire.DELETE_notes_id pf) "Note not found" pf db i id
  /\ deleted_once goals (Wire.DELETE_goals_id pf) "Goal not found" pf db i id.
Proof.
  split; [|split; [|split]].
  - exact (deleted_once_at subjects subjects_laws Wire.deleteSubject _ _
             "Failed to delete subject" pf (fun _ => eq_refl)
             (fun _ => eq_refl) db i id).
  - exact (deleted_once_at studySessions studySessions_laws
             Wire.deleteStudySession _ _ "Failed to delete study session" pf
             (fun _ => eq_refl) (fun _ => eq_refl) db i id).
  - exact (deleted_once_at notes notes_laws Wire.deleteNote _ _
             "Failed to delete note" pf (fun _ => eq_refl)
             (fun _ => eq_refl) db i id).
  - exact (deleted_once_at goals goals_laws Wire.deleteGoal _ _
             "Failed to delete goal" pf (fun _ => eq_refl)
             (fun _ => eq_refl) db i id).
Qed.

Lemma stored_id_is_deleted_once_witness :
  fst (Wire.DELETE_subjects_id example "1" math_db) = status_send 204
  /\ fst (Wire.DELETE_subjects_id example "1"
            (snd (Wire.DELETE_subjects_id example "1" math_db)))
     = status_json 404 (JsonMessage "Subject not found").
Proof.
  destruct (stored_id_is_deleted_once example math_db "1" 1) as (H & _).
  destruct H as (H204 & _ & H404);
    [reflexivity|reflexivity|left; reflexivity|].
  split; [exact H204|rewrite H404; reflexivity].
Defined.

Lemma wire_reads_do_not_write (pf : Platform) (req : Wire.Request) (db : DB) :
  reads req = true -> snd (Wire.handle pf req db) = db.
Proof.
  destruct req as [|i|b|i b|i|date|b|i b|i|subjectId|b|i b|i
                  | |b|i b|i|date|b];
    cbn [reads Wire.handle]; intros Hr; try discriminate Hr.
  - reflexivity.
  - rewrite GET_subjects_id_of_get.
    change (Wire.getSubject (parseInt pf i))
      with (Wire.get_by_id subjects (parseInt pf i)).
    unfold Wire.get_by_id, Wire.where_.
    destruct (Wire.eq_ (pk subjects) (parseInt pf i)) as [p|]; [|reflexivity].
    unfold select_from, bind, ret; destruct (hd_error _); reflexivity.
  - unfold Wire.GET_study_sessions, try_catch.
    destruct date as [d|]; [|reflexivity].
    destruct (Wire.truthy d); [|reflexivity].
    unfold Wire.getStudySessionsByDate, Wire.where_.
    destruct (Wire.eq_ StudySession.date d); reflexivity.
  - unfold Wire.GET_notes, try_catch.
    destruct subjectId as [s|]; [|reflexivity].
    destruct (Wire.truthy s); [|reflexivity].
    unfold Wire.getNotesBySubject, Wire.where_, orderBy.
    destruct (Wire.eq_ Note.subjectId (parseInt pf (Wire.to_string s)));
      reflexivity.
  - reflexivity.
  - unfold Wire.GET_study_stats, try_catch.
    destruct date as [d|]; [|reflexivity].
    destruct (Wire.truthy d); [|reflexivity].
    unfold Wire.getStudyStatsByDate, Wire.where_.
    destruct (Wire.eq_ StudyStats.date d); [|reflexivity].
    unfold select_from, bind, ret; destruct (hd_error _); reflexivity.
Qed.

(** X20.  On the deployed server a GET request never writes, and any
    request writes to the table of its own collection at most: the users
    table and the tables of the other collections are the same after the
    request as before, whatever the request and the store.  In particular
    DELETE /api/subjects/:id leaves the study sessions and notes that
    refer to the subject in place. *)
Theorem deployed_request_writes_its_table_only (pf : Platform)
    (req : Wire.Request) (db : DB) :
  (reads req = true -> snd (Wire.handle pf req db) = db)
  /\ users_rows (snd (Wire.handle pf req db)) = users_rows db
  /\ (mounted_on req <> "subjects" ->
      subjects_rows (snd (Wire.handle pf req db)) = subjects_rows db)
  /\ (mounted_on req <> "study-sessions" ->
      studySessions_rows (snd (Wire.handle pf req db))
      = studySessions_rows db)
  /\ (mounted_on req <> "notes" ->
      notes_rows (snd (Wire.handle pf req db)) = notes_rows db)
  /\ (mounted_on req <> "goals" ->
      goals_rows (snd (Wire.handle pf req db)) = goals_rows db)
  /\ (mounted_on req <> "study-stats" ->
      studyStats_rows (snd (Wire.handle pf req db)) = studyStats_rows db).
Proof.
  split; [apply wire_reads_do_not_write|].
  pose proof (handle_answers pf req db) as Hs.
  destruct req; cbn [answers_of mounted_on] in *;
    destruct Hs as (_ & t & -> & _);
    (split; [reflexivity|]);
    (split; [intros Hc; try reflexivity; contradiction Hc; reflexivity|]);
    (split; [intros Hc; try reflexivity; contradiction Hc; reflexivity|]);
    (split; [intros Hc; try reflexivity; contradiction Hc; reflexivity|]);
    (split; intros Hc; try reflexivity; contradiction Hc; reflexivity).
Qed.

Lemma deployed_request_writes_its_table_only_witness :
  snd (Wire.handle example (Wire.GetSubject "2147483648") math_db) = math_db
  /\ studySessions_rows
       (snd (Wire.handle example (Wire.DeleteSubject "1") revision_db))
     = studySessions_rows revision_db.
Proof.
  split.
  - apply (deployed_request_writes_its_table_only example
             (Wire.GetSubject "2147483648") math_db).
    reflexivity.
  - apply (deployed_request_writes_its_table_only example
             (Wire.DeleteSubject "1") revision_db).
    discriminate.
Defined.

(** X21.  On the deployed server, under a collation that orders text
    totally and transitively, whenever GET /api/notes answers with a list
    (with or without subjectId), each note's createdAt is at most that of
    every note after it, and the list is a rearrangement of stored
    notes: all of them without a subjectId, those of the subject with one
    that [parseInt] reads in the int4 range. *)
Theorem deployed_notes_are_sorted (pf : Platform) (db : DB) :
  (forall a b, collation pf a b = true \/ collation pf b a = true) ->
  (forall a b c,
     collation pf a b = true -> collation pf b c = true ->
     collation pf a c = true) ->
  (forall q res db',
     Wire.GET_notes pf q db = (res, db') -> status res = 200 ->
     exists found,
       res = json (JsonNotes found)
       /\ StronglySorted (ascending (collation pf) Note.createdAt) found
       /\ (forall n, In n found -> In n (rows (notes_rows db))))
  /\ (exists found,
        Wire.GET_notes pf None db = (json (JsonNotes found), db)
        /\ StronglySorted (ascending (collation pf) Note.createdAt) found
        /\ Permutation found (rows (notes_rows db)))
  /\ (forall s S, s <> "" -> parseInt pf s = Some S -> int4 S = true ->
        exists found,
          Wire.GET_notes pf (Some (Wire.QString s)) db
          = (json (JsonNotes found), db)
          /\ StronglySorted (ascending (collation pf) Note.createdAt) found
          /\ Permutation found
               (filter (eq_ Note.subjectId S) (rows (notes_rows db)))).
Proof.
  intros Htotal Htrans.
  assert (Hall : forall l,
             exists found,
               found = sort_by (collation pf) Note.createdAt l
               /\ StronglySorted (ascending (collation pf) Note.createdAt) found
               /\ Permutation found l).
  { intros l; eexists; split; [reflexivity|].
    split; [apply sort_by_sorted; assumption
           |apply Permutation_sym, sort_by_perm]. }
  split; [|split].
  - intros q res db' E Hst.
    unfold Wire.GET_notes, try_catch in E.
    assert (Hlist : forall l,
               (forall n, In n l -> In n (rows (notes_rows db))) ->
               exists found,
                 json (JsonNotes (sort_by (collation pf) Note.createdAt l))
                 = json (JsonNotes found)
                 /\ StronglySorted (ascending (collation pf) Note.createdAt)
                      found
                 /\ (forall n, In n found -> In n (rows (notes_rows db)))).
    { intros l Hl; destruct (Hall l) as (found & -> & Hs & Hp).
      eexists; split; [reflexivity|]. split; [exact Hs|].
      intros n Hn; apply Hl; exact (Permutation_in n Hp Hn). }
    destruct q as [s|].
    + destruct (Wire.truthy s).
      * unfold Wire.getNotesBySubject, Wire.where_, orderBy in E.
        destruct (Wire.eq_ Note.subjectId (parseInt pf (Wire.to_string s)))
          as [p|]; cbn in E; injection E as <- <-.
        -- apply Hlist; intros n Hn; apply filter_In in Hn; tauto.
        -- discriminate Hst.
      * cbn in E; injection E as <- <-; apply Hlist; tauto.
    + cbn in E; injection E as <- <-; apply Hlist; tauto.
  - destruct (Hall (rows (notes_rows db))) as (found & E & Hs & Hp).
    exists found; rewrite E in *; split; [reflexivity|tauto].
  - intros s S Hs HS Hint.
    destruct (Hall (filter (eq_ Note.subjectId S) (rows (notes_rows db))))
      as (found & E & Hsorted & Hp).
    exists found; rewrite E in *; split; [|tauto].
    unfold Wire.GET_notes, try_catch; rewrite (wire_truthy s Hs).
    unfold Wire.getNotesBySubject, Wire.to_string; rewrite HS.
    rewrite bound_id by exact Hint; reflexivity.
Qed.

Lemma deployed_notes_are_sorted_witness :
  exists found,
    Wire.GET_notes example None notes_db = (json (JsonNotes found), notes_db)
    /\ StronglySorted (ascending bytewise_le Note.createdAt) found
    /\ Permutation found (rows (notes_rows notes_db)).
Proof.
  destruct (deployed_notes_are_sorted example notes_db) as (_ & H & _).
  - apply bytewise_le_total.
  - apply bytewise_le_trans.
  - exact H.
Defined.
